(** * SMPL processing worker: a shallow embedding of [smpl_processor.py]

    The worker runs one session through a fixed pipeline (download,
    validate, pose estimation, mesh fitting, guidance-asset generation,
    upload, event publication) and keeps process-wide statistics.

    The embedding follows the Python source method by method.  Mutable
    state ([self], the file system, the logs of what the outside world
    accepted) is threaded through a state-and-exception monad [M]; every
    call that leaves the process (S3, EventBridge, CloudWatch, the file
    system, the clock, the random generator) is answered by an oracle of
    the environment record [Env], so that a failure can be injected at
    every place where the Python code can raise.

    The container health check [healthcheck.py] is embedded in the module
    [Healthcheck]. *)

From Stdlib Require Import ZArith NArith Ascii String List Lia.
From stdpp Require Import base option list strings pretty gmap.

Open Scope string_scope.
Open Scope Z_scope.

(** ** Python values *)

(** A Python number.  A float is carried as a count of millionths
    ([PyFloat 850000] is [0.85]); every float literal of the source and the
    clock readings are exact at this resolution. *)
Inductive PyNum :=
| PyInt (z : Z)
| PyFloat (micros : Z).

(** What [ndarray.tolist()] returns. *)
#[warnings="-register-all"]
Inductive Tensor :=
| Scalar (x : PyNum)
| Arr (xs : list Tensor).

(** An image array built by [np.random.randint]: its shape and the index of
    the draw that filled it. *)
Record NdArray := mkNdArray { nd_shape : list N; nd_draw : nat }.

(** An exception instance: [type(e).__name__] and [str(e)].  Only
    subclasses of [Exception] are modelled; [KeyboardInterrupt] and
    [SystemExit] are outside the embedding. *)
Record Exn := mkExn { exn_type : string; exn_msg : string }.

Definition str_exn (e : Exn) : string := exn_msg e.

Inductive Outcome (A : Type) :=
| Ok (a : A)
| Raise (e : Exn).
Arguments Ok {A} a.
Arguments Raise {A} e.

(** A Python [dict] with string keys, in insertion order. *)
Definition dict (V : Type) := list (string * V).

Fixpoint dict_get {V} (k : string) (d : dict V) : option V :=
  match d with
  | [] => None
  | (k', v) :: rest => if String.eqb k k' then Some v else dict_get k rest
  end.

(** [d[k] = v]: an existing key keeps its position, a new key goes last. *)
Fixpoint dict_set {V} (k : string) (v : V) (d : dict V) : dict V :=
  match d with
  | [] => [(k, v)]
  | (k', v') :: rest =>
      if String.eqb k k' then (k, v) :: rest else (k', v') :: dict_set k v rest
  end.

Definition dict_keys {V} (d : dict V) : list string := map fst d.

(** ** Strings *)

Fixpoint has_char (sep : ascii) (s : string) : bool :=
  match s with
  | EmptyString => false
  | String c rest => Ascii.eqb c sep || has_char sep rest
  end.

(** [s.split(sep)[-1]]: the part of [s] after the last [sep], and all of
    [s] when [sep] does not occur. *)
Fixpoint split_last (sep : ascii) (s : string) : string :=
  match s with
  | EmptyString => EmptyString
  | String c rest =>
      if Ascii.eqb c sep || has_char sep rest then split_last sep rest
      else String c rest
  end.

(** [s.lower()] on ASCII. *)
Definition lower_ascii (c : ascii) : ascii :=
  let n := N_of_ascii c in
  if ((65 <=? n) && (n <=? 90))%N then ascii_of_N (n + 32) else c.

Fixpoint lower (s : string) : string :=
  match s with
  | EmptyString => EmptyString
  | String c rest => String (lower_ascii c) (lower rest)
  end.

(** [sub in s]. *)
Fixpoint contains (sub s : string) : bool :=
  String.prefix sub s ||
  match s with
  | EmptyString => false
  | String _ rest => contains sub rest
  end.

Fixpoint lstrip_slash (s : string) : string :=
  match s with
  | String "/" rest => lstrip_slash rest
  | _ => s
  end.

Fixpoint from_first_slash (s : string) : string :=
  match s with
  | EmptyString => EmptyString
  | String "/" _ => s
  | String _ rest => from_first_slash rest
  end.

(** [os.path.dirname]: the head up to the last slash, without its trailing
    slashes unless it consists of slashes only. *)
Definition dirname (p : string) : string :=
  let rhead := from_first_slash (String.rev p) in
  match lstrip_slash rhead with
  | EmptyString => String.rev rhead
  | stripped => String.rev stripped
  end.

(** ** Formatting numbers *)

(** [width] decimal digits of [n], most significant first. *)
Fixpoint digits (width : nat) (n : N) : string :=
  match width with
  | O => EmptyString
  | S k => String (pretty_N_char ((n / 10 ^ N.of_nat k) mod 10)%N) (digits k n)
  end.

Fixpoint strip_zeros (s : string) : string :=
  match s with
  | EmptyString => EmptyString
  | String c rest =>
      match strip_zeros rest with
      | EmptyString => if Ascii.eqb c "0" then EmptyString else String c EmptyString
      | rest' => String c rest'
      end
  end.

Definition sign_of (z : Z) : string := if z <? 0 then "-" else EmptyString.

(** [repr] of a float in positional notation: [170.0], [0.85]. *)
Definition float_repr (micros : Z) : string :=
  let a := Z.to_N (Z.abs micros) in
  let frac := strip_zeros (digits 6 (a mod 1000000)%N) in
  sign_of micros ++ pretty (a / 1000000)%N ++ "." ++
  (match frac with EmptyString => "0" | _ => frac end).

(** [str(x)] and [f"{x}"] for a number. *)
Definition str_num (x : PyNum) : string :=
  match x with
  | PyInt z => pretty z
  | PyFloat m => float_repr m
  end.

(** [num/den] rounded to the nearest integer, ties to even. *)
Definition round_half_even (num den : N) : N :=
  let q := (num / den)%N in
  let r := (num mod den)%N in
  match (2 * r ?= den)%N with
  | Lt => q
  | Gt => (q + 1)%N
  | Eq => if N.even q then q else (q + 1)%N
  end.

(** [f"{x:.2f}"] for the non-negative ratio [num/den]. *)
Definition fmt_2f (num den : N) : string :=
  let h := round_half_even (num * 100) den in
  pretty (h / 100)%N ++ "." ++ digits 2 (h mod 100)%N.

Definition fmt_2f_float (micros : Z) : string :=
  sign_of micros ++ fmt_2f (Z.to_N (Z.abs micros)) 1000000.

(** ** Data of the processor *)

(** [self.buckets], [self.event_bus_name], the limits and [self.model_paths],
    read from the process environment by [_load_config]. *)
Record Config := mkConfig {
  bucket_uploads : string;
  bucket_guidance : string;
  bucket_renders : string;
  bucket_smpl_assets : string;
  event_bus_name : string;
  max_processing_time : Z;
  max_image_size_mb : Z;
  batch_size : Z;
  model_path_smpl : string;
  model_path_weights : string;
  model_path_romp_config : string;
  model_path_smplify_config : string
}.

(** [self.stats]; the two times are clock readings in microseconds. *)
Record Stats := mkStats {
  processed_count : Z;
  error_count : Z;
  start_time : N;
  last_activity : N
}.

(** What [PIL.Image.open] reports about a file. *)
Record PilImage := mkPilImage {
  img_format : string;
  img_width : N;
  img_height : N
}.

(** A regular file, described by what the program can observe of it: its
    size in bytes, the image PIL decodes from it (if any) and what
    [cv2.imread] does with it: it returns an array of some
    [(height, width)], it returns [None] for a file it cannot decode, or it
    raises ([cv2.error], for a file whose header announces more pixels than
    [CV_IO_MAX_IMAGE_PIXELS]). *)
Record File := mkFile {
  file_size : N;
  file_pil : option PilImage;
  file_cv2 : Outcome (option (N * N))
}.

Inductive Node :=
| Dir
| Reg (f : File).

Record PoseEstimate := mkPoseEstimate {
  poses_3d : Tensor;
  poses_2d : Tensor;
  confidence : PyNum;
  bbox : list PyNum;
  person_detected : bool
}.

(** The [mesh_results] dictionary.  The fields that the source reads with
    [.get(key, default)] are optional. *)
Record MeshFit := mkMeshFit {
  body_shape : option Tensor;
  body_pose : Tensor;
  global_orient : Tensor;
  translation : list PyNum;
  gender : option string;
  fit_confidence : option PyNum;
  mesh_vertices : Z;
  estimated_measurements : option (dict PyNum)
}.

Record GuidanceAssetKeys := mkGuidanceAssetKeys {
  depthMapKey : string;
  normalMapKey : string;
  poseMapKey : string;
  segmentationKey : string;
  promptKey : string
}.

Record SmplMetadata := mkSmplMetadata {
  poseConfidence : PyNum;
  bodyShape : Tensor;
  estimatedMeasurements : dict PyNum;
  md_gender : string
}.

(** The object serialised into the [Detail] field of an event. *)
Inductive Detail :=
| CompletionDetail (sessionId userId : string) (guidanceAssets : GuidanceAssetKeys)
    (smplMetadata : SmplMetadata) (timestamp : N) (processingStage : string)
| ErrorDetail (sessionId userId error : string) (timestamp : N)
    (processingStage : string).

Record Event := mkEvent {
  ev_Source : string;
  ev_DetailType : string;
  ev_Detail : Detail;
  ev_EventBusName : string
}.

Record Metric := mkMetric {
  MetricName : string;
  Value : PyNum;
  Unit : string;
  Dimensions : dict string;
  Timestamp : N
}.

Inductive Level := INFO | ERROR.

Record LogRecord := mkLogRecord { lr_level : Level; lr_message : string }.

Record Upload := mkUpload {
  up_local_path : string;
  up_bucket : string;
  up_key : string;
  up_content_type : string
}.

(** The dictionary returned by [process_image]. *)
Record ProcessingResult := mkProcessingResult {
  status : string;
  session_id : string;
  processing_time : PyNum;
  guidance_assets : dict string;
  smpl_metadata : MeshFit
}.

(** ** The world: the processor object and what surrounds it *)

Record World := mkWorld {
  cfg : Config;                           (* configuration held by [self] *)
  smpl_models : dict string;              (* [self._smpl_models] *)
  stats : Stats;                          (* [self.stats] *)
  fs : gmap string Node;                  (* the local file system *)
  clock_reads : nat;                      (* clock readings taken so far *)
  rng_draws : nat;                        (* random arrays drawn so far *)
  downloads : list (string * string * string);  (* completed S3 downloads *)
  uploads : list Upload;                  (* completed S3 uploads *)
  events : list Event;                    (* entries the event bus accepted *)
  metrics : list Metric;                  (* data points CloudWatch accepted *)
  log : list LogRecord                    (* records written by [logger] *)
}.

Definition set_smpl_models (v : dict string) (w : World) : World :=
  mkWorld (cfg w) v (stats w) (fs w) (clock_reads w) (rng_draws w)
    (downloads w) (uploads w) (events w) (metrics w) (log w).
Definition set_stats (v : Stats) (w : World) : World :=
  mkWorld (cfg w) (smpl_models w) v (fs w) (clock_reads w) (rng_draws w)
    (downloads w) (uploads w) (events w) (metrics w) (log w).
Definition set_fs (v : gmap string Node) (w : World) : World :=
  mkWorld (cfg w) (smpl_models w) (stats w) v (clock_reads w) (rng_draws w)
    (downloads w) (uploads w) (events w) (metrics w) (log w).
Definition set_clock_reads (v : nat) (w : World) : World :=
  mkWorld (cfg w) (smpl_models w) (stats w) (fs w) v (rng_draws w)
    (downloads w) (uploads w) (events w) (metrics w) (log w).
Definition set_rng_draws (v : nat) (w : World) : World :=
  mkWorld (cfg w) (smpl_models w) (stats w) (fs w) (clock_reads w) v
    (downloads w) (uploads w) (events w) (metrics w) (log w).
Definition set_downloads (v : list (string * string * string)) (w : World) : World :=
  mkWorld (cfg w) (smpl_models w) (stats w) (fs w) (clock_reads w) (rng_draws w)
    v (uploads w) (events w) (metrics w) (log w).
Definition set_uploads (v : list Upload) (w : World) : World :=
  mkWorld (cfg w) (smpl_models w) (stats w) (fs w) (clock_reads w) (rng_draws w)
    (downloads w) v (events w) (metrics w) (log w).
Definition set_events (v : list Event) (w : World) : World :=
  mkWorld (cfg w) (smpl_models w) (stats w) (fs w) (clock_reads w) (rng_draws w)
    (downloads w) (uploads w) v (metrics w) (log w).
Definition set_metrics (v : list Metric) (w : World) : World :=
  mkWorld (cfg w) (smpl_models w) (stats w) (fs w) (clock_reads w) (rng_draws w)
    (downloads w) (uploads w) (events w) v (log w).
Definition set_log (v : list LogRecord) (w : World) : World :=
  mkWorld (cfg w) (smpl_models w) (stats w) (fs w) (clock_reads w) (rng_draws w)
    (downloads w) (uploads w) (events w) (metrics w) v.

(** ** The environment: one oracle per call that leaves the process *)

Record Env := mkEnv {
  (* the [k]-th reading of the system clock, microseconds since the epoch *)
  clock : nat -> N;
  (* [np.random.randn(shape).tolist()], by index of the draw *)
  randn : nat -> list nat -> Tensor;
  (* [os.makedirs(path, exist_ok=True)] *)
  makedirs : string -> option Exn;
  (* [s3_client.download_file(bucket, key, local_path)]: the file fetched *)
  download_file : string -> string -> string -> Outcome File;
  (* [s3_client.upload_file(local_path, bucket, key, content_type)] *)
  upload_file : string -> string -> string -> string -> option Exn;
  (* [cv2.imwrite(path, array)]: raises, returns [False] or writes a file *)
  imwrite : string -> NdArray -> Outcome (option File);
  (* [open(path, 'w')] followed by [write(text)] *)
  write_text : string -> string -> Outcome File;
  (* [events_client.put_events]: raises or answers with [FailedEntryCount] *)
  put_events : Event -> Outcome N;
  (* [cloudwatch.put_metric_data(Namespace, MetricData=[metric])] *)
  put_metric_data : string -> Metric -> option Exn;
  (* [shutil.rmtree(path)] *)
  rmtree : string -> option Exn;
  (* [traceback.format_exc()] while the exception is being handled *)
  format_exc : Exn -> string;
  (* [psutil.virtual_memory().percent] and [psutil.cpu_percent()], by the
     number of clock readings taken before the call *)
  virtual_memory_percent : nat -> PyNum;
  cpu_percent : nat -> PyNum
}.

(** ** State and exceptions *)

Definition M (A : Type) : Type := World -> Outcome A * World.

Definition ret {A} (a : A) : M A := fun w => (Ok a, w).

Definition raise {A} (e : Exn) : M A := fun w => (Raise e, w).

Definition bind {A B} (m : M A) (k : A -> M B) : M B :=
  fun w =>
    match m w with
    | (Ok a, w') => k a w'
    | (Raise e, w') => (Raise e, w')
    end.

Declare Scope py_scope.
Delimit Scope py_scope with py.
Notation "x <- m ;; k" := (bind m (fun x => k))
  (at level 100, m at next level, right associativity) : py_scope.
Notation "m ;; k" := (bind m (fun _ => k))
  (at level 100, right associativity) : py_scope.
Open Scope py_scope.

(** [try: m  except Exception as e: h e]. *)
Definition try_except {A} (m : M A) (h : Exn -> M A) : M A :=
  fun w =>
    match m w with
    | (Ok a, w') => (Ok a, w')
    | (Raise e, w') => h e w'
    end.

(** [try: m  finally: f]; an exception of [f] replaces the outcome of [m]. *)
Definition try_finally {A} (m : M A) (f : M unit) : M A :=
  fun w =>
    match m w with
    | (r, w') =>
        match f w' with
        | (Ok _, w'') => (r, w'')
        | (Raise e, w'') => (Raise e, w'')
        end
    end.

Definition gets {A} (f : World -> A) : M A := fun w => (Ok (f w), w).

Definition modify (f : World -> World) : M unit := fun w => (Ok tt, f w).

(** An oracle that either raises or lets the call go through. *)
Definition check (r : option Exn) : M unit :=
  match r with
  | Some e => raise e
  | None => ret tt
  end.

Definition lift {A} (r : Outcome A) : M A :=
  match r with
  | Ok a => ret a
  | Raise e => raise e
  end.

(** ** Calls that leave the process *)

Definition logger_info (msg : string) : M unit :=
  modify (fun w => set_log (log w ++ [mkLogRecord INFO msg]) w).

Definition logger_error (msg : string) : M unit :=
  modify (fun w => set_log (log w ++ [mkLogRecord ERROR msg]) w).

Definition read_clock (env : Env) : M N :=
  fun w => (Ok (clock env (clock_reads w)), set_clock_reads (S (clock_reads w)) w).

(** [time.time()]: seconds as a float, here in microseconds. *)
Definition time_time (env : Env) : M Z :=
  t <- read_clock env ;; ret (Z.of_N t).

(** [datetime.utcnow()]. *)
Definition datetime_utcnow (env : Env) : M N := read_clock env.

(** [int(t)] for a float [t] of seconds. *)
Definition int_of_seconds (micros : Z) : Z := Z.quot micros 1000000.

Definition FileNotFoundError (path : string) : Exn :=
  mkExn "FileNotFoundError" ("[Errno 2] No such file or directory: '" ++ path ++ "'").

Definition os_makedirs (env : Env) (path : string) : M unit :=
  check (makedirs env path) ;;
  modify (fun w =>
    match fs w !! path with
    | Some _ => w
    | None => set_fs (<[path := Dir]> (fs w)) w
    end).

Definition os_path_exists (path : string) : M bool :=
  gets (fun w => match fs w !! path with Some _ => true | None => false end).

(** [os.path.getsize]; a directory reports the size of its own entry. *)
Definition os_path_getsize (path : string) : M N :=
  n <- gets (fun w => fs w !! path) ;;
  match n with
  | Some (Reg f) => ret (file_size f)
  | Some Dir => ret 4096%N
  | None => raise (FileNotFoundError path)
  end.

Definition s3_download_file (env : Env) (bucket key local_path : string) : M unit :=
  f <- lift (download_file env bucket key local_path) ;;
  modify (fun w =>
    set_downloads (downloads w ++ [(bucket, key, local_path)])
      (set_fs (<[local_path := Reg f]> (fs w)) w)).

Definition s3_upload_file (env : Env) (local_path bucket key content_type : string)
  : M unit :=
  n <- gets (fun w => fs w !! local_path) ;;
  match n with
  | Some (Reg _) =>
      check (upload_file env local_path bucket key content_type) ;;
      modify (fun w =>
        set_uploads (uploads w ++ [mkUpload local_path bucket key content_type]) w)
  | _ => raise (FileNotFoundError local_path)
  end.

Definition Image_open (path : string) : M PilImage :=
  n <- gets (fun w => fs w !! path) ;;
  match n with
  | Some (Reg f) =>
      match file_pil f with
      | Some img => ret img
      | None =>
          raise (mkExn "UnidentifiedImageError"
                   ("cannot identify image file '" ++ path ++ "'"))
      end
  | Some Dir =>
      raise (mkExn "IsADirectoryError" ("[Errno 21] Is a directory: '" ++ path ++ "'"))
  | None => raise (FileNotFoundError path)
  end.

(** [cv2.imread] answers [None] for a path that is not a file, and for a
    file what the file makes it do. *)
Definition cv2_imread (path : string) : M (option (N * N)) :=
  n <- gets (fun w => fs w !! path) ;;
  match n with
  | Some (Reg f) => lift (file_cv2 f)
  | _ => ret None
  end.

Definition cv2_imwrite (env : Env) (path : string) (arr : NdArray) : M bool :=
  r <- lift (imwrite env path arr) ;;
  match r with
  | Some f => modify (fun w => set_fs (<[path := Reg f]> (fs w)) w) ;; ret true
  | None => ret false
  end.

Definition open_write (env : Env) (path text : string) : M unit :=
  f <- lift (write_text env path text) ;;
  modify (fun w => set_fs (<[path := Reg f]> (fs w)) w).

(** [events_client.put_events(Entries=[event])]: the bus holds the entry
    when the call returns with no failed entry. *)
Definition events_put_events (env : Env) (event : Event) : M N :=
  failed <- lift (put_events env event) ;;
  (if (failed =? 0)%N
   then modify (fun w => set_events (events w ++ [event]) w)
   else ret tt) ;;
  ret failed.

Definition cloudwatch_put_metric_data (env : Env) (namespace : string) (m : Metric)
  : M unit :=
  check (put_metric_data env namespace m) ;;
  modify (fun w => set_metrics (metrics w ++ [m]) w).

(** [p] is [root] or lies below it. *)
Definition in_tree (root p : string) : bool :=
  String.eqb p root || String.prefix (root ++ "/") p.

Definition shutil_rmtree (env : Env) (path : string) : M unit :=
  check (rmtree env path) ;;
  modify (fun w =>
    set_fs (filter (fun kv => in_tree path (fst kv) = false) (fs w)) w).

Definition np_random_randn (env : Env) (shape : list nat) : M Tensor :=
  fun w => (Ok (randn env (rng_draws w) shape), set_rng_draws (S (rng_draws w)) w).

Definition np_random_randint (shape : list N) : M NdArray :=
  fun w => (Ok (mkNdArray shape (rng_draws w)), set_rng_draws (S (rng_draws w)) w).

(** ** class SMPLProcessor *)

Definition nonempty (s : string) : bool :=
  match s with EmptyString => false | _ => true end.

(** [__init__]: the state of a processor started on disk [disk] with the
    configuration [c] that [_load_config] read. *)
Definition SMPLProcessor_init (env : Env) (stage : string) (c : Config)
    (disk : gmap string Node) : World :=
  let blank := mkWorld c [] (mkStats 0 0 0 0) disk 0 0 [] [] [] [] [] in
  let buckets :=
    [bucket_uploads c; bucket_guidance c; bucket_renders c; bucket_smpl_assets c] in
  snd ((logger_info "AWS clients initialized successfully" ;;
        logger_info ("Configuration loaded: " ++
                     pretty (length (List.filter nonempty buckets)) ++
                     " buckets configured") ;;
        t_start <- datetime_utcnow env ;;
        t_last <- datetime_utcnow env ;;
        modify (set_stats (mkStats 0 0 t_start t_last)) ;;
        logger_info ("SMPLProcessor initialized for stage: " ++ stage)) blank).

Definition model_files : list string :=
  [ "basicModel_f_lbs_10_207_0_v1.0.0.pkl";
    "basicModel_m_lbs_10_207_0_v1.0.0.pkl";
    "basicModel_neutral_lbs_10_207_0_v1.0.0.pkl" ].

(** The [for model_file in model_files] loop of [_load_smpl_models]. *)
Fixpoint download_models (env : Env) (files : list string) : M unit :=
  match files with
  | [] => ret tt
  | model_file :: rest =>
      c <- gets cfg ;;
      let s3_key := "models/" ++ model_file in
      let local_path := model_path_smpl c ++ "/" ++ model_file in
      present <- os_path_exists local_path ;;
      (if present then ret tt
       else
         os_makedirs env (dirname local_path) ;;
         s3_download_file env (bucket_smpl_assets c) s3_key local_path ;;
         logger_info ("Downloaded SMPL model: " ++ model_file)) ;;
      download_models env rest
  end.

Definition _load_smpl_models (env : Env) : M unit :=
  loaded <- gets smpl_models ;;
  match loaded with
  | _ :: _ => ret tt
  | [] =>
      try_except
        (logger_info "Loading SMPL models from S3..." ;;
         download_models env model_files ;;
         c <- gets cfg ;;
         modify (set_smpl_models
           [ ("female", model_path_smpl c ++ "/basicModel_f_lbs_10_207_0_v1.0.0.pkl");
             ("male", model_path_smpl c ++ "/basicModel_m_lbs_10_207_0_v1.0.0.pkl");
             ("neutral",
              model_path_smpl c ++ "/basicModel_neutral_lbs_10_207_0_v1.0.0.pkl") ]) ;;
         logger_info "SMPL models loaded successfully")
        (fun e =>
           logger_error ("Failed to load SMPL models: " ++ str_exn e) ;;
           raise e)
  end.

Definition allowed_formats : list string := ["JPEG"; "PNG"; "WEBP"].

Definition one_mb : Z := 1024 * 1024.

(** [_validate_image].  [file_size_mb > max_image_size_mb] compares the
    exact quotient [size / 2^20] with an integer, that is [size] with
    [max_image_size_mb * 2^20]. *)
Definition _validate_image (image_path image_type : string) : M unit :=
  try_except
    (size <- os_path_getsize image_path ;;
     c <- gets cfg ;;
     (if Z.of_N size >? max_image_size_mb c * one_mb
      then raise (mkExn "ValueError"
             (image_type ++ " image too large: " ++ fmt_2f size (Z.to_N one_mb) ++
              "MB > " ++ pretty (max_image_size_mb c) ++ "MB"))
      else ret tt) ;;
     img <- Image_open image_path ;;
     (if negb (existsb (String.eqb (img_format img)) allowed_formats)
      then raise (mkExn "ValueError"
             ("Unsupported " ++ image_type ++ " image format: " ++ img_format img))
      else ret tt) ;;
     (if (img_width img <? 256)%N || (img_height img <? 256)%N
      then raise (mkExn "ValueError"
             (image_type ++ " image too small: " ++ pretty (img_width img) ++ "x" ++
              pretty (img_height img) ++ " < 256x256"))
      else ret tt) ;;
     logger_info ("Validated " ++ image_type ++ " image: " ++ pretty (img_width img) ++
                  "x" ++ pretty (img_height img) ++ " " ++ img_format img))
    (fun e =>
       logger_error ("Image validation failed for " ++ image_type ++ ": " ++ str_exn e) ;;
       raise e).

Definition _download_input_images (env : Env)
    (session_id avatar_key garment_key temp_dir : string) : M (string * string) :=
  let avatar_path := temp_dir ++ "/avatar.jpg" in
  let garment_path := temp_dir ++ "/garment.jpg" in
  try_except
    (c <- gets cfg ;;
     s3_download_file env (bucket_uploads c) avatar_key avatar_path ;;
     s3_download_file env (bucket_uploads c) garment_key garment_path ;;
     _validate_image avatar_path "avatar" ;;
     _validate_image garment_path "garment" ;;
     logger_info ("Input images downloaded for session " ++ session_id) ;;
     ret (avatar_path, garment_path))
    (fun e =>
       logger_error ("Failed to download input images: " ++ str_exn e) ;;
       raise e).

(** [d[key]] for an optional entry. *)
Definition getitem {A} (key : string) (entry : option A) : M A :=
  match entry with
  | Some a => ret a
  | None => raise (mkExn "KeyError" ("'" ++ key ++ "'"))
  end.

Definition NoneType_shape : Exn :=
  mkExn "AttributeError" "'NoneType' object has no attribute 'shape'".

(** [n * x] for an integer [n] and the float of [micros] millionths. *)
Definition mul_float (n : N) (micros : Z) : PyNum := PyFloat (Z.of_N n * micros).

Definition _estimate_pose_romp (env : Env) (image_path temp_dir : string)
  : M PoseEstimate :=
  logger_info "Estimating 3D pose using ROMP..." ;;
  try_except
    (img <- cv2_imread image_path ;;
     match img with
     | None => raise NoneType_shape
     | Some (height, width) =>
         p3 <- np_random_randn env [1; 24; 3]%nat ;;
         p2 <- np_random_randn env [1; 17; 2]%nat ;;
         let pose_results :=
           {| poses_3d := p3;
              poses_2d := p2;
              confidence := PyFloat 850000;
              bbox := [ mul_float width 250000; mul_float height 100000;
                        mul_float width 500000; mul_float height 800000 ];
              person_detected := true |} in
         logger_info ("Pose estimation completed with confidence: " ++
                      str_num (confidence pose_results)) ;;
         ret pose_results
     end)
    (fun e =>
       logger_error ("Pose estimation failed: " ++ str_exn e) ;;
       raise e).

Definition _fit_body_mesh (env : Env) (image_path : string)
    (pose_results : PoseEstimate) (temp_dir : string) : M MeshFit :=
  logger_info "Fitting SMPL body mesh..." ;;
  try_except
    (_load_smpl_models env ;;
     shape <- np_random_randn env [10]%nat ;;
     pose <- np_random_randn env [72]%nat ;;
     orient <- np_random_randn env [3]%nat ;;
     let mesh_results :=
       {| body_shape := Some shape;
          body_pose := pose;
          global_orient := orient;
          translation := [PyFloat 0; PyFloat 0; PyFloat 2000000];
          gender := Some "neutral";
          fit_confidence := Some (PyFloat 780000);
          mesh_vertices := 6890;
          estimated_measurements :=
            Some [ ("height_cm", PyFloat 170000000);
                   ("chest_cm", PyFloat 88000000);
                   ("waist_cm", PyFloat 72000000);
                   ("hip_cm", PyFloat 95000000) ] |} in
     fit <- getitem "fit_confidence" (fit_confidence mesh_results) ;;
     logger_info ("Body mesh fitted with confidence: " ++ str_num fit) ;;
     ret mesh_results)
    (fun e =>
       logger_error ("Body mesh fitting failed: " ++ str_exn e) ;;
       raise e).

Definition _generate_text_prompt (mesh_results : MeshFit) (garment_path : string)
  : string :=
  let measurements := default [] (estimated_measurements mesh_results) in
  let gender := default "neutral" (gender mesh_results) in
  let prompt :=
    "A " ++ gender ++ " person with height " ++
    str_num (default (PyInt 170) (dict_get "height_cm" measurements)) ++ "cm, " in
  let prompt := prompt ++ "wearing fashionable clothing, standing pose, " in
  let prompt := prompt ++ "professional photography, high quality, detailed textures, " in
  let prompt := prompt ++ "natural lighting, realistic proportions" in
  prompt.

Definition _generate_guidance_assets (env : Env) (avatar_path garment_path : string)
    (pose_results : PoseEstimate) (mesh_results : MeshFit) (temp_dir : string)
  : M (dict string) :=
  logger_info "Generating guidance assets..." ;;
  try_except
    (avatar_img <- cv2_imread avatar_path ;;
     match avatar_img with
     | None => raise NoneType_shape
     | Some (height, width) =>
         let guidance_assets : dict string := [] in
         depth_map <- np_random_randint [height; width] ;;
         let depth_path := temp_dir ++ "/depth.png" in
         cv2_imwrite env depth_path depth_map ;;
         let guidance_assets := dict_set "depth" depth_path guidance_assets in
         normal_map <- np_random_randint [height; width; 3%N] ;;
         let normal_path := temp_dir ++ "/normals.png" in
         cv2_imwrite env normal_path normal_map ;;
         let guidance_assets := dict_set "normals" normal_path guidance_assets in
         pose_map <- np_random_randint [height; width; 3%N] ;;
         let pose_path := temp_dir ++ "/pose.png" in
         cv2_imwrite env pose_path pose_map ;;
         let guidance_assets := dict_set "pose" pose_path guidance_assets in
         seg_mask <- np_random_randint [height; width] ;;
         let seg_path := temp_dir ++ "/segments.png" in
         cv2_imwrite env seg_path seg_mask ;;
         let guidance_assets := dict_set "segments" seg_path guidance_assets in
         let prompt := _generate_text_prompt mesh_results garment_path in
         let prompt_path := temp_dir ++ "/prompt.txt" in
         open_write env prompt_path prompt ;;
         let guidance_assets := dict_set "prompt" prompt_path guidance_assets in
         logger_info ("Generated " ++ pretty (length guidance_assets) ++
                      " guidance assets") ;;
         ret guidance_assets
     end)
    (fun e =>
       logger_error ("Guidance asset generation failed: " ++ str_exn e) ;;
       raise e).

Definition content_types : dict string :=
  [ ("png", "image/png"); ("jpg", "image/jpeg"); ("jpeg", "image/jpeg");
    ("txt", "text/plain") ].

Definition _get_content_type (file_path : string) : string :=
  let ext := split_last "." (lower file_path) in
  default "application/octet-stream" (dict_get ext content_types).

(** The key under which one asset is stored. *)
Definition s3_key_of (asset_type session_id : string) (timestamp : Z)
    (local_path : string) : string :=
  asset_type ++ "/" ++ session_id ++ "-" ++ pretty timestamp ++ "." ++
  split_last "." local_path.

(** The [for asset_type, local_path in guidance_assets.items()] loop of
    [_upload_guidance_assets]. *)
Fixpoint upload_assets (env : Env) (session_id : string)
    (items : list (string * string)) (s3_keys : dict string) : M (dict string) :=
  match items with
  | [] => ret s3_keys
  | (asset_type, local_path) :: rest =>
      now <- time_time env ;;
      let timestamp := int_of_seconds now in
      let s3_key := s3_key_of asset_type session_id timestamp local_path in
      c <- gets cfg ;;
      s3_upload_file env local_path (bucket_guidance c) s3_key
        (_get_content_type local_path) ;;
      let s3_keys := dict_set asset_type s3_key s3_keys in
      logger_info ("Uploaded " ++ asset_type ++ " asset: " ++ s3_key) ;;
      upload_assets env session_id rest s3_keys
  end.

Definition _upload_guidance_assets (env : Env) (session_id : string)
    (guidance_assets : dict string) (temp_dir : string) : M (dict string) :=
  logger_info ("Uploading guidance assets for session " ++ session_id) ;;
  try_except
    (upload_assets env session_id guidance_assets [])
    (fun e =>
       logger_error ("Failed to upload guidance assets: " ++ str_exn e) ;;
       raise e).

Definition completion_detail_type : string := "Guidance Assets Ready".
Definition error_detail_type : string := "SMPL Processing Failed".

Definition _publish_completion_event (env : Env) (session_id user_id : string)
    (s3_keys : dict string) (mesh_results : MeshFit) : M unit :=
  try_except
    (now <- datetime_utcnow env ;;
     c <- gets cfg ;;
     let event :=
       {| ev_Source := "garmax-ai.smpl";
          ev_DetailType := completion_detail_type;
          ev_Detail :=
            CompletionDetail session_id user_id
              {| depthMapKey := default EmptyString (dict_get "depth" s3_keys);
                 normalMapKey := default EmptyString (dict_get "normals" s3_keys);
                 poseMapKey := default EmptyString (dict_get "pose" s3_keys);
                 segmentationKey := default EmptyString (dict_get "segments" s3_keys);
                 promptKey := default EmptyString (dict_get "prompt" s3_keys) |}
              {| poseConfidence := default (PyFloat 0) (fit_confidence mesh_results);
                 bodyShape := default (Arr []) (body_shape mesh_results);
                 estimatedMeasurements :=
                   default [] (estimated_measurements mesh_results);
                 md_gender := default "neutral" (gender mesh_results) |}
              now "smpl-complete";
          ev_EventBusName := event_bus_name c |} in
     failed <- events_put_events env event ;;
     (if (0 <? failed)%N
      then
        logger_error ("Failed to publish event: {'FailedEntryCount': " ++
                      pretty failed ++ "}") ;;
        raise (mkExn "Exception" "EventBridge publish failed")
      else ret tt) ;;
     logger_info ("Published guidance-ready event for session " ++ session_id))
    (fun e =>
       logger_error ("Failed to publish completion event: " ++ str_exn e) ;;
       raise e).

Definition _publish_error_event (env : Env) (session_id user_id error_message : string)
  : M unit :=
  try_except
    (now <- datetime_utcnow env ;;
     c <- gets cfg ;;
     let event :=
       {| ev_Source := "garmax-ai.smpl";
          ev_DetailType := error_detail_type;
          ev_Detail := ErrorDetail session_id user_id error_message now "smpl-error";
          ev_EventBusName := event_bus_name c |} in
     events_put_events env event ;;
     logger_info ("Published error event for session " ++ session_id))
    (fun e => logger_error ("Failed to publish error event: " ++ str_exn e)).

Definition _send_metrics (env : Env) (metric_name : string) (value : PyNum)
    (dimensions : dict string) : M unit :=
  try_except
    (now <- datetime_utcnow env ;;
     cloudwatch_put_metric_data env "GarmaxAi/SMPL"
       {| MetricName := metric_name;
          Value := value;
          Unit := if contains "Count" metric_name || contains "Error" metric_name
                  then "Count" else "Seconds";
          Dimensions := dimensions;
          Timestamp := now |})
    (fun e => logger_error ("Failed to send metrics: " ++ str_exn e)).

Definition _cleanup_temp_files (env : Env) (temp_dir : string) : M unit :=
  try_except
    (present <- os_path_exists temp_dir ;;
     if present
     then
       shutil_rmtree env temp_dir ;;
       logger_info ("Cleaned up temporary directory: " ++ temp_dir)
     else ret tt)
    (fun e => logger_error ("Failed to cleanup temp files: " ++ str_exn e)).

Definition count_processed (s : Stats) : Stats :=
  mkStats (processed_count s + 1) (error_count s) (start_time s) (last_activity s).

Definition count_error (s : Stats) : Stats :=
  mkStats (processed_count s) (error_count s + 1) (start_time s) (last_activity s).

Definition touch_last_activity (t : N) (s : Stats) : Stats :=
  mkStats (processed_count s) (error_count s) (start_time s) t.

Definition temp_dir_of (session_id : string) : string := "/app/temp/" ++ session_id.

(** Steps 1 to 6 of the [try] block of [process_image], with the
    pose-estimation method it dispatches to as a parameter: the uploaded
    keys and the mesh fit. *)
Definition run_stages
    (estimate_pose : Env -> string -> string -> M PoseEstimate)
    (env : Env) (session_id user_id avatar_image_key garment_image_key : string)
    (temp_dir : string) : M (dict string * MeshFit) :=
  os_makedirs env temp_dir ;;
  logger_info ("Processing session " ++ session_id ++ " for user " ++ user_id) ;;
  paths <- _download_input_images env session_id avatar_image_key
             garment_image_key temp_dir ;;
  let avatar_path := fst paths in
  let garment_path := snd paths in
  pose_results <- estimate_pose env avatar_path temp_dir ;;
  mesh_results <- _fit_body_mesh env avatar_path pose_results temp_dir ;;
  guidance_assets <- _generate_guidance_assets env avatar_path garment_path
                       pose_results mesh_results temp_dir ;;
  s3_keys <- _upload_guidance_assets env session_id guidance_assets temp_dir ;;
  _publish_completion_event env session_id user_id s3_keys mesh_results ;;
  ret (s3_keys, mesh_results).

(** The rest of the [try] block: statistics, success metrics and the
    returned dictionary. *)
Definition report_success (env : Env) (session_id : string) (start_time : Z)
    (s3_keys : dict string) (mesh_results : MeshFit) : M ProcessingResult :=
  now <- time_time env ;;
  let processing_time := now - start_time in
  modify (fun w => set_stats (count_processed (stats w)) w) ;;
  t <- datetime_utcnow env ;;
  modify (fun w => set_stats (touch_last_activity t (stats w)) w) ;;
  logger_info ("Session " ++ session_id ++ " processed successfully in " ++
               fmt_2f_float processing_time ++ "s") ;;
  _send_metrics env "SMPL.ProcessingSuccess" (PyInt 1) [("SessionId", session_id)] ;;
  _send_metrics env "SMPL.ProcessingTime" (PyFloat processing_time)
    [("SessionId", session_id)] ;;
  ret {| status := "success";
         session_id := session_id;
         processing_time := PyFloat processing_time;
         guidance_assets := s3_keys;
         smpl_metadata := mesh_results |}.

(** The [except Exception as e] block. *)
Definition report_failure (env : Env) (session_id user_id : string) (e : Exn)
  : M ProcessingResult :=
  modify (fun w => set_stats (count_error (stats w)) w) ;;
  logger_error ("Failed to process session " ++ session_id ++ ": " ++ str_exn e) ;;
  logger_error ("Traceback: " ++ format_exc env e) ;;
  _send_metrics env "SMPL.ProcessingError" (PyInt 1)
    [("SessionId", session_id); ("ErrorType", exn_type e)] ;;
  _publish_error_event env session_id user_id (str_exn e) ;;
  raise e.

Definition process_image_with
    (estimate_pose : Env -> string -> string -> M PoseEstimate)
    (env : Env) (session_id user_id avatar_image_key garment_image_key : string)
  : M ProcessingResult :=
  start_time <- time_time env ;;
  let temp_dir := temp_dir_of session_id in
  try_finally
    (try_except
       (r <- run_stages estimate_pose env session_id user_id avatar_image_key
               garment_image_key temp_dir ;;
        report_success env session_id start_time (fst r) (snd r))
       (report_failure env session_id user_id))
    (_cleanup_temp_files env temp_dir).

Definition process_image : Env -> string -> string -> string -> string ->
    M ProcessingResult :=
  process_image_with _estimate_pose_romp.

(** A value of the dictionary returned by [get_health_status]; [VIso t] is
    the ISO-8601 text of the clock reading [t]. *)
Inductive PyVal :=
| VStr (s : string)
| VNum (x : PyNum)
| VBool (b : bool)
| VIso (t : N).

Definition get_health_status (env : Env) : M (dict PyVal) :=
  memory_usage <- gets (fun w => virtual_memory_percent env (clock_reads w)) ;;
  cpu_usage <- gets (fun w => cpu_percent env (clock_reads w)) ;;
  now <- datetime_utcnow env ;;
  st <- gets stats ;;
  models <- gets smpl_models ;;
  ret [ ("status", VStr "healthy");
        ("uptime_seconds", VNum (PyFloat (Z.of_N now - Z.of_N (start_time st))));
        ("processed_count", VNum (PyInt (processed_count st)));
        ("error_count", VNum (PyInt (error_count st)));
        ("memory_usage_percent", VNum memory_usage);
        ("cpu_usage_percent", VNum cpu_usage);
        ("last_activity", VIso (last_activity st));
        ("models_loaded", VBool (match models with [] => false | _ => true end)) ].

(** ** Variations of the environment and of the pose stage *)

Definition set_put_events (f : Event -> Outcome N) (env : Env) : Env :=
  mkEnv (clock env) (randn env) (makedirs env) (download_file env) (upload_file env)
    (imwrite env) (write_text env) f (put_metric_data env) (rmtree env)
    (format_exc env) (virtual_memory_percent env) (cpu_percent env).

Definition set_put_metric_data (f : string -> Metric -> option Exn) (env : Env) : Env :=
  mkEnv (clock env) (randn env) (makedirs env) (download_file env) (upload_file env)
    (imwrite env) (write_text env) (put_events env) f (rmtree env)
    (format_exc env) (virtual_memory_percent env) (cpu_percent env).


Definition set_download_file (f : string -> string -> string -> Outcome File)
    (env : Env) : Env :=
  mkEnv (clock env) (randn env) (makedirs env) f (upload_file env)
    (imwrite env) (write_text env) (put_events env) (put_metric_data env) (rmtree env)
    (format_exc env) (virtual_memory_percent env) (cpu_percent env).

Definition set_clock (f : nat -> N) (env : Env) : Env :=
  mkEnv f (randn env) (makedirs env) (download_file env) (upload_file env)
    (imwrite env) (write_text env) (put_events env) (put_metric_data env) (rmtree env)
    (format_exc env) (virtual_memory_percent env) (cpu_percent env).

Definition is_error_event (ev : Event) : bool :=
  String.eqb (ev_DetailType ev) error_detail_type.

(** The environment [env] with other answers on its two best-effort
    channels: [sink] for every metric submission and [bus] for the
    publication of failure events.  Completion events are answered as in
    [env]. *)
Definition with_best_effort_channels (sink : string -> Metric -> option Exn)
    (bus : Event -> Outcome N) (env : Env) : Env :=
  set_put_metric_data sink
    (set_put_events
       (fun ev => if is_error_event ev then bus ev else put_events env ev) env).

(** A pose stage that behaves as [estimate_pose] but reports that it found
    nobody. *)
Definition no_person (estimate_pose : Env -> string -> string -> M PoseEstimate)
  : Env -> string -> string -> M PoseEstimate :=
  fun env image_path temp_dir =>
    p <- estimate_pose env image_path temp_dir ;;
    ret {| poses_3d := poses_3d p;
           poses_2d := poses_2d p;
           confidence := PyFloat 0;
           bbox := bbox p;
           person_detected := false |}.

(** Successive calls of [_load_smpl_models] in one process, the [i]-th
    under the environment [envs !! i]: the outcomes and the final world. *)
Fixpoint load_repeatedly (envs : list Env) (w : World) : list (Outcome unit) * World :=
  match envs with
  | [] => ([], w)
  | env :: rest =>
      let (r, w1) := _load_smpl_models env w in
      let (rs, w2) := load_repeatedly rest w1 in
      (r :: rs, w2)
  end.

(** ** Concrete sessions *)

Module Scenario.

(** A 256x256 JPEG of 1000 bytes. *)
Definition portrait : File :=
  mkFile 1000 (Some (mkPilImage "JPEG" 256 256)) (Ok (Some (256%N, 256%N))).

Definition written : File := mkFile 10 None (Ok None).

Definition config : Config :=
  mkConfig "uploads" "guidance" "renders" "smpl-assets" "bus" 600 50 1
    "/app/models/smpl" "/app/weights" "/app/configs/romp.yaml"
    "/app/configs/smplify_x.yaml".

Definition epoch : N := 1700000000000000.

(** Every collaborator answers; the clock advances by 1.5 s per reading. *)
Definition cooperative : Env :=
  {| clock := fun k => (epoch + N.of_nat k * 1500000)%N;
     randn := fun _ _ => Arr [];
     makedirs := fun _ => None;
     download_file := fun _ _ _ => Ok portrait;
     upload_file := fun _ _ _ _ => None;
     imwrite := fun _ _ => Ok (Some written);
     write_text := fun _ _ => Ok written;
     put_events := fun _ => Ok 0%N;
     put_metric_data := fun _ _ => None;
     rmtree := fun _ => None;
     format_exc := fun e => "Traceback (most recent call last): " ++ exn_msg e;
     virtual_memory_percent := fun _ => PyFloat 42000000;
     cpu_percent := fun _ => PyFloat 1500000 |}.

Definition NoSuchKey : Exn :=
  mkExn "ClientError" "An error occurred (404) when calling the HeadObject operation: Not Found".

Definition EndpointDown : Exn :=
  mkExn "EndpointConnectionError" "Could not connect to the endpoint URL".


(** The avatar and the garment are not in the bucket. *)
Definition missing_inputs : Env :=
  set_download_file (fun _ _ _ => Raise NoSuchKey) cooperative.



(** Neither CloudWatch nor the event bus can be reached. *)
Definition channels_down : Env :=
  with_best_effort_channels (fun _ _ => Some EndpointDown)
    (fun _ => Raise EndpointDown) missing_inputs.

(** A processor just started on an empty disk. *)
Definition started (env : Env) : World := SMPLProcessor_init env "DEV" config ∅.

Definition session (est : Env -> string -> string -> M PoseEstimate) (env : Env)
  : Outcome ProcessingResult * World :=
  process_image_with est env "S1" "U1" "avatars/a.jpg" "garments/g.jpg" (started env).

(** What the cooperative session returns, and the world it leaves. *)
Definition cooperative_outcome : Outcome ProcessingResult * World :=
  Eval vm_compute in session _estimate_pose_romp cooperative.

End Scenario.

(** ** Notions used in the statements *)

(** [m] leaves the component [proj] of the world as it found it, whatever
    its outcome. *)
Definition preserves {A B} (proj : World -> B) (m : M A) : Prop :=
  forall w, proj (snd (m w)) = proj w.

(** A component of the world that none of the local effects (logging, the
    file system, the clock, the random generator, the S3 transfer logs, the
    model cache) writes to. *)
Record Local {B} (proj : World -> B) : Prop := mkLocal {
  local_log : forall v w, proj (set_log v w) = proj w;
  local_fs : forall v w, proj (set_fs v w) = proj w;
  local_clock : forall v w, proj (set_clock_reads v w) = proj w;
  local_rng : forall v w, proj (set_rng_draws v w) = proj w;
  local_downloads : forall v w, proj (set_downloads v w) = proj w;
  local_uploads : forall v w, proj (set_uploads v w) = proj w;
  local_models : forall v w, proj (set_smpl_models v w) = proj w
}.

(** The dictionary that a successful session returns. *)
Definition success_result (session_id : string) (elapsed : Z)
    (s3_keys : dict string) (mesh_results : MeshFit) : ProcessingResult :=
  {| status := "success";
     session_id := session_id;
     processing_time := PyFloat elapsed;
     guidance_assets := s3_keys;
     smpl_metadata := mesh_results |}.

(** The failure event that [_publish_error_event] builds when it is called
    in world [w]. *)
Definition error_event (env : Env) (session_id user_id error_message : string)
    (w : World) : Event :=
  {| ev_Source := "garmax-ai.smpl";
     ev_DetailType := error_detail_type;
     ev_Detail := ErrorDetail session_id user_id error_message
                    (clock env (clock_reads w)) "smpl-error";
     ev_EventBusName := event_bus_name (cfg w) |}.

(** Since neither report is interrupted, [process_image] is: read the clock,
    run the stages, report, clean up. *)
Definition attempt (est : Env -> string -> string -> M PoseEstimate) (env : Env)
    (sid uid ak gk : string) (w : World) : Outcome ProcessingResult * World :=
  let start := Z.of_N (clock env (clock_reads w)) in
  let w0 := set_clock_reads (S (clock_reads w)) w in
  match run_stages est env sid uid ak gk (temp_dir_of sid) w0 with
  | (Ok r, w2) => report_success env sid start (fst r) (snd r) w2
  | (Raise e, w2) => report_failure env sid uid e w2
  end.

Definition generated_assets (tmp : string) : dict string :=
  [ ("depth", tmp ++ "/depth.png"); ("normals", tmp ++ "/normals.png");
    ("pose", tmp ++ "/pose.png"); ("segments", tmp ++ "/segments.png");
    ("prompt", tmp ++ "/prompt.txt") ].


(** The data point that [_send_metrics] submits when called in world [w]. *)
Definition metric_point (env : Env) (name : string) (value : PyNum)
    (dims : dict string) (w : World) : Metric :=
  {| MetricName := name;
     Value := value;
     Unit := if contains "Count" name || contains "Error" name
             then "Count" else "Seconds";
     Dimensions := dims;
     Timestamp := clock env (clock_reads w) |}.

(** The stub below finds nobody in any picture; the session runs through
    all stages and returns the five keys. *)
Definition nobody_there : Env -> string -> string -> M PoseEstimate :=
  no_person _estimate_pose_romp.

(** [mesh_results['estimated_measurements']['height_cm']], when present. *)
Definition height_cm_of (mesh_results : MeshFit) : option PyNum :=
  match estimated_measurements mesh_results with
  | Some measurements => dict_get "height_cm" measurements
  | None => None
  end.

Module PromptExample.
Definition tall_a : MeshFit :=
  {| body_shape := Some (Arr [Scalar (PyFloat 120000)]);
     body_pose := Arr [];
     global_orient := Arr [];
     translation := [PyFloat 0; PyFloat 0; PyFloat 2000000];
     gender := Some "female";
     fit_confidence := Some (PyFloat 780000);
     mesh_vertices := 6890;
     estimated_measurements :=
       Some [("height_cm", PyFloat 181500000); ("chest_cm", PyFloat 88000000)] |}.

Definition tall_b : MeshFit :=
  {| body_shape := None;
     body_pose := Arr [Scalar (PyInt 1)];
     global_orient := Arr [];
     translation := [];
     gender := Some "female";
     fit_confidence := None;
     mesh_vertices := 0;
     estimated_measurements :=
       Some [("hip_cm", PyFloat 95000000); ("height_cm", PyFloat 181500000)] |}.
End PromptExample.

Definition health_fields : list string :=
  [ "status"; "uptime_seconds"; "processed_count"; "error_count";
    "memory_usage_percent"; "cpu_usage_percent"; "last_activity"; "models_loaded" ].

(** The world [w] with the regular file [f] stored at [path]. *)
Definition with_file (path : string) (f : File) (w : World) : World :=
  set_fs (<[path := Reg f]> (fs w)) w.

Module ValidationExample.
Definition image (bytes : N) (fmt : string) (width height : N) : File :=
  mkFile bytes (Some (mkPilImage fmt width height)) (Ok (Some (height, width))).

(** The limit of [Scenario.config] is 50 MB, that is 52428800 bytes. *)
Definition validate (f : File) : Outcome unit :=
  fst (_validate_image "/app/temp/S1/avatar.jpg" "avatar"
         (with_file "/app/temp/S1/avatar.jpg" f
            (Scenario.started Scenario.cooperative))).
End ValidationExample.

(** Every completed download is recorded once, and its file is on disk. *)
Definition fetched_once (w : World) : Prop :=
  NoDup (downloads w) /\
  Forall (fun d => is_Some (fs w !! snd d)) (downloads w).

Module UploadExample.
Definition assets : dict string := [("depth", "/app/temp/S1/depth.png")].

Definition before : World :=
  with_file "/app/temp/S1/depth.png" Scenario.written
    (Scenario.started Scenario.cooperative).

Definition first_call : Outcome (dict string) * World :=
  Eval vm_compute in
    _upload_guidance_assets Scenario.cooperative "S1" assets "/app/temp/S1" before.

Definition second_call : Outcome (dict string) * World :=
  Eval vm_compute in
    _upload_guidance_assets Scenario.cooperative "S1" assets "/app/temp/S1"
      (snd first_call).
End UploadExample.

(** ** Later states, sequences of sessions *)

(** [w'] is a later state of [w]: the configuration is the same, the clock
    and the random generator have not been rewound, a populated model cache
    is still populated, the start time is the same, the two counters have
    not decreased, and every record of the outside world has only grown at
    its end. *)
Record evolves (w w' : World) : Prop := mkEvolves {
  later_cfg : cfg w' = cfg w;
  later_clock : (clock_reads w <= clock_reads w')%nat;
  later_rng : (rng_draws w <= rng_draws w')%nat;
  later_models : smpl_models w <> [] -> smpl_models w' <> [];
  later_start : start_time (stats w') = start_time (stats w);
  later_processed : processed_count (stats w) <= processed_count (stats w');
  later_errors : error_count (stats w) <= error_count (stats w');
  later_downloads : downloads w `prefix_of` downloads w';
  later_uploads : uploads w `prefix_of` uploads w';
  later_events : events w `prefix_of` events w';
  later_metrics : metrics w `prefix_of` metrics w';
  later_log : log w `prefix_of` log w'
}.

(** [m] takes every world to a world related to it by [R]. *)
Definition keeps {A} (R : World -> World -> Prop) (m : M A) : Prop :=
  forall w, R w (snd (m w)).

(** One call of [process_image]: the environment it runs in and its
    arguments. *)
Record Request := mkRequest {
  rq_env : Env;
  rq_session_id : string;
  rq_user_id : string;
  rq_avatar_image_key : string;
  rq_garment_image_key : string
}.

(** A worker that handles the requests one after the other. *)
Fixpoint run_sessions (reqs : list Request) (w : World)
  : list (Outcome ProcessingResult) * World :=
  match reqs with
  | [] => ([], w)
  | rq :: rest =>
      let (r, w1) := process_image (rq_env rq) (rq_session_id rq) (rq_user_id rq)
                       (rq_avatar_image_key rq) (rq_garment_image_key rq) w in
      let (rs, w2) := run_sessions rest w1 in
      (r :: rs, w2)
  end.

Definition is_Ok {A} (r : Outcome A) : bool :=
  match r with Ok _ => true | Raise _ => false end.

Definition is_Raise {A} (r : Outcome A) : bool :=
  match r with Ok _ => false | Raise _ => true end.

(** ** Disks, events and checks used in the statements *)

Module LocalModels.
(** A disk that already holds the three model files. *)
Definition disk : gmap string Node :=
  <["/app/models/smpl/basicModel_f_lbs_10_207_0_v1.0.0.pkl" := Reg Scenario.written]>
    (<["/app/models/smpl/basicModel_m_lbs_10_207_0_v1.0.0.pkl" := Reg Scenario.written]>
       (<["/app/models/smpl/basicModel_neutral_lbs_10_207_0_v1.0.0.pkl" :=
            Reg Scenario.written]> ∅)).

Definition started : World :=
  SMPLProcessor_init Scenario.missing_inputs "DEV" Scenario.config disk.
End LocalModels.

(** The completion event that [_publish_completion_event] builds when it is
    called in world [w]. *)
Definition completion_event (env : Env) (session_id user_id : string)
    (s3_keys : dict string) (mesh_results : MeshFit) (w : World) : Event :=
  {| ev_Source := "garmax-ai.smpl";
     ev_DetailType := completion_detail_type;
     ev_Detail :=
       CompletionDetail session_id user_id
         {| depthMapKey := default EmptyString (dict_get "depth" s3_keys);
            normalMapKey := default EmptyString (dict_get "normals" s3_keys);
            poseMapKey := default EmptyString (dict_get "pose" s3_keys);
            segmentationKey := default EmptyString (dict_get "segments" s3_keys);
            promptKey := default EmptyString (dict_get "prompt" s3_keys) |}
         {| poseConfidence := default (PyFloat 0) (fit_confidence mesh_results);
            bodyShape := default (Arr []) (body_shape mesh_results);
            estimatedMeasurements := default [] (estimated_measurements mesh_results);
            md_gender := default "neutral" (gender mesh_results) |}
         (clock env (clock_reads w)) "smpl-complete";
     ev_EventBusName := event_bus_name (cfg w) |}.

(** The world after [logger.info(msg)]. *)
Definition logged (level : Level) (msg : string) (w : World) : World :=
  set_log (log w ++ [mkLogRecord level msg]) w.

(** Every path that exists in [w] still exists in [w']. *)
Definition fs_grows (w w' : World) : Prop :=
  forall p, is_Some (fs w !! p) -> is_Some (fs w' !! p).

(** The key [kind/session-timestamp.extension]. *)
Definition asset_key (kind session_id : string) (timestamp : Z) (ext : string)
  : string :=
  kind ++ "/" ++ session_id ++ "-" ++ pretty timestamp ++ "." ++ ext.

(** The five uploads of a session. *)
Definition session_uploads (bucket sid tmp : string) (t1 t2 t3 t4 t5 : Z)
  : list Upload :=
  [ mkUpload (tmp ++ "/depth.png") bucket (asset_key "depth" sid t1 "png") "image/png";
    mkUpload (tmp ++ "/normals.png") bucket (asset_key "normals" sid t2 "png")
      "image/png";
    mkUpload (tmp ++ "/pose.png") bucket (asset_key "pose" sid t3 "png") "image/png";
    mkUpload (tmp ++ "/segments.png") bucket (asset_key "segments" sid t4 "png")
      "image/png";
    mkUpload (tmp ++ "/prompt.txt") bucket (asset_key "prompt" sid t5 "txt")
      "text/plain" ].

Definition session_keys (sid : string) (t1 t2 t3 t4 t5 : Z) : dict string :=
  [ ("depth", asset_key "depth" sid t1 "png");
    ("normals", asset_key "normals" sid t2 "png");
    ("pose", asset_key "pose" sid t3 "png");
    ("segments", asset_key "segments" sid t4 "png");
    ("prompt", asset_key "prompt" sid t5 "txt") ].

(** The download stage of the cooperative session, run on its own. *)
Definition inputs_fetched : Outcome (string * string) * World :=
  Eval vm_compute in
    _download_input_images Scenario.cooperative "S1" "avatars/a.jpg" "garments/g.jpg"
      (temp_dir_of "S1") (Scenario.started Scenario.cooperative).

(** * healthcheck.py

    The container health check.  The host answers the two questions that
    the script asks of it: what [__import__] does with a package name and
    whether a path exists.  Standard output is taken to accept every line. *)
Module Healthcheck.

(** What [__import__(package)] does: it returns, it raises [ImportError] or
    one of its subclasses, with [msg] the text of the exception, or it
    raises another exception, which the [except ImportError] clause does not
    catch. *)
Inductive ImportResult :=
| Imported
| ImportFailed (msg : string)
| ImportCrashed (e : Exn).

Record Host := mkHost {
  import_module : string -> ImportResult;
  path_exists : string -> bool
}.

Definition required_packages : list string :=
  [ "torch"; "torchvision"; "cv2"; "numpy"; "scipy";
    "PIL"; "skimage"; "boto3"; "yaml"; "smplx" ].

Definition model_paths : list string :=
  [ "/app/models/smpl"; "/app/weights"; "/app/configs" ].

Definition available (package : string) : string := "✓ " ++ package ++ " available".

Definition missing (package msg : string) : string :=
  "✗ " ++ package ++ " missing: " ++ msg.

Definition path_found (path : string) : string := "✓ " ++ path ++ " exists".

Definition path_missing (path : string) : string := "✗ " ++ path ++ " missing".

(** The loop of [check_dependencies]: the lines printed and the value
    returned, or the exception that left the function. *)
Fixpoint check_packages (h : Host) (packages : list string)
  : list string * Outcome bool :=
  match packages with
  | [] => ([], Ok true)
  | package :: rest =>
      match import_module h package with
      | Imported =>
          let (out, r) := check_packages h rest in (available package :: out, r)
      | ImportFailed msg => ([missing package msg], Ok false)
      | ImportCrashed e => ([], Raise e)
      end
  end.

Definition check_dependencies (h : Host) : list string * Outcome bool :=
  check_packages h required_packages.

(** The loop of [check_model_paths]. *)
Fixpoint check_paths (h : Host) (paths : list string) : list string * bool :=
  match paths with
  | [] => ([], true)
  | path :: rest =>
      if path_exists h path
      then let (out, r) := check_paths h rest in (path_found path :: out, r)
      else ([path_missing path], false)
  end.

Definition check_model_paths (h : Host) : list string * bool :=
  check_paths h model_paths.

(** A run of the script: the lines on standard output and the exit status of
    the process. *)
Record Run := mkRun {
  stdout : list string;
  exit_status : Z
}.

(** The [__main__] block.  An exception that leaves [check_dependencies]
    ends the process with a traceback on standard error and status 1. *)
Definition main (h : Host) : Run :=
  match check_dependencies h with
  | (out, Raise e) => mkRun out 1
  | (out, Ok false) => mkRun (out ++ ["Health check failed"]) 1
  | (out, Ok true) =>
      let (out', ok) := check_model_paths h in
      if ok
      then mkRun (out ++ out' ++ ["Health check passed"]) 0
      else mkRun (out ++ out' ++ ["Health check failed"]) 1
  end.

(** A host on which everything is in place, and variations of it. *)
Definition complete : Host := mkHost (fun _ => Imported) (fun _ => true).

Definition without_package (package msg : string) (h : Host) : Host :=
  mkHost (fun p => if String.eqb p package then ImportFailed msg else import_module h p)
    (path_exists h).

Definition without_path (path : string) (h : Host) : Host :=
  mkHost (import_module h)
    (fun p => if String.eqb p path then false else path_exists h p).

End Healthcheck.

(** An environment in which [cv2.imwrite] answers [False] for the depth map
    of session S1 and writes every other file. *)
Definition unwritable_depth : Env :=
  mkEnv (clock Scenario.cooperative) (randn Scenario.cooperative)
    (makedirs Scenario.cooperative) (download_file Scenario.cooperative)
    (upload_file Scenario.cooperative)
    (fun path _ =>
       if String.eqb path (temp_dir_of "S1" ++ "/depth.png")
       then Ok None else Ok (Some Scenario.written))
    (write_text Scenario.cooperative) (put_events Scenario.cooperative)
    (put_metric_data Scenario.cooperative) (rmtree Scenario.cooperative)
    (format_exc Scenario.cooperative) (virtual_memory_percent Scenario.cooperative)
    (cpu_percent Scenario.cooperative).

(** ** A session in which every collaborator answers *)

(** The last character of a text. *)
Fixpoint last_ascii (s : string) : option ascii :=
  match s with
  | EmptyString => None
  | String c EmptyString => Some c
  | String _ rest => last_ascii rest
  end.

(** The checks of [_validate_image] on a file. *)
Definition acceptable (c : Config) (f : File) : Prop :=
  Z.of_N (file_size f) <= max_image_size_mb c * (1024 * 1024) /\
  exists img,
    file_pil f = Some img /\ In (img_format img) ["JPEG"; "PNG"; "WEBP"] /\
    (256 <= img_width img)%N /\ (256 <= img_height img)%N.

(** [w'] differs from [w] at most in the log, the clock and the random
    generator. *)
Definition undisturbed (w w' : World) : Prop :=
  cfg w' = cfg w /\ smpl_models w' = smpl_models w /\ stats w' = stats w /\
  fs w' = fs w /\ downloads w' = downloads w /\ uploads w' = uploads w /\
  events w' = events w /\ metrics w' = metrics w.

(** A pose stage that finds nobody: given an image that OpenCV can read, it
    returns an estimate whose [person_detected] is false, and it does
    nothing else than draw random numbers, read the clock and log. *)
Definition reports_nobody (est : Env -> string -> string -> M PoseEstimate)
    (env : Env) : Prop :=
  forall path tmp w f dims,
    fs w !! path = Some (Reg f) -> file_cv2 f = Ok (Some dims) ->
    exists p w',
      est env path tmp w = (Ok p, w') /\ person_detected p = false /\
      undisturbed w w'.

(** Every collaborator that the session [sid] calls answers: directories
    can be created, the two inputs are delivered and pass validation, the
    avatar can be read by OpenCV, the model files are delivered, the assets
    can be written and uploaded, and the bus accepts what it is sent. *)
Record cooperates (env : Env) (c : Config) (sid ak gk : string) : Prop := mkCooperates {
  coop_makedirs : forall path, makedirs env path = None;
  coop_avatar :
    exists f dims,
      download_file env (bucket_uploads c) ak (temp_dir_of sid ++ "/avatar.jpg") = Ok f /\
      acceptable c f /\ file_cv2 f = Ok (Some dims);
  coop_garment :
    exists f,
      download_file env (bucket_uploads c) gk (temp_dir_of sid ++ "/garment.jpg") = Ok f /\
      acceptable c f;
  coop_models :
    forall file, In file model_files ->
      exists f,
        download_file env (bucket_smpl_assets c) ("models/" ++ file)
          (model_path_smpl c ++ "/" ++ file) = Ok f;
  coop_imwrite : forall path arr, exists f, imwrite env path arr = Ok (Some f);
  coop_write_text : forall path text, exists f, write_text env path text = Ok f;
  coop_upload :
    forall path bucket key ctype, upload_file env path bucket key ctype = None;
  coop_events : forall ev, put_events env ev = Ok 0%N
}.

(** * Reasoning about computations *)

Lemma bind_run {A B} (m : M A) (k : A -> M B) (w : World) :
  bind m k w =
  match m w with
  | (Ok a, w') => k a w'
  | (Raise e, w') => (Raise e, w')
  end.
Proof. reflexivity. Qed.

Section Preserves.
Context {B : Type} (proj : World -> B).

Lemma preserves_ret {A} (a : A) : preserves proj (ret a).
Proof. intros w. reflexivity. Qed.

Lemma preserves_raise {A} (e : Exn) : preserves proj (@raise A e).
Proof. intros w. reflexivity. Qed.

Lemma preserves_gets {A} (f : World -> A) : preserves proj (gets f).
Proof. intros w. reflexivity. Qed.

Lemma preserves_check (r : option Exn) : preserves proj (check r).
Proof. destruct r; intros w; reflexivity. Qed.

Lemma preserves_lift {A} (r : Outcome A) : preserves proj (lift r).
Proof. destruct r; intros w; reflexivity. Qed.

Lemma preserves_modify (f : World -> World) :
  (forall w, proj (f w) = proj w) -> preserves proj (modify f).
Proof. intros Hf w. apply Hf. Qed.

Lemma preserves_bind {A C} (m : M A) (k : A -> M C) :
  preserves proj m -> (forall a, preserves proj (k a)) ->
  preserves proj (bind m k).
Proof.
  intros Hm Hk w. rewrite bind_run.
  specialize (Hm w). destruct (m w) as [[a|e] w1]; simpl in *.
  - rewrite Hk. exact Hm.
  - exact Hm.
Qed.

Lemma preserves_try_except {A} (m : M A) (h : Exn -> M A) :
  preserves proj m -> (forall e, preserves proj (h e)) ->
  preserves proj (try_except m h).
Proof.
  intros Hm Hh w. unfold try_except.
  specialize (Hm w). destruct (m w) as [[a|e] w1]; simpl in *.
  - exact Hm.
  - rewrite Hh. exact Hm.
Qed.

Lemma preserves_try_finally {A} (m : M A) (f : M unit) :
  preserves proj m -> preserves proj f -> preserves proj (try_finally m f).
Proof.
  intros Hm Hf w. unfold try_finally.
  specialize (Hm w). destruct (m w) as [r w1]; simpl in *.
  specialize (Hf w1). destruct (f w1) as [[u|e] w2]; simpl in *; congruence.
Qed.
End Preserves.

Lemma stats_Local : Local stats.
Proof. split; reflexivity. Qed.

Lemma events_Local : Local events.
Proof. split; reflexivity. Qed.

Lemma metrics_Local : Local metrics.
Proof. split; reflexivity. Qed.

Lemma cfg_Local : Local cfg.
Proof. split; reflexivity. Qed.

Create HintDb frame.
#[export] Hint Resolve stats_Local events_Local metrics_Local cfg_Local : frame.

(** Side condition of [preserves_modify] for a [Local] component. *)
Ltac local_update H :=
  intros; cbv beta;
  repeat match goal with
         | |- context [match ?x with _ => _ end] => destruct x
         end;
  repeat first
    [ rewrite (local_log _ H) | rewrite (local_fs _ H)
    | rewrite (local_clock _ H) | rewrite (local_rng _ H)
    | rewrite (local_downloads _ H) | rewrite (local_uploads _ H)
    | rewrite (local_models _ H) ];
  reflexivity.

(** One step through the syntax of a computation. *)
Ltac frame_step H :=
  match goal with
  | |- preserves _ (bind _ _) => apply preserves_bind; [| intros ?]
  | |- preserves _ (try_except _ _) => apply preserves_try_except; [| intros ?]
  | |- preserves _ (try_finally _ _) => apply preserves_try_finally
  | |- preserves _ (ret _) => apply preserves_ret
  | |- preserves _ (raise _) => apply preserves_raise
  | |- preserves _ (gets _) => apply preserves_gets
  | |- preserves _ (check _) => apply preserves_check
  | |- preserves _ (lift _) => apply preserves_lift
  | |- preserves _ (modify _) => apply preserves_modify; local_update H
  | |- preserves _ (match ?x with _ => _ end) => destruct x
  | |- preserves _ _ => solve [eauto with frame]
  end.

Ltac frame H := repeat frame_step H.

Section LocalEffects.
Context {B : Type} (proj : World -> B) (HL : Local proj).

Lemma preserves_read_clock env : preserves proj (read_clock env).
Proof. intros w. unfold read_clock. simpl. apply (local_clock _ HL). Qed.

Lemma preserves_randn env shape : preserves proj (np_random_randn env shape).
Proof. intros w. unfold np_random_randn. simpl. apply (local_rng _ HL). Qed.

Lemma preserves_randint shape : preserves proj (np_random_randint shape).
Proof. intros w. unfold np_random_randint. simpl. apply (local_rng _ HL). Qed.

Hint Resolve preserves_read_clock preserves_randn preserves_randint : frame.

Lemma preserves_time_time env : preserves proj (time_time env).
Proof. unfold time_time. frame HL. Qed.

Lemma preserves_utcnow env : preserves proj (datetime_utcnow env).
Proof. unfold datetime_utcnow. frame HL. Qed.

Lemma preserves_logger_info msg : preserves proj (logger_info msg).
Proof. unfold logger_info. frame HL. Qed.

Lemma preserves_logger_error msg : preserves proj (logger_error msg).
Proof. unfold logger_error. frame HL. Qed.

Lemma preserves_makedirs env path : preserves proj (os_makedirs env path).
Proof. unfold os_makedirs. frame HL. Qed.

Lemma preserves_exists path : preserves proj (os_path_exists path).
Proof. unfold os_path_exists. frame HL. Qed.

Lemma preserves_getsize path : preserves proj (os_path_getsize path).
Proof. unfold os_path_getsize. frame HL. Qed.

Lemma preserves_download env b k p : preserves proj (s3_download_file env b k p).
Proof. unfold s3_download_file. frame HL. Qed.

Lemma preserves_upload env p b k c : preserves proj (s3_upload_file env p b k c).
Proof. unfold s3_upload_file. frame HL. Qed.

Lemma preserves_Image_open path : preserves proj (Image_open path).
Proof. unfold Image_open. frame HL. Qed.

Lemma preserves_imread path : preserves proj (cv2_imread path).
Proof. unfold cv2_imread. frame HL. Qed.

Lemma preserves_imwrite env path arr : preserves proj (cv2_imwrite env path arr).
Proof. unfold cv2_imwrite. frame HL. Qed.

Lemma preserves_open_write env path text : preserves proj (open_write env path text).
Proof. unfold open_write. frame HL. Qed.

Lemma preserves_rmtree env path : preserves proj (shutil_rmtree env path).
Proof. unfold shutil_rmtree. frame HL. Qed.

Lemma preserves_getitem {A} key (entry : option A) : preserves proj (getitem key entry).
Proof. unfold getitem. frame HL. Qed.

Hint Resolve preserves_time_time preserves_utcnow preserves_logger_info
  preserves_logger_error preserves_makedirs preserves_exists preserves_getsize
  preserves_download preserves_upload preserves_Image_open preserves_imread
  preserves_imwrite preserves_open_write preserves_rmtree preserves_getitem : frame.

Lemma preserves_download_models env files : preserves proj (download_models env files).
Proof. induction files as [|f files IH]; simpl; frame HL. Qed.

Hint Resolve preserves_download_models : frame.

Lemma preserves_load_smpl_models env : preserves proj (_load_smpl_models env).
Proof. unfold _load_smpl_models. frame HL. Qed.

Lemma preserves_validate_image path ty : preserves proj (_validate_image path ty).
Proof. unfold _validate_image. frame HL. Qed.

Hint Resolve preserves_load_smpl_models preserves_validate_image : frame.

Lemma preserves_download_input_images env sid ak gk tmp :
  preserves proj (_download_input_images env sid ak gk tmp).
Proof. unfold _download_input_images. frame HL. Qed.

Lemma preserves_estimate_pose_romp env path tmp :
  preserves proj (_estimate_pose_romp env path tmp).
Proof. unfold _estimate_pose_romp. frame HL. Qed.

Lemma preserves_fit_body_mesh env path pose tmp :
  preserves proj (_fit_body_mesh env path pose tmp).
Proof. unfold _fit_body_mesh. frame HL. Qed.

Lemma preserves_generate_guidance_assets env a g pose mesh tmp :
  preserves proj (_generate_guidance_assets env a g pose mesh tmp).
Proof. unfold _generate_guidance_assets. frame HL. Qed.

Lemma preserves_upload_assets env sid items acc :
  preserves proj (upload_assets env sid items acc).
Proof.
  revert acc. induction items as [|[kind path] items IH]; intros acc; simpl; frame HL.
Qed.

Hint Resolve preserves_upload_assets : frame.

Lemma preserves_upload_guidance_assets env sid assets tmp :
  preserves proj (_upload_guidance_assets env sid assets tmp).
Proof. unfold _upload_guidance_assets. frame HL. Qed.

Lemma preserves_cleanup_temp_files env tmp :
  preserves proj (_cleanup_temp_files env tmp).
Proof. unfold _cleanup_temp_files. frame HL. Qed.
End LocalEffects.

#[export] Hint Resolve preserves_time_time preserves_utcnow preserves_logger_info
  preserves_logger_error preserves_makedirs preserves_download_input_images
  preserves_estimate_pose_romp preserves_fit_body_mesh
  preserves_generate_guidance_assets preserves_upload_guidance_assets
  preserves_cleanup_temp_files preserves_load_smpl_models : frame.

(** ** The best-effort channels and the cleanup never raise *)

Lemma send_metrics_returns env name value dims w :
  fst (_send_metrics env name value dims w) = Ok tt.
Proof.
  unfold _send_metrics, try_except, cloudwatch_put_metric_data, datetime_utcnow,
    read_clock, bind, check. simpl.
  destruct (put_metric_data env _ _); reflexivity.
Qed.

Lemma publish_error_event_returns env sid uid msg w :
  fst (_publish_error_event env sid uid msg w) = Ok tt.
Proof.
  unfold _publish_error_event, try_except, events_put_events, datetime_utcnow,
    read_clock, bind, lift, gets. simpl.
  destruct (put_events env _) as [failed|e]; simpl; [|reflexivity].
  destruct (failed =? 0)%N; reflexivity.
Qed.

Lemma cleanup_temp_files_returns env tmp w :
  fst (_cleanup_temp_files env tmp w) = Ok tt.
Proof.
  unfold _cleanup_temp_files, try_except, os_path_exists, shutil_rmtree, bind,
    gets, check. simpl.
  destruct (fs w !! tmp); simpl; [|reflexivity].
  destruct (rmtree env tmp); reflexivity.
Qed.

Lemma preserves_send_metrics {B} (proj : World -> B) env name value dims :
  Local proj -> (forall v w, proj (set_metrics v w) = proj w) ->
  preserves proj (_send_metrics env name value dims).
Proof.
  intros HL Hm. unfold _send_metrics, cloudwatch_put_metric_data. frame HL.
  apply preserves_modify. intros w. apply Hm.
Qed.

Lemma preserves_put_events {B} (proj : World -> B) env ev :
  Local proj -> (forall v w, proj (set_events v w) = proj w) ->
  preserves proj (events_put_events env ev).
Proof.
  intros HL He. unfold events_put_events. frame HL.
  apply preserves_modify. intros w. apply He.
Qed.

Lemma preserves_publish_error_event {B} (proj : World -> B) env sid uid msg :
  Local proj -> (forall v w, proj (set_events v w) = proj w) ->
  preserves proj (_publish_error_event env sid uid msg).
Proof.
  intros HL He. unfold _publish_error_event. frame HL.
  apply preserves_put_events; assumption.
Qed.

Lemma preserves_publish_completion_event {B} (proj : World -> B) env sid uid keys mesh :
  Local proj -> (forall v w, proj (set_events v w) = proj w) ->
  preserves proj (_publish_completion_event env sid uid keys mesh).
Proof.
  intros HL He. unfold _publish_completion_event. frame HL.
  apply preserves_put_events; assumption.
Qed.

(** [try ... finally] around a cleanup that cannot raise. *)
Lemma try_finally_run {A} (m : M A) (f : M unit) (w : World) :
  (forall w', fst (f w') = Ok tt) ->
  try_finally m f w = (fst (m w), snd (f (snd (m w)))).
Proof.
  intros Hf. unfold try_finally. destruct (m w) as [r w1]. simpl.
  specialize (Hf w1). destruct (f w1) as [[[]|e] w2]; simpl in *; congruence.
Qed.

Lemma process_image_with_run est env sid uid ak gk w :
  let start := Z.of_N (clock env (clock_reads w)) in
  let w0 := set_clock_reads (S (clock_reads w)) w in
  let attempt :=
    try_except
      (r <- run_stages est env sid uid ak gk (temp_dir_of sid) ;;
       report_success env sid start (fst r) (snd r))
      (report_failure env sid uid) in
  process_image_with est env sid uid ak gk w =
  (fst (attempt w0), snd (_cleanup_temp_files env (temp_dir_of sid) (snd (attempt w0)))).
Proof.
  intros start w0 attempt. unfold process_image_with.
  rewrite bind_run. unfold time_time at 1. rewrite bind_run. unfold read_clock at 1.
  cbv iota beta. unfold ret at 1.
  apply try_finally_run. intros w'. apply cleanup_temp_files_returns.
Qed.

(** * The workspace (C2) *)



(** When [shutil.rmtree] raises, [_cleanup_temp_files] logs the error and
    leaves the file system as it was. *)
Lemma cleanup_temp_files_swallows env tmp w e :
  rmtree env tmp = Some e ->
  fs (snd (_cleanup_temp_files env tmp w)) = fs w.
Proof.
  intros Hrm.
  unfold _cleanup_temp_files, try_except, os_path_exists, shutil_rmtree, bind,
    gets, check, modify, logger_error. simpl.
  destruct (fs w !! tmp); simpl; [|reflexivity].
  rewrite Hrm. reflexivity.
Qed.




(** * The two reports of [process_image] *)

Ltac unfold_channels :=
  unfold _send_metrics, _publish_error_event, try_except,
    cloudwatch_put_metric_data, events_put_events, datetime_utcnow, time_time,
    read_clock, logger_info, logger_error, bind, ret, raise, gets, modify, check,
    lift.

Ltac case_oracles :=
  repeat match goal with
         | |- context [put_metric_data ?env ?ns ?m] =>
             destruct (put_metric_data env ns m); simpl
         | |- context [put_events ?env ?ev] =>
             let failed := fresh "failed" in
             destruct (put_events env ev) as [failed|?]; simpl;
             [destruct failed; simpl|]
         end.

Lemma report_success_outcome env sid start keys mesh w :
  fst (report_success env sid start keys mesh w) =
  Ok (success_result sid (Z.of_N (clock env (clock_reads w)) - start) keys mesh).
Proof.
  unfold report_success. unfold_channels. simpl. case_oracles; reflexivity.
Qed.

Lemma report_success_stats env sid start keys mesh w :
  stats (snd (report_success env sid start keys mesh w)) =
  touch_last_activity (clock env (S (clock_reads w))) (count_processed (stats w)).
Proof.
  unfold report_success. unfold_channels. simpl. case_oracles; reflexivity.
Qed.

Lemma report_success_events env sid start keys mesh w :
  events (snd (report_success env sid start keys mesh w)) = events w.
Proof.
  unfold report_success. unfold_channels. simpl. case_oracles; reflexivity.
Qed.

Lemma publish_error_event_events env sid uid msg w :
  events (snd (_publish_error_event env sid uid msg w)) =
  match put_events env (error_event env sid uid msg w) with
  | Ok 0%N => (events w ++ [error_event env sid uid msg w])%list
  | _ => events w
  end.
Proof.
  unfold error_event. unfold_channels. simpl. case_oracles; reflexivity.
Qed.

Lemma report_failure_outcome env sid uid e w :
  fst (report_failure env sid uid e w) = Raise e.
Proof.
  unfold report_failure. unfold_channels. simpl. case_oracles; reflexivity.
Qed.

Lemma report_failure_stats env sid uid e w :
  stats (snd (report_failure env sid uid e w)) = count_error (stats w).
Proof.
  unfold report_failure. unfold_channels. simpl. case_oracles; reflexivity.
Qed.


(** * The orchestrator *)

#[export] Hint Resolve preserves_publish_completion_event
  preserves_publish_error_event preserves_send_metrics : frame.

Lemma preserves_run_stages {B} (proj : World -> B) est env sid uid ak gk tmp :
  Local proj -> (forall v w, proj (set_events v w) = proj w) ->
  (forall path t, preserves proj (est env path t)) ->
  preserves proj (run_stages est env sid uid ak gk tmp).
Proof. intros HL He Hest. unfold run_stages. frame HL. Qed.

Lemma process_image_with_attempt est env sid uid ak gk w :
  process_image_with est env sid uid ak gk w =
  (fst (attempt est env sid uid ak gk w),
   snd (_cleanup_temp_files env (temp_dir_of sid) (snd (attempt est env sid uid ak gk w)))).
Proof.
  rewrite process_image_with_run. cbv zeta. unfold attempt, try_except.
  rewrite bind_run.
  destruct (run_stages est env sid uid ak gk (temp_dir_of sid) _) as [[r|e] w2];
    [|reflexivity].
  pose proof (report_success_outcome env sid
                (Z.of_N (clock env (clock_reads w))) (fst r) (snd r) w2) as Hok.
  destruct (report_success env sid _ (fst r) (snd r) w2) as [[res|e] w3];
    simpl in Hok; [reflexivity|discriminate].
Qed.

(** * The statistics (C3) *)

(** What [process_image] does to [self.stats]: a successful session counts
    as processed and moves [last_activity] to the clock reading taken after
    the processing time was measured; a failed session counts as an error
    and changes nothing else. *)
Lemma process_image_stats env sid uid ak gk w :
  let w0 := set_clock_reads (S (clock_reads w)) w in
  let w2 := snd (run_stages _estimate_pose_romp env sid uid ak gk (temp_dir_of sid) w0) in
  match process_image env sid uid ak gk w with
  | (Ok _, w') =>
      stats w' = mkStats (processed_count (stats w) + 1) (error_count (stats w))
                   (start_time (stats w)) (clock env (S (clock_reads w2)))
  | (Raise _, w') =>
      stats w' = mkStats (processed_count (stats w)) (error_count (stats w) + 1)
                   (start_time (stats w)) (last_activity (stats w))
  end.
Proof.
  intros w0 w2. unfold process_image. rewrite process_image_with_attempt.
  rewrite (preserves_cleanup_temp_files stats stats_Local).
  unfold attempt. fold w0.
  assert (Hst : stats (snd (run_stages _estimate_pose_romp env sid uid ak gk
                              (temp_dir_of sid) w0)) = stats w0).
  { apply preserves_run_stages; auto with frame. }
  subst w2.
  destruct (run_stages _estimate_pose_romp env sid uid ak gk (temp_dir_of sid) w0)
    as [[r|e] w2]; simpl in Hst |- *.
  - rewrite report_success_outcome, report_success_stats, Hst. reflexivity.
  - rewrite report_failure_outcome, report_failure_stats, Hst. reflexivity.
Qed.

(** C3: the counters behave as claimed, but [last_activity] is written on
    the success path only.  The session below fails at the download stage:
    [error_count] goes from 0 to 1, [processed_count] stays 0, and
    [last_activity] still holds the reading taken when the processor
    started, although the failure event of the session carries a reading
    taken six seconds later. *)
Theorem failed_session_leaves_last_activity :
  let before := Scenario.started Scenario.missing_inputs in
  let run := Scenario.session _estimate_pose_romp Scenario.missing_inputs in
  fst run = Raise Scenario.NoSuchKey /\
  stats before = mkStats 0 0 Scenario.epoch (Scenario.epoch + 1500000)%N /\
  stats (snd run) = mkStats 0 1 Scenario.epoch (Scenario.epoch + 1500000)%N /\
  (exists ev, events (snd run) = [ev] /\
     ev_Detail ev = ErrorDetail "S1" "U1" (exn_msg Scenario.NoSuchKey)
                      (Scenario.epoch + 6000000)%N "smpl-error").
Proof.
  repeat split; try (vm_compute; reflexivity).
  eexists. split; vm_compute; reflexivity.
Qed.

(** * Events (C1) *)




(** ** What a successful run of the stages returns *)

Lemma bind_Ok {A B} (m : M A) (k : A -> M B) w b w' :
  bind m k w = (Ok b, w') ->
  exists a w1, m w = (Ok a, w1) /\ k a w1 = (Ok b, w').
Proof.
  rewrite bind_run. destruct (m w) as [[a|e] w1]; intros H; [|discriminate H].
  exists a, w1. split; [reflexivity|exact H].
Qed.

(** A handler that logs and re-raises never turns a failure into a result. *)
Lemma try_except_reraise_Ok {A} (m : M A) (msg : Exn -> string) w a w' :
  try_except m (fun e => logger_error (msg e) ;; raise e) w = (Ok a, w') ->
  m w = (Ok a, w').
Proof.
  unfold try_except. destruct (m w) as [[a1|e] w1]; intros H; [exact H|].
  discriminate H.
Qed.

Ltac inv_run H :=
  repeat first
    [ apply try_except_reraise_Ok in H
    | apply bind_Ok in H as (? & ? & ? & H)
    | match type of H with
      | (match ?x with _ => _ end) _ = _ => destruct x
      | (let (_, _) := ?x in _) _ = _ => destruct x
      | raise _ _ = (Ok _, _) => discriminate H
      end ].

Lemma generate_guidance_assets_Ok env a g pose mesh tmp w assets w' :
  _generate_guidance_assets env a g pose mesh tmp w = (Ok assets, w') ->
  assets = generated_assets tmp.
Proof.
  unfold _generate_guidance_assets. intros H. inv_run H.
  unfold ret in H. injection H as <- _. reflexivity.
Qed.







(** * The best-effort channels (C7) *)

Lemma bind_ext {A B} (m1 m2 : M A) (k1 k2 : A -> M B) w :
  m1 w = m2 w -> (forall a w', k1 a w' = k2 a w') ->
  bind m1 k1 w = bind m2 k2 w.
Proof.
  intros Hm Hk. rewrite !bind_run, Hm.
  destruct (m2 w) as [[a|e] w1]; [apply Hk|reflexivity].
Qed.

Lemma try_except_ext {A} (m1 m2 : M A) (h1 h2 : Exn -> M A) w :
  m1 w = m2 w -> (forall e w', h1 e w' = h2 e w') ->
  try_except m1 h1 w = try_except m2 h2 w.
Proof.
  intros Hm Hh. unfold try_except. rewrite Hm.
  destruct (m2 w) as [[a|e] w1]; [reflexivity|apply Hh].
Qed.

(** None of the stages calls the metric sink, and the only event they
    publish is the completion event. *)
Lemma upload_assets_best_effort sink bus env sid items acc w :
  upload_assets (with_best_effort_channels sink bus env) sid items acc w =
  upload_assets env sid items acc w.
Proof.
  revert acc w. induction items as [|[kind path] items IH]; intros acc w; simpl;
    [reflexivity|].
  repeat (apply bind_ext; [reflexivity|intros ? ?]). apply IH.
Qed.

Lemma run_stages_best_effort sink bus env sid uid ak gk tmp w :
  run_stages _estimate_pose_romp (with_best_effort_channels sink bus env)
    sid uid ak gk tmp w =
  run_stages _estimate_pose_romp env sid uid ak gk tmp w.
Proof.
  unfold run_stages.
  do 6 (apply bind_ext; [reflexivity|intros ? ?]).
  apply bind_ext; [|reflexivity].
  unfold _upload_guidance_assets.
  apply bind_ext; [reflexivity|intros ? ?].
  apply try_except_ext; [|reflexivity].
  apply upload_assets_best_effort.
Qed.

Lemma send_metrics_run env name value dims w :
  fst (_send_metrics env name value dims w) = Ok tt /\
  match put_metric_data env "GarmaxAi/SMPL" (metric_point env name value dims w) with
  | Some e =>
      metrics (snd (_send_metrics env name value dims w)) = metrics w /\
      log (snd (_send_metrics env name value dims w)) =
        (log w ++ [mkLogRecord ERROR ("Failed to send metrics: " ++ str_exn e)])%list
  | None =>
      metrics (snd (_send_metrics env name value dims w)) =
        (metrics w ++ [metric_point env name value dims w])%list /\
      log (snd (_send_metrics env name value dims w)) = log w
  end.
Proof.
  split; [apply send_metrics_returns|].
  unfold metric_point. unfold_channels. simpl.
  destruct (put_metric_data env _ _); split; reflexivity.
Qed.

Lemma publish_error_event_run env sid uid msg w :
  fst (_publish_error_event env sid uid msg w) = Ok tt /\
  match put_events env (error_event env sid uid msg w) with
  | Raise e =>
      events (snd (_publish_error_event env sid uid msg w)) = events w /\
      log (snd (_publish_error_event env sid uid msg w)) =
        (log w ++ [mkLogRecord ERROR ("Failed to publish error event: " ++
                                      str_exn e)])%list
  | Ok _ => True
  end.
Proof.
  split; [apply publish_error_event_returns|].
  unfold error_event. unfold_channels. simpl.
  destruct (put_events env _) as [failed|e]; [exact I|]. split; reflexivity.
Qed.

(** C7: [_send_metrics] and [_publish_error_event] always return normally;
    a transport failure inside them is caught and written to the log at
    level ERROR.  Hence, whatever the metric sink and the failure-event
    publisher answer (here: [sink] and [bus] instead of the answers of
    [env]), [process_image] returns the same result or raises the same stage
    error. *)
Theorem best_effort_failures_leave_the_outcome sink bus env sid uid ak gk w :
  fst (process_image (with_best_effort_channels sink bus env) sid uid ak gk w) =
    fst (process_image env sid uid ak gk w) /\
  (forall name value dims w1,
     fst (_send_metrics env name value dims w1) = Ok tt /\
     match put_metric_data env "GarmaxAi/SMPL"
             (metric_point env name value dims w1) with
     | Some e =>
         log (snd (_send_metrics env name value dims w1)) =
           (log w1 ++ [mkLogRecord ERROR ("Failed to send metrics: " ++
                                          str_exn e)])%list
     | None => True
     end) /\
  (forall msg w1,
     fst (_publish_error_event env sid uid msg w1) = Ok tt /\
     match put_events env (error_event env sid uid msg w1) with
     | Raise e =>
         log (snd (_publish_error_event env sid uid msg w1)) =
           (log w1 ++ [mkLogRecord ERROR ("Failed to publish error event: " ++
                                          str_exn e)])%list
     | Ok _ => True
     end).
Proof.
  split; [|split].
  - unfold process_image. rewrite !process_image_with_attempt. simpl fst.
    unfold attempt. rewrite run_stages_best_effort.
    destruct (run_stages _estimate_pose_romp env sid uid ak gk (temp_dir_of sid) _)
      as [[r|e] w2].
    + rewrite !report_success_outcome. reflexivity.
    + rewrite !report_failure_outcome. reflexivity.
  - intros name value dims w1.
    destruct (send_metrics_run env name value dims w1) as [Hok Hlog].
    split; [exact Hok|].
    destruct (put_metric_data env _ _); [apply Hlog|exact I].
  - intros msg w1.
    destruct (publish_error_event_run env sid uid msg w1) as [Hok Hlog].
    split; [exact Hok|].
    destruct (put_events env _); [exact I|apply Hlog].
Qed.

(** The download fails; with both channels down the session raises the same
    error as with both channels up. *)
Example channels_down_same_error :
  fst (Scenario.session _estimate_pose_romp Scenario.channels_down) =
    Raise Scenario.NoSuchKey /\
  fst (Scenario.session _estimate_pose_romp Scenario.missing_inputs) =
    Raise Scenario.NoSuchKey.
Proof. split; vm_compute; reflexivity. Qed.

(** * Nobody in the picture: the estimate is never read (C9) *)

Lemma run_stages_no_person est env sid uid ak gk tmp w :
  run_stages (no_person est) env sid uid ak gk tmp w =
  run_stages est env sid uid ak gk tmp w.
Proof.
  unfold run_stages.
  do 3 (apply bind_ext; [reflexivity|intros ? ?]).
  unfold no_person. rewrite !bind_run.
  destruct (est env _ _ _) as [[p|e] w1]; reflexivity.
Qed.

Lemma process_image_with_no_person est env sid uid ak gk w :
  process_image_with (no_person est) env sid uid ak gk w =
  process_image_with est env sid uid ak gk w.
Proof.
  rewrite !process_image_with_attempt. unfold attempt.
  rewrite run_stages_no_person. reflexivity.
Qed.

Lemma cooperative_session_outcome :
  process_image_with _estimate_pose_romp Scenario.cooperative
    "S1" "U1" "avatars/a.jpg" "garments/g.jpg"
    (Scenario.started Scenario.cooperative) = Scenario.cooperative_outcome.
Proof. vm_compute. reflexivity. Qed.

Example nobody_there_five_keys :
  match fst (Scenario.session nobody_there Scenario.cooperative) with
  | Ok res => dict_keys (guidance_assets res)
  | Raise _ => []
  end = ["depth"; "normals"; "pose"; "segments"; "prompt"].
Proof. vm_compute. reflexivity. Qed.

(** * The text prompt (C8) *)

Lemma string_app_assoc (a b c : string) : (a ++ b) ++ c = a ++ (b ++ c).
Proof.
  induction a as [|ch a IH]; [reflexivity|].
  change (String ch ((a ++ b) ++ c) = String ch (a ++ (b ++ c))).
  rewrite IH. reflexivity.
Qed.

Lemma generate_text_prompt_eq mesh garment :
  _generate_text_prompt mesh garment =
  "A " ++ default "neutral" (gender mesh) ++ " person with height " ++
  str_num (default (PyInt 170) (height_cm_of mesh)) ++ "cm, " ++
  "wearing fashionable clothing, standing pose, " ++
  "professional photography, high quality, detailed textures, " ++
  "natural lighting, realistic proportions".
Proof.
  unfold _generate_text_prompt, height_cm_of.
  destruct (estimated_measurements mesh); cbv zeta;
    rewrite !string_app_assoc; reflexivity.
Qed.

(** C8: the prompt is a function of the gender and of the height
    measurement of the mesh fit alone: two mesh fits that agree on these two
    entries give the same prompt, whatever their other fields and whatever
    the garment path. *)
Theorem text_prompt_deterministic mesh1 mesh2 garment1 garment2 :
  gender mesh1 = gender mesh2 ->
  height_cm_of mesh1 = height_cm_of mesh2 ->
  _generate_text_prompt mesh1 garment1 = _generate_text_prompt mesh2 garment2.
Proof.
  intros Hg Hh. rewrite !generate_text_prompt_eq, Hg, Hh. reflexivity.
Qed.

Lemma text_prompt_deterministic_witness :
  _generate_text_prompt PromptExample.tall_a "/app/temp/S1/garment.jpg" =
  _generate_text_prompt PromptExample.tall_b "/app/temp/S2/other.jpg".
Proof.
  apply (text_prompt_deterministic PromptExample.tall_a PromptExample.tall_b);
    reflexivity.
Defined.

Example text_prompt_of_placeholder_fit :
  _generate_text_prompt PromptExample.tall_a "/app/temp/S1/garment.jpg" =
  "A female person with height 181.5cm, wearing fashionable clothing, standing pose, professional photography, high quality, detailed textures, natural lighting, realistic proportions".
Proof. vm_compute. reflexivity. Qed.

(** * The health snapshot (C10) *)

(** C10: in every processor state, so in every reachable one and whatever
    the number of failed sessions counted in [error_count],
    [get_health_status] returns a snapshot with exactly the eight fields of
    [health_fields], whose [status] is the constant [healthy] and whose
    counters are those of [self.stats]; the call changes neither the
    statistics nor the model cache. *)
Theorem health_status_always_healthy env w :
  exists snapshot,
    fst (get_health_status env w) = Ok snapshot /\
    dict_keys snapshot = health_fields /\
    dict_get "status" snapshot = Some (VStr "healthy") /\
    dict_get "processed_count" snapshot = Some (VNum (PyInt (processed_count (stats w)))) /\
    dict_get "error_count" snapshot = Some (VNum (PyInt (error_count (stats w)))) /\
    stats (snd (get_health_status env w)) = stats w /\
    smpl_models (snd (get_health_status env w)) = smpl_models w.
Proof.
  eexists. unfold get_health_status, datetime_utcnow, read_clock, bind, gets, ret.
  simpl. repeat split.
Qed.

(** After a failed session the error counter is positive and the snapshot
    still says [healthy]. *)
Example healthy_after_a_failed_session :
  let w := snd (Scenario.session _estimate_pose_romp Scenario.missing_inputs) in
  error_count (stats w) = 1 /\
  match fst (get_health_status Scenario.missing_inputs w) with
  | Ok snapshot =>
      dict_get "status" snapshot = Some (VStr "healthy") /\
      dict_get "error_count" snapshot = Some (VNum (PyInt 1))
  | Raise _ => False
  end.
Proof. vm_compute. repeat split. Qed.

(** * Image validation (C5) *)

Lemma existsb_allowed_formats fmt :
  existsb (String.eqb fmt) allowed_formats = true <-> In fmt allowed_formats.
Proof.
  rewrite existsb_exists. split.
  - intros (x & Hin & Heq). apply String.eqb_eq in Heq. subst x. exact Hin.
  - intros Hin. exists fmt. split; [exact Hin|apply String.eqb_refl].
Qed.

(** The outcome of [_validate_image] on a regular file, check by check. *)
Lemma validate_image_outcome path image_type f w :
  fst (_validate_image path image_type (with_file path f w)) =
  if Z.of_N (file_size f) >? max_image_size_mb (cfg w) * one_mb
  then Raise (mkExn "ValueError"
         (image_type ++ " image too large: " ++
          fmt_2f (file_size f) (Z.to_N one_mb) ++
          "MB > " ++ pretty (max_image_size_mb (cfg w)) ++ "MB"))
  else
    match file_pil f with
    | None =>
        Raise (mkExn "UnidentifiedImageError"
                 ("cannot identify image file '" ++ path ++ "'"))
    | Some img =>
        if negb (existsb (String.eqb (img_format img)) allowed_formats)
        then Raise (mkExn "ValueError"
               ("Unsupported " ++ image_type ++ " image format: " ++ img_format img))
        else if (img_width img <? 256)%N || (img_height img <? 256)%N
        then Raise (mkExn "ValueError"
               (image_type ++ " image too small: " ++ pretty (img_width img) ++
                "x" ++ pretty (img_height img) ++ " < 256x256"))
        else Ok tt
    end.
Proof.
  unfold _validate_image, try_except, os_path_getsize, Image_open, with_file,
    bind, gets, ret, raise, logger_info, logger_error, modify.
  cbn [fs set_fs cfg fst snd]. rewrite lookup_insert_eq. cbv beta iota.
  cbn [fs set_fs cfg fst snd].
  destruct (Z.of_N (file_size f) >? max_image_size_mb (cfg w) * one_mb);
    [reflexivity|].
  cbv beta iota. cbn [fs set_fs cfg fst snd]. rewrite lookup_insert_eq.
  cbv beta iota.
  destruct (file_pil f) as [img|]; [|reflexivity].
  cbv beta iota.
  destruct (negb (existsb (String.eqb (img_format img)) allowed_formats));
    [reflexivity|].
  cbv beta iota.
  destruct ((img_width img <? 256)%N || (img_height img <? 256)%N); reflexivity.
Qed.

(** C5: [_validate_image] accepts the file at [path] exactly when its size
    does not exceed [max_image_size_mb] megabytes, PIL decodes it, the
    decoded format is JPEG, PNG or WEBP, and width and height are at least
    256 pixels; in every other case it raises. *)
Theorem validate_image_accepts_iff path image_type f w :
  let outcome := fst (_validate_image path image_type (with_file path f w)) in
  (outcome = Ok tt <->
   Z.of_N (file_size f) <= max_image_size_mb (cfg w) * (1024 * 1024) /\
   exists img, file_pil f = Some img /\
               In (img_format img) ["JPEG"; "PNG"; "WEBP"] /\
               (256 <= img_width img)%N /\ (256 <= img_height img)%N) /\
  (outcome <> Ok tt -> exists e, outcome = Raise e).
Proof.
  cbv zeta. split.
  - rewrite validate_image_outcome. change (1024 * 1024) with one_mb.
    destruct (Z.gtb_spec (Z.of_N (file_size f)) (max_image_size_mb (cfg w) * one_mb))
      as [Hbig|Hfit].
    { split; [discriminate|]. intros [Hle _]. lia. }
    destruct (file_pil f) as [img|].
    2:{ split; [discriminate|]. intros (_ & img & Himg & _). discriminate Himg. }
    pose proof (existsb_allowed_formats (img_format img)) as Hfmt.
    destruct (existsb (String.eqb (img_format img)) allowed_formats); cbn [negb].
    2:{ split; [discriminate|]. intros (_ & img' & Himg & Hin & _).
        injection Himg as <-. apply Hfmt in Hin. discriminate Hin. }
    destruct (N.ltb_spec (img_width img) 256) as [Hw|Hw]; cbn [orb].
    { split; [discriminate|]. intros (_ & img' & Himg & _ & Hw' & _).
      injection Himg as <-. lia. }
    destruct (N.ltb_spec (img_height img) 256) as [Hh|Hh].
    { split; [discriminate|]. intros (_ & img' & Himg & _ & _ & Hh').
      injection Himg as <-. lia. }
    split; [|reflexivity]. intros _. split; [exact Hfit|].
    exists img. repeat split; try assumption. apply Hfmt. reflexivity.
  - destruct (fst (_validate_image path image_type (with_file path f w)))
      as [[]|e]; [intros H; contradiction H; reflexivity|].
    intros _. exists e. reflexivity.
Qed.

(** The four cases of the specification: a 50.1 MB file (52533658 bytes)
    under the 50 MB limit, a 200x200 image and a GIF are rejected with a
    [ValueError]; a 256x256 JPEG of exactly 50 MB is accepted. *)
Example validate_image_examples :
  ValidationExample.validate (ValidationExample.image 52533658 "JPEG" 1024 1024) =
    Raise (mkExn "ValueError" "avatar image too large: 50.10MB > 50MB") /\
  ValidationExample.validate (ValidationExample.image 1000 "JPEG" 200 200) =
    Raise (mkExn "ValueError" "avatar image too small: 200x200 < 256x256") /\
  ValidationExample.validate (ValidationExample.image 1000 "GIF" 1024 1024) =
    Raise (mkExn "ValueError" "Unsupported avatar image format: GIF") /\
  ValidationExample.validate (ValidationExample.image 52428800 "JPEG" 256 256) = Ok tt.
Proof. repeat split; vm_compute; reflexivity. Qed.

(** * The model cache (C4) *)

(** With a populated cache, [_load_smpl_models] returns at once: nothing is
    fetched, logged or changed. *)
Lemma load_smpl_models_cached env w :
  smpl_models w <> [] -> _load_smpl_models env w = (Ok tt, w).
Proof.
  intros Hloaded. unfold _load_smpl_models. rewrite bind_run. unfold gets.
  destruct (smpl_models w); [contradiction|reflexivity].
Qed.

(** A call that returns normally leaves the cache populated. *)
Lemma load_smpl_models_Ok env w u w' :
  _load_smpl_models env w = (Ok u, w') -> smpl_models w' <> [].
Proof.
  unfold _load_smpl_models. rewrite bind_run. unfold gets.
  destruct (smpl_models w) as [|handle handles] eqn:Hcache.
  - intros H. apply try_except_reraise_Ok in H.
    apply bind_Ok in H as (? & w1 & _ & H).
    apply bind_Ok in H as (? & w2 & _ & H).
    apply bind_Ok in H as (c & w3 & _ & H).
    apply bind_Ok in H as (? & w4 & Hset & H).
    unfold modify in Hset. injection Hset as _ <-.
    unfold logger_info, modify in H. injection H as _ <-.
    discriminate.
  - intros H. injection H as _ <-. rewrite Hcache. discriminate.
Qed.

Lemma load_repeatedly_cached envs w :
  smpl_models w <> [] ->
  load_repeatedly envs w = (replicate (length envs) (Ok tt), w).
Proof.
  intros Hloaded. induction envs as [|env envs IH]; [reflexivity|].
  simpl. rewrite load_smpl_models_cached by exact Hloaded. rewrite IH.
  reflexivity.
Qed.

Lemma fetched_once_ext w w' :
  fs w' = fs w -> downloads w' = downloads w -> fetched_once w -> fetched_once w'.
Proof. unfold fetched_once. intros -> ->. trivial. Qed.

Lemma fetched_once_makedirs env path w :
  fetched_once w -> fetched_once (snd (os_makedirs env path w)).
Proof.
  intros [Hnd Hfs]. unfold os_makedirs, bind, check, modify.
  destruct (makedirs env path); simpl; [split; assumption|].
  destruct (fs w !! path) eqn:Hdir; [split; assumption|].
  split; [exact Hnd|]. simpl. eapply Forall_impl; [exact Hfs|].
  intros d Hd. simpl. rewrite lookup_insert_is_Some'. right. exact Hd.
Qed.

Lemma downloads_makedirs env path w :
  downloads (snd (os_makedirs env path w)) = downloads w.
Proof.
  unfold os_makedirs, bind, check, modify.
  destruct (makedirs env path); simpl; [reflexivity|].
  destruct (fs w !! path); reflexivity.
Qed.

Lemma fresh_path_not_fetched bucket key path w :
  fetched_once w -> fs w !! path = None -> (bucket, key, path) ∉ downloads w.
Proof.
  intros [_ Hfs] Hfresh Hd. rewrite Forall_forall in Hfs.
  specialize (Hfs _ Hd). simpl in Hfs. rewrite Hfresh in Hfs.
  destruct Hfs as [? Hfs]. discriminate Hfs.
Qed.

Lemma fetched_once_download env bucket key path w :
  (bucket, key, path) ∉ downloads w -> fetched_once w ->
  fetched_once (snd (s3_download_file env bucket key path w)).
Proof.
  intros Hfresh [Hnd Hfs]. unfold s3_download_file, bind, lift, modify.
  destruct (download_file env bucket key path); simpl; [|split; assumption].
  split.
  - apply NoDup_app. split; [exact Hnd|]. split; [|apply NoDup_singleton].
    intros d Hd Hnew. apply list_elem_of_singleton in Hnew. subst d.
    exact (Hfresh Hd).
  - apply Forall_app. split.
    + eapply Forall_impl; [exact Hfs|]. intros d Hd. simpl.
      rewrite lookup_insert_is_Some'. right. exact Hd.
    + apply Forall_singleton. simpl. rewrite lookup_insert_eq. eauto.
Qed.

Lemma fetched_once_download_models env files w :
  fetched_once w -> fetched_once (snd (download_models env files w)).
Proof.
  revert w. induction files as [|file files IH]; intros w Hw; [exact Hw|].
  simpl. rewrite bind_run. unfold gets at 1. cbv beta iota zeta.
  rewrite bind_run. unfold os_path_exists at 1, gets at 1. cbv beta iota.
  set (path := model_path_smpl (cfg w) ++ "/" ++ file).
  destruct (fs w !! path) eqn:Hpath.
  - rewrite bind_run. unfold ret at 1. cbv beta iota. apply IH. exact Hw.
  - rewrite bind_run.
    pose proof (fetched_once_makedirs env (dirname path) w Hw) as Hmk.
    pose proof (downloads_makedirs env (dirname path) w) as Hdl.
    pose proof (fresh_path_not_fetched (bucket_smpl_assets (cfg w))
                  ("models/" ++ file) path w Hw Hpath) as Hfresh.
    rewrite <- Hdl in Hfresh.
    rewrite (bind_run (os_makedirs env (dirname path))).
    destruct (os_makedirs env (dirname path) w) as [[[]|e] w1]; simpl in Hmk, Hfresh;
      cbv beta iota; [|exact Hmk].
    pose proof (fetched_once_download env _ _ _ w1 Hfresh Hmk) as Hget.
    rewrite (bind_run (s3_download_file env _ _ _)).
    destruct (s3_download_file env _ _ _ w1) as [[[]|e] w2]; simpl in Hget;
      cbv beta iota; [|exact Hget].
    unfold logger_info at 1, modify at 1. cbv beta iota.
    apply IH. eapply fetched_once_ext; [| |exact Hget]; reflexivity.
Qed.

Lemma fetched_once_load_smpl_models env w :
  fetched_once w -> fetched_once (snd (_load_smpl_models env w)).
Proof.
  intros Hw. unfold _load_smpl_models. rewrite bind_run. unfold gets at 1.
  destruct (smpl_models w); [|exact Hw].
  unfold try_except. rewrite bind_run. unfold logger_info at 1, modify at 1.
  cbv beta iota. rewrite bind_run.
  match goal with
  | |- context [download_models env model_files ?w0] =>
      assert (Hdl : fetched_once (snd (download_models env model_files w0)))
        by (apply fetched_once_download_models;
            eapply fetched_once_ext; [| |exact Hw]; reflexivity);
      destruct (download_models env model_files w0) as [[[]|e] w1]
  end; simpl in Hdl; cbv beta iota.
  - unfold gets, modify, logger_info, bind, ret. simpl.
    eapply fetched_once_ext; [| |exact Hdl]; reflexivity.
  - unfold logger_error, modify, bind, raise. simpl.
    eapply fetched_once_ext; [| |exact Hdl]; reflexivity.
Qed.

Lemma fetched_once_load_repeatedly envs w :
  fetched_once w -> fetched_once (snd (load_repeatedly envs w)).
Proof.
  revert w. induction envs as [|env envs IH]; intros w Hw; [exact Hw|].
  simpl. pose proof (fetched_once_load_smpl_models env w Hw) as H1.
  destruct (_load_smpl_models env w) as [r w1]. simpl in H1.
  specialize (IH w1 H1). destruct (load_repeatedly envs w1) as [rs w2].
  exact IH.
Qed.

Lemma fetched_once_init env stage c disk :
  fetched_once (SMPLProcessor_init env stage c disk).
Proof. split; [apply NoDup_nil_2|apply Forall_nil_2]. Qed.

(** C4: once a call of [_load_smpl_models] has returned normally, the cache
    is populated and every later call of the process, whatever its
    environment, returns at once and leaves the whole world (the handles,
    the log of downloads, the disk) as it is.  Counted over any sequence of
    calls made by a processor since its start, no model file is downloaded
    twice. *)
Theorem model_fetch_at_most_once :
  (forall env w,
     fst (_load_smpl_models env w) = Ok tt ->
     smpl_models (snd (_load_smpl_models env w)) <> [] /\
     forall envs,
       load_repeatedly envs (snd (_load_smpl_models env w)) =
       (replicate (length envs) (Ok tt), snd (_load_smpl_models env w))) /\
  (forall env stage c disk envs,
     NoDup (downloads (snd (load_repeatedly envs (SMPLProcessor_init env stage c disk))))).
Proof.
  split.
  - intros env w Hok.
    assert (Hloaded : smpl_models (snd (_load_smpl_models env w)) <> []).
    { destruct (_load_smpl_models env w) as [r w1] eqn:Hrun. simpl in Hok. subst r.
      eapply load_smpl_models_Ok. exact Hrun. }
    split; [exact Hloaded|]. intros envs. apply load_repeatedly_cached. exact Hloaded.
  - intros env stage c disk envs.
    apply (fetched_once_load_repeatedly envs _ (fetched_once_init env stage c disk)).
Qed.

Lemma model_fetch_at_most_once_witness :
  let w := Scenario.started Scenario.cooperative in
  fst (_load_smpl_models Scenario.cooperative w) = Ok tt /\
  load_repeatedly [Scenario.missing_inputs; Scenario.cooperative]
    (snd (_load_smpl_models Scenario.cooperative w)) =
  ([Ok tt; Ok tt], snd (_load_smpl_models Scenario.cooperative w)).
Proof.
  cbv zeta.
  assert (Hok : fst (_load_smpl_models Scenario.cooperative
                       (Scenario.started Scenario.cooperative)) = Ok tt)
    by (vm_compute; reflexivity).
  split; [exact Hok|].
  exact (proj2 (proj1 model_fetch_at_most_once Scenario.cooperative
                  (Scenario.started Scenario.cooperative) Hok)
           [Scenario.missing_inputs; Scenario.cooperative]).
Defined.

(** A first call that fails half-way is retried by the next one, which
    fetches only what is still missing: three downloads in all. *)
Example retry_after_failed_load :
  let flaky :=
    set_download_file
      (fun _ key _ =>
         if String.eqb key "models/basicModel_m_lbs_10_207_0_v1.0.0.pkl"
         then Raise Scenario.NoSuchKey else Ok Scenario.written)
      Scenario.cooperative in
  let run := load_repeatedly [flaky; Scenario.cooperative; Scenario.cooperative]
               (Scenario.started Scenario.cooperative) in
  fst run = [Raise Scenario.NoSuchKey; Ok tt; Ok tt] /\
  map (fun d => snd (fst d)) (downloads (snd run)) =
    [ "models/basicModel_f_lbs_10_207_0_v1.0.0.pkl";
      "models/basicModel_m_lbs_10_207_0_v1.0.0.pkl";
      "models/basicModel_neutral_lbs_10_207_0_v1.0.0.pkl" ].
Proof. split; vm_compute; reflexivity. Qed.

(** * Upload keys (C6) *)

Lemma int_of_seconds_clock (t : N) :
  int_of_seconds (Z.of_N t) = Z.of_N (t / 1000000).
Proof. unfold int_of_seconds. rewrite N2Z.inj_quot. reflexivity. Qed.

(** Decimal numerals contain no dot. *)
Lemma pretty_N_char_no_dot (x : N) : Ascii.eqb (pretty_N_char x) "." = false.
Proof. unfold pretty_N_char. repeat case_match; reflexivity. Qed.

Lemma pretty_N_go_no_dot (x : N) (s : string) :
  has_char "." s = false -> has_char "." (pretty_N_go x s) = false.
Proof.
  revert s. induction (N.lt_wf_0 x) as [x _ IH]. intros s Hs.
  destruct (N.eq_dec x 0%N) as [->|Hx].
  - rewrite pretty_N_go_0. exact Hs.
  - rewrite pretty_N_go_step by lia. apply IH.
    + apply N.div_lt; lia.
    + simpl. rewrite pretty_N_char_no_dot. exact Hs.
Qed.

Lemma pretty_N_no_dot (n : N) : has_char "." (pretty n) = false.
Proof.
  unfold pretty, pretty_N. case_decide; [reflexivity|].
  apply pretty_N_go_no_dot. reflexivity.
Qed.

Lemma pretty_Z_no_dot (z : Z) : has_char "." (pretty z) = false.
Proof.
  destruct z as [|p|p]; unfold pretty, pretty_Z; [reflexivity| |].
  - apply pretty_N_no_dot.
  - change (has_char "." (String "-" (pretty (N.pos p))) = false). simpl.
    apply pretty_N_no_dot.
Qed.

(** Two texts that agree up to their first dot. *)
Lemma app_dot_inj (a b x y : string) :
  has_char "." a = false -> has_char "." b = false ->
  a ++ "." ++ x = b ++ "." ++ y -> a = b.
Proof.
  revert b. induction a as [|c a IH]; intros [|d b] Ha Hb Heq.
  - reflexivity.
  - change (String "." x = String d (b ++ "." ++ y)) in Heq.
    injection Heq as <- _. simpl in Hb. discriminate Hb.
  - change (String c (a ++ "." ++ x) = String "." y) in Heq.
    injection Heq as -> _. simpl in Ha. discriminate Ha.
  - change (String c (a ++ "." ++ x) = String d (b ++ "." ++ y)) in Heq.
    injection Heq as -> Heq. simpl in Ha, Hb.
    apply orb_false_elim in Ha as [_ Ha]. apply orb_false_elim in Hb as [_ Hb].
    f_equal. apply IH; assumption.
Qed.

(** The key of an asset determines its time stamp. *)
Lemma s3_key_of_timestamp kind sid t1 t2 path1 path2 :
  s3_key_of kind sid t1 path1 = s3_key_of kind sid t2 path2 -> t1 = t2.
Proof.
  unfold s3_key_of. intros H.
  apply (String.app_inj kind) in H. apply (String.app_inj "/") in H.
  apply (String.app_inj sid) in H. apply (String.app_inj "-") in H.
  apply app_dot_inj in H; [|apply pretty_Z_no_dot..].
  apply pretty_Z_inj in H. exact H.
Qed.

Lemma dict_get_set_eq {V} k (v : V) d : dict_get k (dict_set k v d) = Some v.
Proof.
  induction d as [|[k' v'] d IH]; simpl.
  - rewrite String.eqb_refl. reflexivity.
  - destruct (String.eqb k k') eqn:Hk; simpl; rewrite ?String.eqb_refl, ?Hk;
      [reflexivity|exact IH].
Qed.

Lemma dict_get_set_ne {V} k k' (v : V) d :
  k <> k' -> dict_get k' (dict_set k v d) = dict_get k' d.
Proof.
  intros Hne. induction d as [|[k0 v0] d IH]; simpl.
  - destruct (String.eqb_spec k' k); [congruence|reflexivity].
  - destruct (String.eqb_spec k k0) as [->|Hk0]; simpl.
    + destruct (String.eqb_spec k' k0); [congruence|reflexivity].
    + destruct (String.eqb_spec k' k0); [reflexivity|exact IH].
Qed.

Lemma clock_reads_upload env path bucket key ctype w :
  clock_reads (snd (s3_upload_file env path bucket key ctype w)) = clock_reads w.
Proof.
  unfold s3_upload_file, bind, gets, check, modify, raise.
  destruct (fs w !! path) as [[|f]|]; simpl; try reflexivity.
  destruct (upload_file env path bucket key ctype); reflexivity.
Qed.

(** Every key that [upload_assets] adds to [acc] is built from an item and
    from a clock reading taken during the call. *)
Lemma upload_assets_keys env sid items acc w keys w' :
  upload_assets env sid items acc w = (Ok keys, w') ->
  (clock_reads w <= clock_reads w')%nat /\
  forall kind key,
    dict_get kind keys = Some key ->
    dict_get kind acc = Some key \/
    exists path k,
      In (kind, path) items /\
      (clock_reads w <= k < clock_reads w')%nat /\
      key = s3_key_of kind sid (int_of_seconds (Z.of_N (clock env k))) path.
Proof.
  revert acc w. induction items as [|[kind0 path0] items IH]; intros acc w H.
  - simpl in H. unfold ret in H. injection H as <- <-.
    split; [lia|]. intros kind key Hget. left. exact Hget.
  - simpl in H.
    apply bind_Ok in H as (now & w1 & Hnow & H).
    unfold time_time, read_clock, bind, ret in Hnow. injection Hnow as <- <-.
    apply bind_Ok in H as (c & w2 & Hc & H).
    unfold gets in Hc. injection Hc as <- <-.
    apply bind_Ok in H as ([] & w3 & Hup & H).
    pose proof (clock_reads_upload env path0 (bucket_guidance (cfg w))
                  (s3_key_of kind0 sid (int_of_seconds (Z.of_N (clock env (clock_reads w))))
                     path0) (_get_content_type path0)
                  (set_clock_reads (S (clock_reads w)) w)) as Hclk.
    simpl cfg in Hup. rewrite Hup in Hclk. simpl in Hclk.
    apply bind_Ok in H as ([] & w4 & Hlog & H).
    unfold logger_info, modify in Hlog. injection Hlog as <-.
    apply IH in H as [Hmono Hkeys]. simpl clock_reads in Hmono, Hkeys.
    rewrite Hclk in Hmono, Hkeys.
    split; [lia|]. intros kind key Hget.
    destruct (Hkeys kind key Hget) as [Hacc|(path & k & Hin & Hk & Hkey)].
    + destruct (String.eqb_spec kind0 kind) as [<-|Hne].
      * rewrite dict_get_set_eq in Hacc. injection Hacc as <-.
        right. exists path0, (clock_reads w). split; [left; reflexivity|].
        split; [lia|reflexivity].
      * rewrite dict_get_set_ne in Hacc by exact Hne. left. exact Hacc.
    + right. exists path, k. split; [right; exact Hin|]. split; [lia|exact Hkey].
Qed.

Lemma upload_guidance_assets_keys env sid assets tmp w keys w' :
  _upload_guidance_assets env sid assets tmp w = (Ok keys, w') ->
  forall kind key,
    dict_get kind keys = Some key ->
    exists path k,
      In (kind, path) assets /\
      (clock_reads w <= k < clock_reads w')%nat /\
      key = s3_key_of kind sid (int_of_seconds (Z.of_N (clock env k))) path.
Proof.
  unfold _upload_guidance_assets. intros H.
  apply bind_Ok in H as ([] & w1 & Hlog & H).
  unfold logger_info, modify in Hlog. injection Hlog as <-.
  apply try_except_reraise_Ok in H.
  apply upload_assets_keys in H as [_ Hkeys].
  intros kind key Hget.
  destruct (Hkeys kind key Hget) as [Hnil|Hnew]; [discriminate Hnil|exact Hnew].
Qed.

Lemma seconds_apart (t1 t2 : N) :
  (t1 + 1000000 <= t2)%N -> (t1 / 1000000)%N <> (t2 / 1000000)%N.
Proof.
  intros Hle Heq.
  pose proof (N.div_add t1 1 1000000) as Hadd.
  pose proof (N.Div0.div_le_mono (t1 + 1 * 1000000) t2 1000000) as Hmono.
  rewrite Hadd in Hmono by discriminate. lia.
Qed.

(** C6: every key returned by [_upload_guidance_assets] has the shape
    [kind/session-timestamp.extension], where the time stamp is a clock
    reading of the call in whole seconds and the extension is the part of
    the local path after its last dot; and the keys that two calls for the
    same session give to the same asset kind differ whenever every clock
    reading of the second call is at least one second later than every
    clock reading of the first. *)
Theorem upload_keys_shape_and_distinct :
  (forall env sid assets tmp w keys w',
     _upload_guidance_assets env sid assets tmp w = (Ok keys, w') ->
     forall kind key,
       dict_get kind keys = Some key ->
       exists path k,
         In (kind, path) assets /\
         (clock_reads w <= k < clock_reads w')%nat /\
         key = kind ++ "/" ++ sid ++ "-" ++
               pretty (Z.of_N (clock env k / 1000000)) ++ "." ++
               split_last "." path) /\
  (forall env1 env2 sid assets1 assets2 tmp w1 w2 keys1 keys2 w1' w2',
     _upload_guidance_assets env1 sid assets1 tmp w1 = (Ok keys1, w1') ->
     _upload_guidance_assets env2 sid assets2 tmp w2 = (Ok keys2, w2') ->
     (forall i j,
        (clock_reads w1 <= i < clock_reads w1')%nat ->
        (clock_reads w2 <= j < clock_reads w2')%nat ->
        (clock env1 i + 1000000 <= clock env2 j)%N) ->
     forall kind key1 key2,
       dict_get kind keys1 = Some key1 ->
       dict_get kind keys2 = Some key2 ->
       key1 <> key2).
Proof.
  split.
  - intros env sid assets tmp w keys w' Hrun kind key Hget.
    destruct (upload_guidance_assets_keys _ _ _ _ _ _ _ Hrun kind key Hget)
      as (path & k & Hin & Hk & Hkey).
    exists path, k. split; [exact Hin|]. split; [exact Hk|].
    rewrite Hkey, int_of_seconds_clock. reflexivity.
  - intros env1 env2 sid assets1 assets2 tmp w1 w2 keys1 keys2 w1' w2'
      Hrun1 Hrun2 Hlater kind key1 key2 Hget1 Hget2 Heq.
    destruct (upload_guidance_assets_keys _ _ _ _ _ _ _ Hrun1 kind key1 Hget1)
      as (path1 & i & _ & Hi & Hkey1).
    destruct (upload_guidance_assets_keys _ _ _ _ _ _ _ Hrun2 kind key2 Hget2)
      as (path2 & j & _ & Hj & Hkey2).
    rewrite Hkey1, Hkey2 in Heq. apply s3_key_of_timestamp in Heq.
    rewrite !int_of_seconds_clock in Heq. apply N2Z.inj in Heq.
    exact (seconds_apart _ _ (Hlater i j Hi Hj) Heq).
Qed.

Lemma upload_example_first :
  _upload_guidance_assets Scenario.cooperative "S1" UploadExample.assets
    "/app/temp/S1" UploadExample.before = UploadExample.first_call.
Proof. vm_compute. reflexivity. Qed.

Lemma upload_example_second :
  _upload_guidance_assets Scenario.cooperative "S1" UploadExample.assets
    "/app/temp/S1" (snd UploadExample.first_call) = UploadExample.second_call.
Proof. vm_compute. reflexivity. Qed.

Lemma upload_keys_shape_and_distinct_witness :
  dict_get "depth" (match fst UploadExample.first_call with
                    | Ok keys => keys | Raise _ => [] end) =
    Some "depth/S1-1700000003.png" /\
  dict_get "depth" (match fst UploadExample.second_call with
                    | Ok keys => keys | Raise _ => [] end) =
    Some "depth/S1-1700000004.png" /\
  "depth/S1-1700000003.png" <> "depth/S1-1700000004.png".
Proof.
  split; [reflexivity|]. split; [reflexivity|].
  pose proof upload_example_first as H1. pose proof upload_example_second as H2.
  unfold UploadExample.first_call in H1.
  unfold UploadExample.second_call, UploadExample.first_call in H2.
  cbn [snd] in H2.
  refine (proj2 upload_keys_shape_and_distinct _ _ _ _ _ _ _ _ _ _ _ _
            H1 H2 _ "depth" _ _ eq_refl eq_refl).
  intros i j Hi Hj. cbn [clock_reads] in Hi, Hj.
  assert (Hstart : clock_reads UploadExample.before = 2%nat) by reflexivity.
  rewrite Hstart in Hi.
  assert (i = 2%nat) as -> by lia. assert (j = 3%nat) as -> by lia.
  vm_compute. discriminate.
Defined.

(** * Histories *)

Lemma evolves_refl w : evolves w w.
Proof. split; try reflexivity; try lia. trivial. Qed.

Lemma evolves_trans w1 w2 w3 : evolves w1 w2 -> evolves w2 w3 -> evolves w1 w3.
Proof.
  intros [] []. split; try (etrans; eassumption); try lia; try congruence.
  auto.
Qed.

Section Keeps.
Context (R : World -> World -> Prop).
Context (R_refl : forall w, R w w).
Context (R_trans : forall w1 w2 w3, R w1 w2 -> R w2 w3 -> R w1 w3).

Lemma keeps_ret {A} (a : A) : keeps R (ret a).
Proof. intros w. apply R_refl. Qed.

Lemma keeps_raise {A} (e : Exn) : keeps R (@raise A e).
Proof. intros w. apply R_refl. Qed.

Lemma keeps_gets {A} (f : World -> A) : keeps R (gets f).
Proof. intros w. apply R_refl. Qed.

Lemma keeps_check (r : option Exn) : keeps R (check r).
Proof. destruct r; intros w; apply R_refl. Qed.

Lemma keeps_lift {A} (r : Outcome A) : keeps R (lift r).
Proof. destruct r; intros w; apply R_refl. Qed.

Lemma keeps_modify (f : World -> World) :
  (forall w, R w (f w)) -> keeps R (modify f).
Proof. intros Hf w. apply Hf. Qed.

Lemma keeps_bind {A C} (m : M A) (k : A -> M C) :
  keeps R m -> (forall a, keeps R (k a)) -> keeps R (bind m k).
Proof.
  intros Hm Hk w. rewrite bind_run.
  specialize (Hm w). destruct (m w) as [[a|e] w1]; simpl in *.
  - eapply R_trans; [exact Hm|apply Hk].
  - exact Hm.
Qed.

Lemma keeps_try_except {A} (m : M A) (h : Exn -> M A) :
  keeps R m -> (forall e, keeps R (h e)) -> keeps R (try_except m h).
Proof.
  intros Hm Hh w. unfold try_except.
  specialize (Hm w). destruct (m w) as [[a|e] w1]; simpl in *.
  - exact Hm.
  - eapply R_trans; [exact Hm|apply Hh].
Qed.

Lemma keeps_try_finally {A} (m : M A) (f : M unit) :
  keeps R m -> keeps R f -> keeps R (try_finally m f).
Proof.
  intros Hm Hf w. unfold try_finally.
  specialize (Hm w). destruct (m w) as [r w1]; simpl in *.
  specialize (Hf w1). destruct (f w1) as [[u|e] w2]; simpl in *;
    eapply R_trans; eassumption.
Qed.
End Keeps.

Create HintDb history.

(** Side condition of [keeps_modify] for [evolves]: the update writes one
    component, at its end when it is a record of the outside world. *)
Ltac later_update :=
  intros;
  repeat match goal with
         | |- context [match ?x with _ => _ end] => destruct x
         end;
  split; simpl; try reflexivity; try lia; try (intros; discriminate);
  try (apply prefix_app_r; reflexivity); trivial.

Ltac history_step :=
  match goal with
  | |- keeps _ (bind _ _) =>
      apply (keeps_bind _ evolves_trans); [| intros ?]
  | |- keeps _ (try_except _ _) =>
      apply (keeps_try_except _ evolves_trans); [| intros ?]
  | |- keeps _ (try_finally _ _) => apply (keeps_try_finally _ evolves_trans)
  | |- keeps _ (ret _) => apply (keeps_ret _ evolves_refl)
  | |- keeps _ (raise _) => apply (keeps_raise _ evolves_refl)
  | |- keeps _ (gets _) => apply (keeps_gets _ evolves_refl)
  | |- keeps _ (check _) => apply (keeps_check _ evolves_refl)
  | |- keeps _ (lift _) => apply (keeps_lift _ evolves_refl)
  | |- keeps _ (modify _) => apply keeps_modify; later_update
  | |- keeps _ (match ?x with _ => _ end) => destruct x
  | |- keeps _ _ => solve [eauto with history]
  end.

Ltac history := repeat history_step.

Lemma later_read_clock env : keeps evolves (read_clock env).
Proof. intros w. unfold read_clock. simpl. later_update. Qed.

Lemma later_randn env shape : keeps evolves (np_random_randn env shape).
Proof. intros w. unfold np_random_randn. simpl. later_update. Qed.

Lemma later_randint shape : keeps evolves (np_random_randint shape).
Proof. intros w. unfold np_random_randint. simpl. later_update. Qed.

#[export] Hint Resolve later_read_clock later_randn later_randint : history.

Lemma later_time_time env : keeps evolves (time_time env).
Proof. unfold time_time. history. Qed.

Lemma later_utcnow env : keeps evolves (datetime_utcnow env).
Proof. unfold datetime_utcnow. history. Qed.

Lemma later_logger_info msg : keeps evolves (logger_info msg).
Proof. unfold logger_info. history. Qed.

Lemma later_logger_error msg : keeps evolves (logger_error msg).
Proof. unfold logger_error. history. Qed.

Lemma later_makedirs env path : keeps evolves (os_makedirs env path).
Proof. unfold os_makedirs. history. Qed.

Lemma later_exists path : keeps evolves (os_path_exists path).
Proof. unfold os_path_exists. history. Qed.

Lemma later_getsize path : keeps evolves (os_path_getsize path).
Proof. unfold os_path_getsize. history. Qed.

Lemma later_download env b k p : keeps evolves (s3_download_file env b k p).
Proof. unfold s3_download_file. history. Qed.

Lemma later_upload env p b k c : keeps evolves (s3_upload_file env p b k c).
Proof. unfold s3_upload_file. history. Qed.

Lemma later_Image_open path : keeps evolves (Image_open path).
Proof. unfold Image_open. history. Qed.

Lemma later_imread path : keeps evolves (cv2_imread path).
Proof. unfold cv2_imread. history. Qed.

Lemma later_imwrite env path arr : keeps evolves (cv2_imwrite env path arr).
Proof. unfold cv2_imwrite. history. Qed.

Lemma later_open_write env path text : keeps evolves (open_write env path text).
Proof. unfold open_write. history. Qed.

Lemma later_rmtree env path : keeps evolves (shutil_rmtree env path).
Proof. unfold shutil_rmtree. history. Qed.

Lemma later_getitem {A} key (entry : option A) : keeps evolves (getitem key entry).
Proof. unfold getitem. history. Qed.

Lemma later_put_events env ev : keeps evolves (events_put_events env ev).
Proof. unfold events_put_events. history. Qed.

Lemma later_put_metric_data env ns m : keeps evolves (cloudwatch_put_metric_data env ns m).
Proof. unfold cloudwatch_put_metric_data. history. Qed.

#[export] Hint Resolve later_time_time later_utcnow later_logger_info
  later_logger_error later_makedirs later_exists later_getsize later_download
  later_upload later_Image_open later_imread later_imwrite later_open_write
  later_rmtree later_getitem later_put_events later_put_metric_data : history.

Lemma later_download_models env files : keeps evolves (download_models env files).
Proof. induction files as [|f files IH]; simpl; history. Qed.

#[export] Hint Resolve later_download_models : history.

Lemma later_load_smpl_models env : keeps evolves (_load_smpl_models env).
Proof. unfold _load_smpl_models. history. Qed.

Lemma later_validate_image path ty : keeps evolves (_validate_image path ty).
Proof. unfold _validate_image. history. Qed.

#[export] Hint Resolve later_load_smpl_models later_validate_image : history.

Lemma later_download_input_images env sid ak gk tmp :
  keeps evolves (_download_input_images env sid ak gk tmp).
Proof. unfold _download_input_images. history. Qed.

Lemma later_estimate_pose_romp env path tmp :
  keeps evolves (_estimate_pose_romp env path tmp).
Proof. unfold _estimate_pose_romp. history. Qed.

Lemma later_fit_body_mesh env path pose tmp :
  keeps evolves (_fit_body_mesh env path pose tmp).
Proof. unfold _fit_body_mesh. history. Qed.

Lemma later_generate_guidance_assets env a g pose mesh tmp :
  keeps evolves (_generate_guidance_assets env a g pose mesh tmp).
Proof. unfold _generate_guidance_assets. history. Qed.

Lemma later_upload_assets env sid items acc :
  keeps evolves (upload_assets env sid items acc).
Proof.
  revert acc. induction items as [|[kind path] items IH]; intros acc; simpl; history.
Qed.

#[export] Hint Resolve later_upload_assets : history.

Lemma later_upload_guidance_assets env sid assets tmp :
  keeps evolves (_upload_guidance_assets env sid assets tmp).
Proof. unfold _upload_guidance_assets. history. Qed.

Lemma later_publish_completion_event env sid uid keys mesh :
  keeps evolves (_publish_completion_event env sid uid keys mesh).
Proof. unfold _publish_completion_event. history. Qed.

Lemma later_publish_error_event env sid uid msg :
  keeps evolves (_publish_error_event env sid uid msg).
Proof. unfold _publish_error_event. history. Qed.

Lemma later_send_metrics env name value dims :
  keeps evolves (_send_metrics env name value dims).
Proof. unfold _send_metrics. history. Qed.

Lemma later_cleanup_temp_files env tmp : keeps evolves (_cleanup_temp_files env tmp).
Proof. unfold _cleanup_temp_files. history. Qed.

#[export] Hint Resolve later_download_input_images later_estimate_pose_romp
  later_fit_body_mesh later_generate_guidance_assets later_upload_guidance_assets
  later_publish_completion_event later_publish_error_event later_send_metrics
  later_cleanup_temp_files : history.

Lemma later_run_stages est env sid uid ak gk tmp :
  (forall path t, keeps evolves (est env path t)) ->
  keeps evolves (run_stages est env sid uid ak gk tmp).
Proof. intros Hest. unfold run_stages. history. Qed.

Lemma later_report_success env sid start keys mesh :
  keeps evolves (report_success env sid start keys mesh).
Proof. unfold report_success. history. Qed.

Lemma later_report_failure env sid uid e :
  keeps evolves (report_failure env sid uid e).
Proof. unfold report_failure. history. Qed.

#[export] Hint Resolve later_run_stages later_report_success later_report_failure
  : history.

Lemma later_process_image_with est env sid uid ak gk :
  (forall path t, keeps evolves (est env path t)) ->
  keeps evolves (process_image_with est env sid uid ak gk).
Proof. intros Hest. unfold process_image_with. history. Qed.

Lemma later_get_health_status env : keeps evolves (get_health_status env).
Proof. unfold get_health_status. history. Qed.

Lemma later_run_sessions reqs w : evolves w (snd (run_sessions reqs w)).
Proof.
  revert w. induction reqs as [|rq reqs IH]; intros w; [apply evolves_refl|].
  simpl.
  pose proof (later_process_image_with _estimate_pose_romp (rq_env rq)
                (rq_session_id rq) (rq_user_id rq) (rq_avatar_image_key rq)
                (rq_garment_image_key rq)
                (fun path t => later_estimate_pose_romp (rq_env rq) path t) w) as H1.
  fold (process_image (rq_env rq)) in H1.
  destruct (process_image (rq_env rq) _ _ _ _ w) as [r w1]. simpl in H1.
  specialize (IH w1). destruct (run_sessions reqs w1) as [rs w2]. simpl in *.
  eapply evolves_trans; eassumption.
Qed.

(** Whatever the sessions and their outcomes, [process_image] never rewrites
    the past: over any sequence of sessions the configuration and the start
    time stay the same, a loaded model cache stays loaded, the counters do
    not decrease, and the events, metrics, uploads, downloads and log
    records that existed before are still there, in the same order, at the
    head of the later records. *)
Theorem sessions_only_append reqs w :
  let w' := snd (run_sessions reqs w) in
  cfg w' = cfg w /\
  start_time (stats w') = start_time (stats w) /\
  processed_count (stats w) <= processed_count (stats w') /\
  error_count (stats w) <= error_count (stats w') /\
  (smpl_models w <> [] -> smpl_models w' <> []) /\
  (exists new, events w' = (events w ++ new)%list) /\
  (exists new, metrics w' = (metrics w ++ new)%list) /\
  (exists new, uploads w' = (uploads w ++ new)%list) /\
  (exists new, downloads w' = (downloads w ++ new)%list) /\
  (exists new, log w' = (log w ++ new)%list).
Proof.
  cbv zeta. destruct (later_run_sessions reqs w).
  repeat split; assumption.
Qed.

(** Every session is counted exactly once: after any sequence of sessions,
    [processed_count] has grown by the number of sessions that returned and
    [error_count] by the number of sessions that raised. *)
Theorem sessions_counted_once reqs w :
  let outcomes := fst (run_sessions reqs w) in
  let w' := snd (run_sessions reqs w) in
  length outcomes = length reqs /\
  processed_count (stats w') =
    processed_count (stats w) + Z.of_nat (length (List.filter is_Ok outcomes)) /\
  error_count (stats w') =
    error_count (stats w) + Z.of_nat (length (List.filter is_Raise outcomes)).
Proof.
  cbv zeta. revert w. induction reqs as [|rq reqs IH]; intros w.
  - simpl. repeat split; lia.
  - simpl.
    pose proof (process_image_stats (rq_env rq) (rq_session_id rq) (rq_user_id rq)
                  (rq_avatar_image_key rq) (rq_garment_image_key rq) w) as Hst.
    cbv zeta in Hst.
    destruct (process_image (rq_env rq) _ _ _ _ w) as [r w1].
    specialize (IH w1). destruct (run_sessions reqs w1) as [rs w2].
    simpl in IH |- *. destruct IH as (Hlen & Hp & He).
    rewrite Hp, He. destruct r as [res|e]; rewrite Hst; simpl; repeat split; lia.
Qed.

(** With a clock that never steps back, the processing time reported by a
    successful session is not negative. *)
Theorem processing_time_nonnegative env sid uid ak gk w res w' :
  (forall i j, (i <= j)%nat -> (clock env i <= clock env j)%N) ->
  process_image env sid uid ak gk w = (Ok res, w') ->
  exists elapsed, processing_time res = PyFloat elapsed /\ 0 <= elapsed.
Proof.
  intros Hmono. unfold process_image. rewrite process_image_with_attempt.
  unfold attempt.
  pose proof (later_run_stages _estimate_pose_romp env sid uid ak gk (temp_dir_of sid)
                (fun path t => later_estimate_pose_romp env path t)
                (set_clock_reads (S (clock_reads w)) w)) as Hlater.
  destruct (run_stages _estimate_pose_romp env sid uid ak gk (temp_dir_of sid) _)
    as [[r|e] w2].
  - rewrite report_success_outcome. intros H. injection H as <- _.
    eexists. split; [reflexivity|].
    apply later_clock in Hlater. simpl in Hlater.
    specialize (Hmono (clock_reads w) (clock_reads w2)). lia.
  - rewrite report_failure_outcome. intros H. discriminate H.
Qed.

Lemma processing_time_nonnegative_witness :
  exists elapsed,
    processing_time
      (match fst Scenario.cooperative_outcome with
       | Ok res => res
       | Raise _ => success_result EmptyString 0 [] PromptExample.tall_a
       end) = PyFloat elapsed /\ 0 <= elapsed.
Proof.
  pose proof cooperative_session_outcome as Hrun.
  unfold Scenario.cooperative_outcome in Hrun |- *. cbn [fst].
  refine (processing_time_nonnegative Scenario.cooperative
            "S1" "U1" "avatars/a.jpg" "garments/g.jpg"
            (Scenario.started Scenario.cooperative) _ _ _ Hrun).
  intros i j Hij. unfold Scenario.cooperative, clock. lia.
Defined.

(** * Components that a computation does not write *)

(** Side condition of [preserves_modify] for a field of the world. *)
Ltac field_update :=
  intros; cbv beta;
  repeat match goal with
         | |- context [match ?x with _ => _ end] => destruct x
         end;
  reflexivity.

Create HintDb quiet.

(** As [frame], for a field of [World]: computations that are not known to
    preserve the field are unfolded. *)
Ltac quiet_step :=
  match goal with
  | |- preserves _ (bind _ _) => apply preserves_bind; [| intros ?]
  | |- preserves _ (try_except _ _) => apply preserves_try_except; [| intros ?]
  | |- preserves _ (try_finally _ _) => apply preserves_try_finally
  | |- preserves _ (ret _) => apply preserves_ret
  | |- preserves _ (raise _) => apply preserves_raise
  | |- preserves _ (gets _) => apply preserves_gets
  | |- preserves _ (check _) => apply preserves_check
  | |- preserves _ (lift _) => apply preserves_lift
  | |- preserves _ (modify _) => apply preserves_modify; field_update
  | |- preserves _ (read_clock _) => intros ?; reflexivity
  | |- preserves _ (np_random_randn _ _) => intros ?; reflexivity
  | |- preserves _ (np_random_randint _) => intros ?; reflexivity
  | |- preserves _ (match ?x with _ => _ end) => destruct x
  | |- preserves _ _ => solve [eauto with quiet]
  | |- preserves _ (time_time _) => unfold time_time
  | |- preserves _ (datetime_utcnow _) => unfold datetime_utcnow
  | |- preserves _ (logger_info _) => unfold logger_info
  | |- preserves _ (logger_error _) => unfold logger_error
  | |- preserves _ (os_makedirs _ _) => unfold os_makedirs
  | |- preserves _ (os_path_exists _) => unfold os_path_exists
  | |- preserves _ (os_path_getsize _) => unfold os_path_getsize
  | |- preserves _ (s3_download_file _ _ _ _) => unfold s3_download_file
  | |- preserves _ (s3_upload_file _ _ _ _ _) => unfold s3_upload_file
  | |- preserves _ (Image_open _) => unfold Image_open
  | |- preserves _ (cv2_imread _) => unfold cv2_imread
  | |- preserves _ (cv2_imwrite _ _ _) => unfold cv2_imwrite
  | |- preserves _ (open_write _ _ _) => unfold open_write
  | |- preserves _ (shutil_rmtree _ _) => unfold shutil_rmtree
  | |- preserves _ (getitem _ _) => unfold getitem
  | |- preserves _ (events_put_events _ _) => unfold events_put_events
  | |- preserves _ (cloudwatch_put_metric_data _ _ _) =>
      unfold cloudwatch_put_metric_data
  | |- preserves _ (_validate_image _ _) => unfold _validate_image
  | |- preserves _ (_load_smpl_models _) => unfold _load_smpl_models
  | |- preserves _ (_download_input_images _ _ _ _ _) =>
      unfold _download_input_images
  | |- preserves _ (_estimate_pose_romp _ _ _) => unfold _estimate_pose_romp
  | |- preserves _ (_fit_body_mesh _ _ _ _) => unfold _fit_body_mesh
  | |- preserves _ (_generate_guidance_assets _ _ _ _ _ _) =>
      unfold _generate_guidance_assets
  | |- preserves _ (_publish_completion_event _ _ _ _ _) =>
      unfold _publish_completion_event
  | |- preserves _ (report_success _ _ _ _ _) => unfold report_success
  | |- preserves _ (report_failure _ _ _ _) => unfold report_failure
  | |- preserves _ (_send_metrics _ _ _ _) => unfold _send_metrics
  | |- preserves _ (_publish_error_event _ _ _ _) => unfold _publish_error_event
  | |- preserves _ (_cleanup_temp_files _ _) => unfold _cleanup_temp_files
  end.

Ltac quiet := repeat quiet_step.

(** * Loading the models *)

Lemma download_models_keeps_cache env files :
  preserves smpl_models (download_models env files).
Proof. induction files as [|f files IH]; simpl; quiet. Qed.

(** A call of [_load_smpl_models] that raises found the cache empty and
    leaves it empty, so that the next session tries again; the error is the
    last record of the log, at level ERROR. *)
Theorem failed_load_leaves_cache_empty env w e w' :
  _load_smpl_models env w = (Raise e, w') ->
  smpl_models w = [] /\ smpl_models w' = [] /\
  exists earlier,
    log w' = (earlier ++ [mkLogRecord ERROR ("Failed to load SMPL models: " ++
                                             str_exn e)])%list.
Proof.
  unfold _load_smpl_models. rewrite bind_run. unfold gets at 1.
  destruct (smpl_models w) as [|handle handles] eqn:Hcache;
    [|intros H; discriminate H].
  unfold try_except. rewrite bind_run. unfold logger_info at 1, modify at 1.
  cbv beta iota. rewrite bind_run.
  match goal with
  | |- context [download_models env model_files ?w0] =>
      pose proof (download_models_keeps_cache env model_files w0) as Hkeep;
      destruct (download_models env model_files w0) as [[[]|e1] w1]
  end; simpl in Hkeep; cbv beta iota.
  - unfold gets, modify, logger_info, bind, ret. intros H. discriminate H.
  - unfold logger_error, modify, bind, raise. intros H. injection H as <- <-.
    split; [reflexivity|]. split; [simpl; congruence|].
    simpl. eexists. reflexivity.
Qed.

Lemma failed_load_leaves_cache_empty_witness :
  let run := _load_smpl_models Scenario.missing_inputs
               (Scenario.started Scenario.missing_inputs) in
  smpl_models (snd run) = [].
Proof.
  cbv zeta.
  destruct (_load_smpl_models Scenario.missing_inputs
              (Scenario.started Scenario.missing_inputs)) as [[[]|e] w'] eqn:Hrun.
  - vm_compute in Hrun. discriminate Hrun.
  - exact (proj1 (proj2 (failed_load_leaves_cache_empty _ _ _ _ Hrun))).
Defined.

(** When the three model files are already on the local disk, loading
    succeeds without a single call to S3, whatever the state of the
    network: nothing is downloaded, the disk is unchanged and the cache
    holds the three handles. *)
Theorem load_from_local_files env w :
  smpl_models w = [] ->
  (forall f, In f model_files ->
             is_Some (fs w !! (model_path_smpl (cfg w) ++ "/" ++ f))) ->
  fst (_load_smpl_models env w) = Ok tt /\
  downloads (snd (_load_smpl_models env w)) = downloads w /\
  fs (snd (_load_smpl_models env w)) = fs w /\
  dict_keys (smpl_models (snd (_load_smpl_models env w))) =
    ["female"; "male"; "neutral"].
Proof.
  intros Hcache Hfiles.
  destruct (Hfiles "basicModel_f_lbs_10_207_0_v1.0.0.pkl") as [n1 H1];
    [simpl; auto|].
  destruct (Hfiles "basicModel_m_lbs_10_207_0_v1.0.0.pkl") as [n2 H2];
    [simpl; auto|].
  destruct (Hfiles "basicModel_neutral_lbs_10_207_0_v1.0.0.pkl") as [n3 H3];
    [simpl; auto|].
  unfold _load_smpl_models, model_files. cbn [download_models].
  unfold try_except, bind, gets, ret, os_path_exists, logger_info, modify.
  rewrite Hcache. simpl.
  rewrite H1. simpl. rewrite H2. simpl. rewrite H3. simpl.
  repeat split.
Qed.

Lemma load_from_local_files_witness :
  fst (_load_smpl_models Scenario.missing_inputs LocalModels.started) = Ok tt /\
  downloads (snd (_load_smpl_models Scenario.missing_inputs LocalModels.started)) = [].
Proof.
  assert (Hcache : smpl_models LocalModels.started = []) by reflexivity.
  assert (Hfiles : forall f, In f model_files ->
            is_Some (fs LocalModels.started
                       !! (model_path_smpl (cfg LocalModels.started) ++ "/" ++ f))).
  { intros f [<-|[<-|[<-|[]]]]; vm_compute; eexists; reflexivity. }
  destruct (load_from_local_files Scenario.missing_inputs LocalModels.started
              Hcache Hfiles) as (Hok & Hdl & _).
  split; [exact Hok|]. rewrite Hdl. reflexivity.
Defined.

(** * Mesh fitting and pose estimation *)

(** [_fit_body_mesh] raises exactly when the model loading it starts with
    raises, and then with the same exception; otherwise it returns the
    placeholder fit (neutral gender, 6890 vertices, height 170.0 cm, fit
    confidence 0.78). *)
Theorem fit_body_mesh_fails_as_loading env path pose tmp w :
  match fst (_load_smpl_models env (logged INFO "Fitting SMPL body mesh..." w)) with
  | Raise e => fst (_fit_body_mesh env path pose tmp w) = Raise e
  | Ok _ =>
      exists mesh,
        fst (_fit_body_mesh env path pose tmp w) = Ok mesh /\
        gender mesh = Some "neutral" /\
        mesh_vertices mesh = 6890 /\
        height_cm_of mesh = Some (PyFloat 170000000) /\
        fit_confidence mesh = Some (PyFloat 780000)
  end.
Proof.
  unfold _fit_body_mesh, logged, try_except, bind, logger_info, logger_error,
    modify, raise. cbv beta iota.
  destruct (_load_smpl_models env _) as [[[]|e] w1]; cbv beta iota.
  - unfold np_random_randn, getitem, ret. simpl. eexists. repeat split.
  - reflexivity.
Qed.

(** What [_estimate_pose_romp] does is decided by [cv2.imread].  When
    [cv2.imread] raises (an image above the pixel limit), that exception is
    logged and re-raised; when it returns [None] (missing or undecodable
    file), the stage raises [AttributeError]; otherwise the stage returns an
    estimate that always says a person was detected, with confidence 0.85
    and a bounding box [x, y, w, h] that lies inside the image. *)
Theorem estimate_pose_romp_outcome env path tmp w :
  let run := _estimate_pose_romp env path tmp w in
  match fst (cv2_imread path w) with
  | Ok (Some (height, width)) =>
      exists p x y bw bh,
        fst run = Ok p /\
        person_detected p = true /\
        confidence p = PyFloat 850000 /\
        bbox p = [PyFloat x; PyFloat y; PyFloat bw; PyFloat bh] /\
        0 <= x /\ 0 <= y /\
        x + bw <= Z.of_N width * 1000000 /\
        y + bh <= Z.of_N height * 1000000
  | Ok None =>
      fst run = Raise NoneType_shape /\
      exists earlier,
        log (snd run) =
          (earlier ++ [mkLogRecord ERROR ("Pose estimation failed: " ++
                                          str_exn NoneType_shape)])%list
  | Raise e =>
      fst run = Raise e /\
      exists earlier,
        log (snd run) =
          (earlier ++ [mkLogRecord ERROR ("Pose estimation failed: " ++
                                          str_exn e)])%list
  end.
Proof.
  cbv zeta.
  unfold _estimate_pose_romp, cv2_imread, try_except, bind, gets, lift, ret, raise,
    logger_info, logger_error, modify, np_random_randn. simpl.
  destruct (fs w !! path) as [[|f]|]; simpl;
    try (split; [reflexivity|eexists; reflexivity]).
  destruct (file_cv2 f) as [[[height width]|]|e]; simpl;
    try (split; [reflexivity|eexists; reflexivity]).
  do 5 eexists. split; [reflexivity|]. split; [reflexivity|].
  split; [reflexivity|]. split; [reflexivity|]. lia.
Qed.

(** * Publishing events *)

(** [_publish_completion_event] returns only when the bus accepted the
    entry.  When the bus answers with a failed entry, it raises
    [Exception('EventBridge publish failed')] and logs two errors; when the
    call itself raises, that exception is logged and re-raised.  In both
    cases no event has been emitted. *)
Theorem publish_completion_event_outcome env sid uid keys mesh w :
  let ev := completion_event env sid uid keys mesh w in
  let run := _publish_completion_event env sid uid keys mesh w in
  match put_events env ev with
  | Ok 0%N =>
      fst run = Ok tt /\ events (snd run) = (events w ++ [ev])%list
  | Ok (N.pos n) =>
      fst run = Raise (mkExn "Exception" "EventBridge publish failed") /\
      events (snd run) = events w /\
      log (snd run) =
        (log w ++
         [ mkLogRecord ERROR ("Failed to publish event: {'FailedEntryCount': " ++
                              pretty (N.pos n) ++ "}");
           mkLogRecord ERROR
             "Failed to publish completion event: EventBridge publish failed" ])%list
  | Raise e =>
      fst run = Raise e /\
      events (snd run) = events w /\
      log (snd run) =
        (log w ++ [mkLogRecord ERROR ("Failed to publish completion event: " ++
                                      str_exn e)])%list
  end.
Proof.
  cbv zeta. unfold completion_event, _publish_completion_event. unfold_channels.
  simpl. destruct (put_events env _) as [[|n]|e]; simpl.
  - split; reflexivity.
  - rewrite <- app_assoc. repeat split.
  - repeat split.
Qed.

(** [_publish_error_event] never checks the answer of the bus: when the bus
    answers with a failed entry, nothing is emitted and yet the log says at
    level INFO that the error event was published.  Only a raised exception
    is logged as an error, and it is never passed on. *)
Theorem publish_error_event_outcome env sid uid msg w :
  let ev := error_event env sid uid msg w in
  let run := _publish_error_event env sid uid msg w in
  fst run = Ok tt /\
  match put_events env ev with
  | Ok failed =>
      events (snd run) =
        (if (failed =? 0)%N then (events w ++ [ev])%list else events w) /\
      log (snd run) =
        (log w ++ [mkLogRecord INFO ("Published error event for session " ++
                                     sid)])%list
  | Raise e =>
      events (snd run) = events w /\
      log (snd run) =
        (log w ++ [mkLogRecord ERROR ("Failed to publish error event: " ++
                                      str_exn e)])%list
  end.
Proof.
  cbv zeta. split; [apply publish_error_event_returns|].
  unfold error_event, _publish_error_event. unfold_channels. simpl.
  destruct (put_events env _) as [failed|e]; simpl; [|split; reflexivity].
  destruct (failed =? 0)%N; split; reflexivity.
Qed.

(** * What gets reported to CloudWatch *)

Lemma report_success_metrics env sid start keys mesh w :
  (forall ns m, put_metric_data env ns m = None) ->
  metrics (snd (report_success env sid start keys mesh w)) =
  (metrics w ++
   [ metric_point env "SMPL.ProcessingSuccess" (PyInt 1) [("SessionId", sid)]
       (set_clock_reads (S (S (clock_reads w))) w);
     metric_point env "SMPL.ProcessingTime"
       (PyFloat (Z.of_N (clock env (clock_reads w)) - start)) [("SessionId", sid)]
       (set_clock_reads (S (S (S (clock_reads w)))) w) ])%list.
Proof.
  intros Hsink. unfold report_success, metric_point. unfold_channels. simpl.
  repeat (rewrite Hsink; simpl). rewrite <- ?app_assoc. reflexivity.
Qed.

Lemma report_failure_metrics env sid uid e w :
  (forall ns m, put_metric_data env ns m = None) ->
  metrics (snd (report_failure env sid uid e w)) =
  (metrics w ++
   [ metric_point env "SMPL.ProcessingError" (PyInt 1)
       [("SessionId", sid); ("ErrorType", exn_type e)] w ])%list.
Proof.
  intros Hsink. unfold report_failure, metric_point. unfold_channels. simpl.
  repeat (rewrite Hsink; simpl). case_oracles; reflexivity.
Qed.

(** When CloudWatch accepts what it is sent, a successful session adds two
    data points, [SMPL.ProcessingSuccess] with value 1 and
    [SMPL.ProcessingTime] with the processing time of the result, both in
    the unit [Seconds] (the success counter too, since its name contains
    neither [Count] nor [Error]); a failed session adds the single point
    [SMPL.ProcessingError] with value 1, unit [Count], tagged with the
    session and with the class name of the exception that is raised. *)
Theorem reported_metrics env sid uid ak gk w :
  (forall ns m, put_metric_data env ns m = None) ->
  match process_image env sid uid ak gk w with
  | (Ok res, w') =>
      exists t1 t2,
        metrics w' =
        (metrics w ++
         [ {| MetricName := "SMPL.ProcessingSuccess"; Value := PyInt 1;
              Unit := "Seconds"; Dimensions := [("SessionId", sid)];
              Timestamp := t1 |};
           {| MetricName := "SMPL.ProcessingTime"; Value := processing_time res;
              Unit := "Seconds"; Dimensions := [("SessionId", sid)];
              Timestamp := t2 |} ])%list
  | (Raise e, w') =>
      exists t,
        metrics w' =
        (metrics w ++
         [ {| MetricName := "SMPL.ProcessingError"; Value := PyInt 1;
              Unit := "Count";
              Dimensions := [("SessionId", sid); ("ErrorType", exn_type e)];
              Timestamp := t |} ])%list
  end.
Proof.
  intros Hsink. unfold process_image. rewrite process_image_with_attempt.
  rewrite (preserves_cleanup_temp_files metrics metrics_Local).
  unfold attempt.
  assert (Hm : preserves metrics (run_stages _estimate_pose_romp env sid uid ak gk
                                    (temp_dir_of sid))).
  { apply preserves_run_stages; auto with frame. }
  specialize (Hm (set_clock_reads (S (clock_reads w)) w)).
  destruct (run_stages _estimate_pose_romp env sid uid ak gk (temp_dir_of sid) _)
    as [[r|e] w2]; simpl in Hm.
  - rewrite report_success_outcome, report_success_metrics by exact Hsink.
    rewrite Hm. do 2 eexists. reflexivity.
  - rewrite report_failure_outcome, report_failure_metrics by exact Hsink.
    rewrite Hm. eexists. reflexivity.
Qed.

Lemma reported_metrics_witness :
  match process_image Scenario.missing_inputs "S1" "U1" "avatars/a.jpg"
          "garments/g.jpg" (Scenario.started Scenario.missing_inputs) with
  | (Ok res, w') => True
  | (Raise e, w') =>
      exists t,
        metrics w' =
        [ {| MetricName := "SMPL.ProcessingError"; Value := PyInt 1;
             Unit := "Count";
             Dimensions := [("SessionId", "S1"); ("ErrorType", exn_type e)];
             Timestamp := t |} ]
  end.
Proof.
  pose proof (reported_metrics Scenario.missing_inputs "S1" "U1" "avatars/a.jpg"
                "garments/g.jpg" (Scenario.started Scenario.missing_inputs)
                (fun ns m => eq_refl)) as H.
  destruct (process_image Scenario.missing_inputs "S1" "U1" "avatars/a.jpg"
              "garments/g.jpg" (Scenario.started Scenario.missing_inputs))
    as [[res|e] w']; [exact I|exact H].
Defined.

(** * Nothing of the workspace survives the cleanup *)

Lemma prefix_app (s t : string) : String.prefix s (s ++ t) = true.
Proof.
  induction s as [|c s IH]; [destruct t; reflexivity|].
  change (String.prefix (String c s) (String c (s ++ t)) = true). simpl.
  destruct (ascii_dec c c) as [_|Hne]; [exact IH|contradiction Hne; reflexivity].
Qed.

Lemma in_tree_below (root name : string) : in_tree root (root ++ "/" ++ name) = true.
Proof.
  unfold in_tree. rewrite <- string_app_assoc, prefix_app. apply orb_true_r.
Qed.

Lemma cleanup_temp_files_removes_below env tmp name w :
  rmtree env tmp = None ->
  fs w !! tmp <> None ->
  fs (snd (_cleanup_temp_files env tmp w)) !! (tmp ++ "/" ++ name) = None.
Proof.
  intros Hrm Hdir.
  unfold _cleanup_temp_files, try_except, os_path_exists, shutil_rmtree, bind,
    gets, check, modify, logger_info. simpl.
  destruct (fs w !! tmp) eqn:Htmp; [|contradiction Hdir; reflexivity]. simpl.
  rewrite Hrm. simpl.
  apply map_lookup_filter_None. right. intros node _. simpl.
  rewrite in_tree_below. discriminate.
Qed.

Lemma fs_grows_refl w : fs_grows w w.
Proof. intros p Hp. exact Hp. Qed.

Lemma fs_grows_trans w1 w2 w3 : fs_grows w1 w2 -> fs_grows w2 w3 -> fs_grows w1 w3.
Proof. intros H12 H23 p Hp. apply H23, H12, Hp. Qed.

(** Side condition of [keeps_modify] for [fs_grows]: the update leaves the
    file system alone or writes one path. *)
Ltac growth_update :=
  intros;
  repeat match goal with
         | |- context [match ?x with _ => _ end] => destruct x
         end;
  intros ? ?; simpl; rewrite ?lookup_insert_is_Some'; auto.

Ltac growth_step :=
  match goal with
  | |- keeps _ (bind _ _) =>
      apply (keeps_bind _ fs_grows_trans); [| intros ?]
  | |- keeps _ (try_except _ _) =>
      apply (keeps_try_except _ fs_grows_trans); [| intros ?]
  | |- keeps _ (ret _) => apply (keeps_ret _ fs_grows_refl)
  | |- keeps _ (raise _) => apply (keeps_raise _ fs_grows_refl)
  | |- keeps _ (gets _) => apply (keeps_gets _ fs_grows_refl)
  | |- keeps _ (check _) => apply (keeps_check _ fs_grows_refl)
  | |- keeps _ (lift _) => apply (keeps_lift _ fs_grows_refl)
  | |- keeps _ (modify _) => apply keeps_modify; growth_update
  | |- keeps _ (read_clock _) => let H := fresh in intros ? ? H; exact H
  | |- keeps _ (np_random_randn _ _) => let H := fresh in intros ? ? H; exact H
  | |- keeps _ (np_random_randint _) => let H := fresh in intros ? ? H; exact H
  | |- keeps _ (match ?x with _ => _ end) => destruct x
  | |- keeps _ _ => solve [eauto with history]
  | |- keeps _ (time_time _) => unfold time_time
  | |- keeps _ (datetime_utcnow _) => unfold datetime_utcnow
  | |- keeps _ (logger_info _) => unfold logger_info
  | |- keeps _ (logger_error _) => unfold logger_error
  | |- keeps _ (os_makedirs _ _) => unfold os_makedirs
  | |- keeps _ (os_path_exists _) => unfold os_path_exists
  | |- keeps _ (os_path_getsize _) => unfold os_path_getsize
  | |- keeps _ (s3_download_file _ _ _ _) => unfold s3_download_file
  | |- keeps _ (s3_upload_file _ _ _ _ _) => unfold s3_upload_file
  | |- keeps _ (Image_open _) => unfold Image_open
  | |- keeps _ (cv2_imread _) => unfold cv2_imread
  | |- keeps _ (cv2_imwrite _ _ _) => unfold cv2_imwrite
  | |- keeps _ (open_write _ _ _) => unfold open_write
  | |- keeps _ (getitem _ _) => unfold getitem
  | |- keeps _ (events_put_events _ _) => unfold events_put_events
  | |- keeps _ (cloudwatch_put_metric_data _ _ _) =>
      unfold cloudwatch_put_metric_data
  | |- keeps _ (_validate_image _ _) => unfold _validate_image
  | |- keeps _ (_load_smpl_models _) => unfold _load_smpl_models
  | |- keeps _ (_download_input_images _ _ _ _ _) => unfold _download_input_images
  | |- keeps _ (_estimate_pose_romp _ _ _) => unfold _estimate_pose_romp
  | |- keeps _ (_fit_body_mesh _ _ _ _) => unfold _fit_body_mesh
  | |- keeps _ (_generate_guidance_assets _ _ _ _ _ _) =>
      unfold _generate_guidance_assets
  | |- keeps _ (_upload_guidance_assets _ _ _ _) => unfold _upload_guidance_assets
  | |- keeps _ (_publish_completion_event _ _ _ _ _) =>
      unfold _publish_completion_event
  | |- keeps _ (_publish_error_event _ _ _ _) => unfold _publish_error_event
  | |- keeps _ (_send_metrics _ _ _ _) => unfold _send_metrics
  end.

Ltac growth := repeat growth_step.

Lemma grows_download_models env files : keeps fs_grows (download_models env files).
Proof. induction files as [|f files IH]; simpl; growth. Qed.

Lemma grows_upload_assets env sid items acc :
  keeps fs_grows (upload_assets env sid items acc).
Proof.
  revert acc. induction items as [|[kind path] items IH]; intros acc; simpl; growth.
Qed.

#[export] Hint Resolve grows_download_models grows_upload_assets : history.

(** When [os.makedirs] goes through, the workspace exists as long as the
    stages run. *)
Lemma run_stages_creates_workspace env sid uid ak gk w :
  makedirs env (temp_dir_of sid) = None ->
  is_Some (fs (snd (run_stages _estimate_pose_romp env sid uid ak gk
                      (temp_dir_of sid) w)) !! temp_dir_of sid).
Proof.
  intros Hmk. unfold run_stages. rewrite bind_run.
  assert (Hdir : is_Some (fs (snd (os_makedirs env (temp_dir_of sid) w))
                            !! temp_dir_of sid)).
  { unfold os_makedirs, bind, check, modify. rewrite Hmk. simpl.
    destruct (fs w !! temp_dir_of sid) eqn:Hfs; simpl.
    - rewrite Hfs. eauto.
    - rewrite lookup_insert_eq. eauto. }
  assert (Hok : fst (os_makedirs env (temp_dir_of sid) w) = Ok tt).
  { unfold os_makedirs, bind, check, modify. rewrite Hmk. reflexivity. }
  destruct (os_makedirs env (temp_dir_of sid) w) as [[[]|e] w1]; simpl in Hdir, Hok;
    [|discriminate Hok].
  match goal with
  | |- context [bind ?m ?k w1] =>
      assert (Hrest : keeps fs_grows (bind m k)) by growth;
      exact (Hrest w1 _ Hdir)
  end.
Qed.

(** When the workspace directory can be created and removed, no file below
    it (neither the downloaded photos nor a generated asset) is left on the
    disk when [process_image] returns or raises. *)
Theorem workspace_files_removed env sid uid ak gk w name :
  makedirs env (temp_dir_of sid) = None ->
  rmtree env (temp_dir_of sid) = None ->
  fs (snd (process_image env sid uid ak gk w)) !! (temp_dir_of sid ++ "/" ++ name)
    = None.
Proof.
  intros Hmk Hrm. unfold process_image. rewrite process_image_with_attempt.
  simpl snd. apply cleanup_temp_files_removes_below; [exact Hrm|].
  pose proof (run_stages_creates_workspace env sid uid ak gk
                (set_clock_reads (S (clock_reads w)) w) Hmk) as Hdir.
  unfold attempt.
  destruct (run_stages _estimate_pose_romp env sid uid ak gk (temp_dir_of sid) _)
    as [[r|e] w2]; simpl in Hdir.
  - assert (Hrep : keeps fs_grows
                     (report_success env sid (Z.of_N (clock env (clock_reads w)))
                        (fst r) (snd r)))
      by (unfold report_success; growth).
    apply Hrep in Hdir. destruct Hdir as [node Hnode]. rewrite Hnode. discriminate.
  - assert (Hrep : keeps fs_grows (report_failure env sid uid e))
      by (unfold report_failure; growth).
    apply Hrep in Hdir. destruct Hdir as [node Hnode]. rewrite Hnode. discriminate.
Qed.

Lemma workspace_files_removed_witness :
  fs (snd (process_image Scenario.cooperative "S1" "U1" "avatars/a.jpg"
             "garments/g.jpg" (Scenario.started Scenario.cooperative)))
    !! (temp_dir_of "S1" ++ "/" ++ "avatar.jpg") = None.
Proof.
  apply workspace_files_removed; reflexivity.
Defined.

(** * What a successful session leaves behind *)

Lemma has_char_app c (s t : string) :
  has_char c (s ++ t) = has_char c s || has_char c t.
Proof.
  induction s as [|a s IH]; [reflexivity|].
  change (has_char c (String a (s ++ t)) = has_char c (String a s) || has_char c t).
  simpl. rewrite IH. apply orb_assoc.
Qed.

(** What follows the last separator does not depend on what precedes a
    text that contains one. *)
Lemma split_last_app c (s t : string) :
  has_char c t = true -> split_last c (s ++ t) = split_last c t.
Proof.
  intros Ht. induction s as [|a s IH]; [reflexivity|].
  change (split_last c (String a (s ++ t)) = split_last c t). simpl.
  rewrite has_char_app, Ht, orb_true_r, orb_true_r. exact IH.
Qed.

Lemma lower_app (s t : string) : lower (s ++ t) = lower s ++ lower t.
Proof.
  induction s as [|a s IH]; [reflexivity|].
  change (lower (String a (s ++ t)) = String (lower_ascii a) (lower s ++ lower t)).
  simpl. rewrite IH. reflexivity.
Qed.

Lemma extension_of_generated tmp name ext :
  has_char "." name = true -> split_last "." name = ext ->
  split_last "." (tmp ++ name) = ext.
Proof. intros Hdot <-. apply split_last_app. exact Hdot. Qed.

Lemma content_type_of_generated tmp name :
  has_char "." (lower name) = true ->
  _get_content_type (tmp ++ name) = _get_content_type name.
Proof.
  intros Hdot. unfold _get_content_type.
  rewrite lower_app, split_last_app by exact Hdot. reflexivity.
Qed.

Lemma s3_upload_file_Ok env path bucket key ctype w u w' :
  s3_upload_file env path bucket key ctype w = (Ok u, w') ->
  w' = set_uploads (uploads w ++ [mkUpload path bucket key ctype]) w.
Proof.
  unfold s3_upload_file, bind, gets, check, modify, raise, ret.
  destruct (fs w !! path) as [[|f]|]; try (intros H; discriminate H).
  destruct (upload_file env path bucket key ctype); intros H;
    [discriminate H|]. injection H as _ <-. reflexivity.
Qed.

Lemma upload_assets_step env sid kind path rest acc w keys w' :
  upload_assets env sid ((kind, path) :: rest) acc w = (Ok keys, w') ->
  exists t w1,
    upload_assets env sid rest (dict_set kind (s3_key_of kind sid t path) acc) w1 =
      (Ok keys, w') /\
    uploads w1 =
      (uploads w ++ [mkUpload path (bucket_guidance (cfg w)) (s3_key_of kind sid t path)
                       (_get_content_type path)])%list /\
    cfg w1 = cfg w /\ events w1 = events w.
Proof.
  intros H. simpl in H.
  apply bind_Ok in H as (now & w1 & Hnow & H).
  unfold time_time, read_clock, bind, ret in Hnow. injection Hnow as <- <-.
  apply bind_Ok in H as (c & w2 & Hc & H).
  unfold gets in Hc. injection Hc as <- <-.
  apply bind_Ok in H as ([] & w3 & Hup & H).
  apply s3_upload_file_Ok in Hup. subst w3.
  apply bind_Ok in H as ([] & w4 & Hlog & H).
  unfold logger_info, modify in Hlog. injection Hlog as <-.
  do 2 eexists. split; [exact H|]. repeat split.
Qed.

Lemma upload_generated_assets_run env sid tmp w keys w' :
  _upload_guidance_assets env sid (generated_assets tmp) tmp w = (Ok keys, w') ->
  exists t1 t2 t3 t4 t5,
    keys = session_keys sid t1 t2 t3 t4 t5 /\
    uploads w' =
      (uploads w ++ session_uploads (bucket_guidance (cfg w)) sid tmp t1 t2 t3 t4 t5)%list /\
    cfg w' = cfg w /\ events w' = events w.
Proof.
  unfold _upload_guidance_assets, generated_assets. intros H.
  apply bind_Ok in H as ([] & w0 & Hlog & H).
  unfold logger_info, modify in Hlog. injection Hlog as <-.
  apply try_except_reraise_Ok in H.
  apply upload_assets_step in H as (t1 & w1 & H & Hu1 & Hc1 & He1).
  apply upload_assets_step in H as (t2 & w2 & H & Hu2 & Hc2 & He2).
  apply upload_assets_step in H as (t3 & w3 & H & Hu3 & Hc3 & He3).
  apply upload_assets_step in H as (t4 & w4 & H & Hu4 & Hc4 & He4).
  apply upload_assets_step in H as (t5 & w5 & H & Hu5 & Hc5 & He5).
  cbn [upload_assets] in H. unfold ret in H. injection H as <- <-.
  simpl cfg in Hc1. simpl events in He1. simpl uploads in Hu1. simpl cfg in Hu1.
  exists t1, t2, t3, t4, t5.
  unfold session_keys, session_uploads, asset_key.
  unfold s3_key_of in *.
  rewrite (extension_of_generated tmp "/depth.png" "png") in * by reflexivity.
  rewrite (extension_of_generated tmp "/normals.png" "png") in * by reflexivity.
  rewrite (extension_of_generated tmp "/pose.png" "png") in * by reflexivity.
  rewrite (extension_of_generated tmp "/segments.png" "png") in * by reflexivity.
  rewrite (extension_of_generated tmp "/prompt.txt" "txt") in * by reflexivity.
  rewrite Hc5, Hc4, Hc3, Hc2 in *. rewrite Hc1 in *.
  repeat split.
  - rewrite Hu5, Hu4, Hu3, Hu2, Hu1. rewrite <- !app_assoc. simpl.
    rewrite !content_type_of_generated by reflexivity. reflexivity.
  - congruence.
Qed.

Lemma uploads_download_models env files :
  preserves uploads (download_models env files).
Proof. induction files as [|f files IH]; simpl; quiet. Qed.

#[export] Hint Resolve uploads_download_models : quiet.

Lemma publish_completion_event_Ok env sid uid keys mesh w u w' :
  _publish_completion_event env sid uid keys mesh w = (Ok u, w') ->
  events w' = (events w ++ [completion_event env sid uid keys mesh w])%list /\
  uploads w' = uploads w.
Proof.
  unfold completion_event, _publish_completion_event. unfold_channels. simpl.
  destruct (put_events env _) as [[|n]|e]; simpl; intros H; try discriminate H.
  injection H as _ <-. split; reflexivity.
Qed.

(** What a stage that returned left of a component it does not write. *)
Ltac carry proj H :=
  match type of H with
  | ?m ?w = (_, _) =>
      let Hp := fresh "Hp" in
      assert (Hp : preserves proj m) by (solve [auto with frame | quiet]);
      specialize (Hp w); rewrite H in Hp; simpl snd in Hp
  end.

Ltac carried proj H Hp :=
  match type of H with
  | ?m ?w = (_, _) =>
      assert (Hp : preserves proj m) by (solve [auto with frame | quiet]);
      specialize (Hp w); rewrite H in Hp; simpl snd in Hp
  end.

Lemma run_stages_artifacts env sid uid ak gk tmp w keys mesh w' :
  run_stages _estimate_pose_romp env sid uid ak gk tmp w = (Ok (keys, mesh), w') ->
  exists t1 t2 t3 t4 t5 wp,
    keys = session_keys sid t1 t2 t3 t4 t5 /\
    uploads w' =
      (uploads w ++ session_uploads (bucket_guidance (cfg w)) sid tmp t1 t2 t3 t4 t5)%list /\
    cfg wp = cfg w /\
    events w' = (events w ++ [completion_event env sid uid keys mesh wp])%list.
Proof.
  unfold run_stages. intros H.
  apply bind_Ok in H as (? & w1 & H1 & H).
  apply bind_Ok in H as (? & w2 & H2 & H).
  apply bind_Ok in H as (? & w3 & H3 & H).
  apply bind_Ok in H as (? & w4 & H4 & H).
  apply bind_Ok in H as (? & w5 & H5 & H).
  apply bind_Ok in H as (assets & w6 & H6 & H).
  apply bind_Ok in H as (keys' & w7 & H7 & H).
  apply bind_Ok in H as (? & w8 & H8 & H).
  unfold ret in H. injection H as -> -> ->.
  pose proof (generate_guidance_assets_Ok _ _ _ _ _ _ _ _ _ H6) as ->.
  apply upload_generated_assets_run in H7
    as (t1 & t2 & t3 & t4 & t5 & Hkeys & Hup & Hcfg & Hev).
  apply publish_completion_event_Ok in H8 as (Hev8 & Hup8).
  carry uploads H1. carry uploads H2. carry uploads H3. carry uploads H4.
  carry uploads H5. carry uploads H6.
  carry events H1. carry events H2. carry events H3. carry events H4.
  carry events H5. carry events H6.
  carry cfg H1. carry cfg H2. carry cfg H3. carry cfg H4.
  carry cfg H5. carry cfg H6.
  exists t1, t2, t3, t4, t5, w7. repeat split.
  - exact Hkeys.
  - rewrite Hup8, Hup. congruence.
  - congruence.
  - rewrite Hev8, Hev. congruence.
Qed.

Lemma uploads_after_success env sid start keys mesh tmp w :
  uploads (snd (_cleanup_temp_files env tmp
                  (snd (report_success env sid start keys mesh w)))) = uploads w.
Proof.
  assert (H1 : preserves uploads (_cleanup_temp_files env tmp)) by quiet.
  assert (H2 : preserves uploads (report_success env sid start keys mesh)) by quiet.
  rewrite H1, H2. reflexivity.
Qed.

(** The artifacts of a successful session agree with one another.  The
    result names five keys, [kind/session-timestamp.png] for the four
    images and [prompt/session-timestamp.txt] for the prompt; exactly these
    five objects were uploaded, in this order, from the files of the
    session's workspace to the guidance bucket of the configuration, the
    images as [image/png] and the prompt as [text/plain]; and exactly one
    event was emitted, the completion event built from the keys and the
    mesh metadata of the result, on the configured bus. *)
Theorem successful_session_artifacts env sid uid ak gk w res w' :
  process_image env sid uid ak gk w = (Ok res, w') ->
  exists t1 t2 t3 t4 t5 wp,
    guidance_assets res = session_keys sid t1 t2 t3 t4 t5 /\
    uploads w' =
      (uploads w ++
       session_uploads (bucket_guidance (cfg w)) sid (temp_dir_of sid)
         t1 t2 t3 t4 t5)%list /\
    cfg wp = cfg w /\
    events w' =
      (events w ++
       [completion_event env sid uid (guidance_assets res) (smpl_metadata res) wp])%list.
Proof.
  unfold process_image. rewrite process_image_with_attempt. unfold attempt.
  destruct (run_stages _estimate_pose_romp env sid uid ak gk (temp_dir_of sid) _)
    as [[[keys mesh]|e] w2] eqn:Hrun.
  - apply run_stages_artifacts in Hrun
      as (t1 & t2 & t3 & t4 & t5 & wp & Hkeys & Hup & Hcfg & Hev).
    simpl fst in *. simpl snd in *.
    pose proof (report_success_outcome env sid
                  (Z.of_N (clock env (clock_reads w))) keys mesh w2) as Hres.
    intros H. injection H as Hfst Hsnd. rewrite Hres in Hfst.
    injection Hfst as <-. subst w'.
    exists t1, t2, t3, t4, t5, wp. simpl guidance_assets. simpl smpl_metadata.
    repeat split.
    + exact Hkeys.
    + rewrite uploads_after_success. exact Hup.
    + exact Hcfg.
    + rewrite (preserves_cleanup_temp_files events events_Local),
        report_success_events. exact Hev.
  - rewrite report_failure_outcome. intros H. discriminate H.
Qed.

Lemma successful_session_artifacts_witness :
  exists t1 t2 t3 t4 t5 wp,
    guidance_assets
      (match fst Scenario.cooperative_outcome with
       | Ok res => res
       | Raise _ => success_result EmptyString 0 [] PromptExample.tall_a
       end) = session_keys "S1" t1 t2 t3 t4 t5 /\
    uploads (snd Scenario.cooperative_outcome) =
      (uploads (Scenario.started Scenario.cooperative) ++
       session_uploads (bucket_guidance (cfg (Scenario.started Scenario.cooperative)))
         "S1" (temp_dir_of "S1") t1 t2 t3 t4 t5)%list /\
    cfg wp = cfg (Scenario.started Scenario.cooperative) /\
    events (snd Scenario.cooperative_outcome) =
      (events (Scenario.started Scenario.cooperative) ++
       [completion_event Scenario.cooperative "S1" "U1"
          (guidance_assets
             (match fst Scenario.cooperative_outcome with
              | Ok res => res
              | Raise _ => success_result EmptyString 0 [] PromptExample.tall_a
              end))
          (smpl_metadata
             (match fst Scenario.cooperative_outcome with
              | Ok res => res
              | Raise _ => success_result EmptyString 0 [] PromptExample.tall_a
              end)) wp])%list.
Proof.
  pose proof cooperative_session_outcome as Hrun.
  unfold Scenario.cooperative_outcome in Hrun |- *. cbn [fst snd].
  exact (successful_session_artifacts Scenario.cooperative
           "S1" "U1" "avatars/a.jpg" "garments/g.jpg"
           (Scenario.started Scenario.cooperative) _ _ Hrun).
Defined.

(** * The input images *)

Lemma getsize_Ok path w n w1 :
  os_path_getsize path w = (Ok n, w1) ->
  w1 = w /\
  match fs w !! path with
  | Some (Reg f) => n = file_size f
  | Some Dir => n = 4096%N
  | None => False
  end.
Proof.
  unfold os_path_getsize, bind, gets, ret, raise.
  destruct (fs w !! path) as [[|f]|]; intros H; try discriminate H;
    injection H as <- <-; split; reflexivity.
Qed.

Lemma Image_open_Ok path w img w1 :
  Image_open path w = (Ok img, w1) ->
  w1 = w /\ exists f, fs w !! path = Some (Reg f) /\ file_pil f = Some img.
Proof.
  unfold Image_open, bind, gets, ret, raise.
  destruct (fs w !! path) as [[|f]|]; try (intros H; discriminate H).
  destruct (file_pil f) as [img'|] eqn:Hpil; intros H; [|discriminate H].
  injection H as <- <-. split; [reflexivity|]. exists f. split; [reflexivity|exact Hpil].
Qed.

Lemma guard_Ok (c : bool) (e : Exn) w u w1 :
  (if c then raise e else ret tt) w = (Ok u, w1) -> c = false /\ w1 = w.
Proof.
  destruct c; intros H; [discriminate H|]. unfold ret in H. injection H as _ <-.
  split; reflexivity.
Qed.

(** What [_validate_image] has checked when it returns. *)
Lemma validate_image_Ok path ty w u w' :
  _validate_image path ty w = (Ok u, w') ->
  exists f img,
    fs w !! path = Some (Reg f) /\ file_pil f = Some img /\
    Z.of_N (file_size f) <= max_image_size_mb (cfg w) * (1024 * 1024) /\
    In (img_format img) ["JPEG"; "PNG"; "WEBP"] /\
    (256 <= img_width img)%N /\ (256 <= img_height img)%N.
Proof.
  unfold _validate_image. intros H. apply try_except_reraise_Ok in H.
  apply bind_Ok in H as (size & w1 & Hsize & H).
  apply getsize_Ok in Hsize as [-> Hsize].
  apply bind_Ok in H as (c & w2 & Hc & H). unfold gets in Hc. injection Hc as <- <-.
  apply bind_Ok in H as (? & w3 & Hbig & H). apply guard_Ok in Hbig as [Hbig ->].
  apply bind_Ok in H as (img & w4 & Himg & H).
  apply Image_open_Ok in Himg as [-> (f & Hf & Hpil)].
  apply bind_Ok in H as (? & w5 & Hfmt & H). apply guard_Ok in Hfmt as [Hfmt ->].
  apply bind_Ok in H as (? & w6 & Hdim & _). apply guard_Ok in Hdim as [Hdim ->].
  rewrite Hf in Hsize. subst size.
  exists f, img. split; [exact Hf|]. split; [exact Hpil|].
  apply negb_false_iff in Hfmt. apply existsb_allowed_formats in Hfmt.
  apply orb_false_iff in Hdim as [Hw Hh].
  apply N.ltb_ge in Hw. apply N.ltb_ge in Hh.
  change (1024 * 1024) with one_mb.
  repeat split; try assumption. lia.
Qed.

Lemma download_Ok env bucket key path w u w' :
  s3_download_file env bucket key path w = (Ok u, w') ->
  exists f,
    w' = set_downloads (downloads w ++ [(bucket, key, path)])
           (set_fs (<[path := Reg f]> (fs w)) w).
Proof.
  unfold s3_download_file, bind, lift, modify, ret, raise.
  destruct (download_file env bucket key path) as [f|e]; intros H;
    [|discriminate H].
  injection H as _ <-. exists f. reflexivity.
Qed.

(** When [_download_input_images] returns, it returns the two paths
    [avatar.jpg] and [garment.jpg] of the workspace; it has fetched exactly
    two objects from the uploads bucket, the avatar key and then the garment
    key, to these paths; and both paths now hold regular files that passed
    every check of [_validate_image]: not larger than the size limit,
    decoded by PIL as JPEG, PNG or WEBP, and at least 256 pixels wide and
    high. *)
Theorem download_input_images_returns env sid ak gk tmp w paths w' :
  _download_input_images env sid ak gk tmp w = (Ok paths, w') ->
  paths = (tmp ++ "/avatar.jpg", tmp ++ "/garment.jpg") /\
  downloads w' =
    (downloads w ++
     [ (bucket_uploads (cfg w), ak, (tmp ++ "/avatar.jpg")%string);
       (bucket_uploads (cfg w), gk, (tmp ++ "/garment.jpg")%string) ])%list /\
  forall path, path = fst paths \/ path = snd paths ->
    exists f img,
      fs w' !! path = Some (Reg f) /\ file_pil f = Some img /\
      Z.of_N (file_size f) <= max_image_size_mb (cfg w) * (1024 * 1024) /\
      In (img_format img) ["JPEG"; "PNG"; "WEBP"] /\
      (256 <= img_width img)%N /\ (256 <= img_height img)%N.
Proof.
  unfold _download_input_images. cbv zeta. intros H.
  apply try_except_reraise_Ok in H.
  apply bind_Ok in H as (c & w0 & Hc & H). unfold gets in Hc. injection Hc as <- <-.
  apply bind_Ok in H as (? & w1 & Hd1 & H). apply download_Ok in Hd1 as [fa ->].
  apply bind_Ok in H as (? & w2 & Hd2 & H). apply download_Ok in Hd2 as [fg ->].
  apply bind_Ok in H as (? & w3 & Hv1 & H).
  apply bind_Ok in H as (? & w4 & Hv2 & H).
  apply bind_Ok in H as (? & w5 & Hlog & H).
  unfold logger_info, modify in Hlog. injection Hlog as _ <-.
  unfold ret in H. injection H as <- <-.
  carried fs Hv1 Hfs3. carried fs Hv2 Hfs4.
  carried downloads Hv1 Hdl3. carried downloads Hv2 Hdl4.
  carried cfg Hv1 Hcfg3.
  simpl in Hfs3, Hfs4, Hdl3, Hdl4, Hcfg3.
  apply validate_image_Ok in Hv1 as (f1 & img1 & Hf1 & Hp1 & Hs1 & Hm1 & Hw1 & Hh1).
  apply validate_image_Ok in Hv2 as (f2 & img2 & Hf2 & Hp2 & Hs2 & Hm2 & Hw2 & Hh2).
  simpl in Hf1, Hs1. rewrite Hcfg3 in Hs2. rewrite Hfs3 in Hf2.
  split; [reflexivity|]. split.
  - simpl. rewrite Hdl4, Hdl3. rewrite <- app_assoc. reflexivity.
  - simpl. rewrite Hfs4, Hfs3. intros path [->| ->].
    + exists f1, img1. repeat split; assumption.
    + exists f2, img2. repeat split; assumption.
Qed.

Lemma inputs_fetched_run :
  _download_input_images Scenario.cooperative "S1" "avatars/a.jpg" "garments/g.jpg"
    (temp_dir_of "S1") (Scenario.started Scenario.cooperative) = inputs_fetched.
Proof. vm_compute. reflexivity. Qed.

Lemma download_input_images_returns_witness :
  downloads (snd inputs_fetched) =
    (downloads (Scenario.started Scenario.cooperative) ++
     [ (bucket_uploads (cfg (Scenario.started Scenario.cooperative)), "avatars/a.jpg",
        (temp_dir_of "S1" ++ "/avatar.jpg")%string);
       (bucket_uploads (cfg (Scenario.started Scenario.cooperative)), "garments/g.jpg",
        (temp_dir_of "S1" ++ "/garment.jpg")%string) ])%list.
Proof.
  pose proof inputs_fetched_run as Hrun.
  unfold inputs_fetched in Hrun |- *. cbn [snd].
  exact (proj1 (proj2 (download_input_images_returns _ _ _ _ _ _ _ _ Hrun))).
Defined.

(** * The model cache after a session *)

Lemma evolves_run {A} (m : M A) w r w' :
  keeps evolves m -> m w = (r, w') -> evolves w w'.
Proof. intros Hk H. specialize (Hk w). rewrite H in Hk. exact Hk. Qed.

Lemma fit_body_mesh_Ok env path pose tmp w mesh w' :
  _fit_body_mesh env path pose tmp w = (Ok mesh, w') -> smpl_models w' <> [].
Proof.
  unfold _fit_body_mesh. intros H.
  apply bind_Ok in H as (? & w1 & _ & H). apply try_except_reraise_Ok in H.
  apply bind_Ok in H as (? & w2 & Hload & H).
  apply load_smpl_models_Ok in Hload.
  refine (later_models _ _ _ Hload).
  refine (evolves_run _ _ _ _ _ H). history.
Qed.

Lemma run_stages_loads_models env sid uid ak gk tmp w r w' :
  run_stages _estimate_pose_romp env sid uid ak gk tmp w = (Ok r, w') ->
  smpl_models w' <> [].
Proof.
  unfold run_stages. intros H.
  do 4 (apply bind_Ok in H as (? & ? & _ & H)).
  apply bind_Ok in H as (mesh & w5 & Hfit & H).
  apply fit_body_mesh_Ok in Hfit.
  refine (later_models _ _ _ Hfit).
  refine (evolves_run _ _ _ _ _ H). history.
Qed.

Lemma health_reports_loaded env w :
  smpl_models w <> [] ->
  exists snapshot,
    fst (get_health_status env w) = Ok snapshot /\
    dict_get "models_loaded" snapshot = Some (VBool true).
Proof.
  intros Hloaded.
  unfold get_health_status, datetime_utcnow, read_clock, bind, gets, ret.
  cbn [fst snd]. eexists. split; [reflexivity|]. simpl.
  destruct (smpl_models w); [contradiction|reflexivity].
Qed.

(** Once a session has succeeded, the models are loaded and stay loaded:
    after any further sessions, whatever their outcomes, the health snapshot
    reports [models_loaded] as true. *)
Theorem models_loaded_after_success env sid uid ak gk w res w' reqs env' :
  process_image env sid uid ak gk w = (Ok res, w') ->
  exists snapshot,
    fst (get_health_status env' (snd (run_sessions reqs w'))) = Ok snapshot /\
    dict_get "models_loaded" snapshot = Some (VBool true).
Proof.
  unfold process_image. rewrite process_image_with_attempt. unfold attempt.
  destruct (run_stages _estimate_pose_romp env sid uid ak gk (temp_dir_of sid) _)
    as [[r|e] w2] eqn:Hrun.
  - intros H. injection H as _ <-.
    apply run_stages_loads_models in Hrun.
    apply health_reports_loaded.
    apply (later_models _ _ (later_run_sessions reqs _)).
    apply (later_models _ _ (later_cleanup_temp_files env _ _)).
    apply (later_models _ _ (later_report_success env sid _ _ _ w2)).
    exact Hrun.
  - rewrite report_failure_outcome. intros H. discriminate H.
Qed.

Lemma models_loaded_after_success_witness :
  exists snapshot,
    fst (get_health_status Scenario.missing_inputs
           (snd (run_sessions
                   [mkRequest Scenario.missing_inputs "S2" "U1" "avatars/a.jpg"
                      "garments/g.jpg"]
                   (snd Scenario.cooperative_outcome)))) = Ok snapshot /\
    dict_get "models_loaded" snapshot = Some (VBool true).
Proof.
  pose proof cooperative_session_outcome as Hrun.
  unfold Scenario.cooperative_outcome in Hrun |- *. cbn [snd].
  exact (models_loaded_after_success Scenario.cooperative
           "S1" "U1" "avatars/a.jpg" "garments/g.jpg"
           (Scenario.started Scenario.cooperative) _ _
           [mkRequest Scenario.missing_inputs "S2" "U1" "avatars/a.jpg" "garments/g.jpg"]
           Scenario.missing_inputs Hrun).
Defined.

(** * The container health check *)

Lemma check_packages_true h packages :
  snd (Healthcheck.check_packages h packages) = Ok true <->
  forall p, In p packages -> Healthcheck.import_module h p = Healthcheck.Imported.
Proof.
  induction packages as [|p packages IH]; simpl.
  - split; [intros _ q []|reflexivity].
  - destruct (Healthcheck.import_module h p) as [|msg|e] eqn:Hp.
    + destruct (Healthcheck.check_packages h packages) as [out r]. simpl in IH |- *.
      rewrite IH. split.
      * intros Hall q [<-|Hq]; [exact Hp|apply Hall, Hq].
      * intros Hall q Hq. apply Hall. right. exact Hq.
    + simpl. split; [discriminate|]. intros Hall.
      rewrite (Hall p (or_introl eq_refl)) in Hp. discriminate Hp.
    + simpl. split; [discriminate|]. intros Hall.
      rewrite (Hall p (or_introl eq_refl)) in Hp. discriminate Hp.
Qed.

Lemma check_paths_true h paths :
  snd (Healthcheck.check_paths h paths) = true <->
  forall p, In p paths -> Healthcheck.path_exists h p = true.
Proof.
  induction paths as [|p paths IH]; simpl.
  - split; [intros _ q []|reflexivity].
  - destruct (Healthcheck.path_exists h p) eqn:Hp.
    + destruct (Healthcheck.check_paths h paths) as [out r]. simpl in IH |- *.
      rewrite IH. split.
      * intros Hall q [<-|Hq]; [exact Hp|apply Hall, Hq].
      * intros Hall q Hq. apply Hall. right. exact Hq.
    + simpl. split; [discriminate|]. intros Hall.
      rewrite (Hall p (or_introl eq_refl)) in Hp. discriminate Hp.
Qed.

(** Packages that import only add their lines to the output. *)
Lemma check_packages_app h before rest :
  (forall p, In p before -> Healthcheck.import_module h p = Healthcheck.Imported) ->
  Healthcheck.check_packages h (before ++ rest) =
  ((map Healthcheck.available before ++ fst (Healthcheck.check_packages h rest))%list,
   snd (Healthcheck.check_packages h rest)).
Proof.
  induction before as [|p before IH]; intros Hall.
  - simpl. destruct (Healthcheck.check_packages h rest). reflexivity.
  - change ((p :: before) ++ rest)%list with (p :: (before ++ rest))%list.
    cbn [Healthcheck.check_packages].
    rewrite (Hall p (or_introl eq_refl)), IH.
    + reflexivity.
    + intros q Hq. apply Hall. right. exact Hq.
Qed.

Lemma check_paths_app h before rest :
  (forall p, In p before -> Healthcheck.path_exists h p = true) ->
  Healthcheck.check_paths h (before ++ rest) =
  ((map Healthcheck.path_found before ++ fst (Healthcheck.check_paths h rest))%list,
   snd (Healthcheck.check_paths h rest)).
Proof.
  induction before as [|p before IH]; intros Hall.
  - simpl. destruct (Healthcheck.check_paths h rest). reflexivity.
  - change ((p :: before) ++ rest)%list with (p :: (before ++ rest))%list.
    cbn [Healthcheck.check_paths].
    rewrite (Hall p (or_introl eq_refl)), IH.
    + reflexivity.
    + intros q Hq. apply Hall. right. exact Hq.
Qed.

Lemma check_packages_all h packages :
  (forall p, In p packages -> Healthcheck.import_module h p = Healthcheck.Imported) ->
  Healthcheck.check_packages h packages =
  (map Healthcheck.available packages, Ok true).
Proof.
  intros Hall. rewrite <- (app_nil_r packages) at 1.
  rewrite check_packages_app by exact Hall. simpl. rewrite app_nil_r. reflexivity.
Qed.

(** The health check ends with status 0 exactly when each of the ten
    required packages imports and each of the three model directories
    exists; in every other case it ends with status 1.  With status 0 it has
    printed one line for every package and every directory, and then
    [Health check passed]. *)
Theorem healthcheck_passes_iff h :
  let run := Healthcheck.main h in
  (Healthcheck.exit_status run = 0 <->
   (forall p, In p Healthcheck.required_packages ->
              Healthcheck.import_module h p = Healthcheck.Imported) /\
   (forall p, In p Healthcheck.model_paths -> Healthcheck.path_exists h p = true)) /\
  (Healthcheck.exit_status run = 0 ->
   Healthcheck.stdout run =
     (map Healthcheck.available Healthcheck.required_packages ++
      map Healthcheck.path_found Healthcheck.model_paths ++
      ["Health check passed"])%list) /\
  (Healthcheck.exit_status run <> 0 -> Healthcheck.exit_status run = 1).
Proof.
  cbv zeta. unfold Healthcheck.main, Healthcheck.check_dependencies,
    Healthcheck.check_model_paths.
  pose proof (check_packages_true h Healthcheck.required_packages) as Hpk.
  pose proof (check_paths_true h Healthcheck.model_paths) as Hpa.
  pose proof (check_packages_all h Healthcheck.required_packages) as Hall.
  pose proof (check_paths_app h Healthcheck.model_paths []) as Hpall.
  rewrite app_nil_r in Hpall.
  destruct (Healthcheck.check_packages h Healthcheck.required_packages)
    as [out [[|]|e]]; simpl in Hpk.
  - destruct (Healthcheck.check_paths h Healthcheck.model_paths) as [out' [|]];
      simpl in Hpa.
    + simpl. repeat split.
      * apply Hpk. reflexivity.
      * apply Hpa. reflexivity.
      * intros _. specialize (Hall (proj1 Hpk eq_refl)).
        specialize (Hpall (proj1 Hpa eq_refl)).
        cbn [fst snd Healthcheck.check_paths] in Hpall.
        rewrite app_nil_r in Hpall.
        injection Hall as ->. injection Hpall as ->. reflexivity.
      * intros H. contradiction H. reflexivity.
    + simpl. repeat split; try discriminate.
      * intros [_ H]. apply Hpa in H. discriminate H.
  - simpl. repeat split; try discriminate.
    intros [H _]. apply Hpk in H. discriminate H.
  - simpl. repeat split; try discriminate.
    intros [H _]. apply Hpk in H. discriminate H.
Qed.

(** The check stops at the first package that does not import: the packages
    before it are reported as available, the failing one as missing with the
    text of its [ImportError], and the run ends there with
    [Health check failed] and status 1.  No later package is tried and no
    directory is looked at. *)
Theorem healthcheck_stops_at_missing_package h before package msg after :
  Healthcheck.required_packages = (before ++ package :: after)%list ->
  (forall p, In p before -> Healthcheck.import_module h p = Healthcheck.Imported) ->
  Healthcheck.import_module h package = Healthcheck.ImportFailed msg ->
  Healthcheck.main h =
  Healthcheck.mkRun
    (map Healthcheck.available before ++
     [Healthcheck.missing package msg; "Health check failed"])%list 1.
Proof.
  intros Hsplit Hbefore Hfail.
  unfold Healthcheck.main, Healthcheck.check_dependencies. rewrite Hsplit.
  rewrite check_packages_app by exact Hbefore.
  cbn [Healthcheck.check_packages]. rewrite Hfail. cbn [fst snd].
  rewrite <- app_assoc. reflexivity.
Qed.

Lemma healthcheck_stops_at_missing_package_witness :
  Healthcheck.main
    (Healthcheck.without_package "cv2" "No module named 'cv2'" Healthcheck.complete) =
  Healthcheck.mkRun
    [ Healthcheck.available "torch"; Healthcheck.available "torchvision";
      Healthcheck.missing "cv2" "No module named 'cv2'"; "Health check failed" ] 1.
Proof.
  apply (healthcheck_stops_at_missing_package _ ["torch"; "torchvision"] "cv2" _
           ["numpy"; "scipy"; "PIL"; "skimage"; "boto3"; "yaml"; "smplx"]).
  - reflexivity.
  - intros p [<-|[<-|[]]]; reflexivity.
  - reflexivity.
Defined.

(** When every package imports, the check stops at the first directory that
    does not exist: after one line for each package and for each directory
    before it, the directory is reported as missing and the run ends with
    [Health check failed] and status 1. *)
Theorem healthcheck_stops_at_missing_path h before path after :
  (forall p, In p Healthcheck.required_packages ->
             Healthcheck.import_module h p = Healthcheck.Imported) ->
  Healthcheck.model_paths = (before ++ path :: after)%list ->
  (forall p, In p before -> Healthcheck.path_exists h p = true) ->
  Healthcheck.path_exists h path = false ->
  Healthcheck.main h =
  Healthcheck.mkRun
    (map Healthcheck.available Healthcheck.required_packages ++
     map Healthcheck.path_found before ++
     [Healthcheck.path_missing path; "Health check failed"])%list 1.
Proof.
  intros Hpk Hsplit Hbefore Hfail.
  unfold Healthcheck.main, Healthcheck.check_dependencies,
    Healthcheck.check_model_paths.
  rewrite check_packages_all by exact Hpk. rewrite Hsplit.
  rewrite check_paths_app by exact Hbefore.
  cbn [Healthcheck.check_paths]. rewrite Hfail. cbn [fst snd].
  rewrite <- !app_assoc. reflexivity.
Qed.

Lemma healthcheck_stops_at_missing_path_witness :
  Healthcheck.main (Healthcheck.without_path "/app/weights" Healthcheck.complete) =
  Healthcheck.mkRun
    (map Healthcheck.available Healthcheck.required_packages ++
     map Healthcheck.path_found ["/app/models/smpl"] ++
     [Healthcheck.path_missing "/app/weights"; "Health check failed"])%list 1.
Proof.
  apply (healthcheck_stops_at_missing_path _ ["/app/models/smpl"] "/app/weights"
           ["/app/configs"]).
  - intros p _. reflexivity.
  - reflexivity.
  - intros p [<-|[]]. reflexivity.
  - reflexivity.
Defined.

(** * Assets that were not written *)

Lemma string_app_inv_head (s t1 t2 : string) : s ++ t1 = s ++ t2 -> t1 = t2.
Proof.
  induction s as [|a s IH]; intros H; [exact H|].
  change (String a (s ++ t1) = String a (s ++ t2)) in H.
  injection H as H. apply IH. exact H.
Qed.

Lemma generate_guidance_assets_unwritten env avatar garment pose mesh tmp w f dims :
  fs w !! avatar = Some (Reg f) -> file_cv2 f = Ok (Some dims) ->
  fs w !! (tmp ++ "/depth.png") = None ->
  (forall arr, imwrite env (tmp ++ "/depth.png") arr = Ok None) ->
  (forall path arr, exists r, imwrite env path arr = Ok r) ->
  (forall path text, exists file, write_text env path text = Ok file) ->
  exists w1,
    _generate_guidance_assets env avatar garment pose mesh tmp w =
      (Ok (generated_assets tmp), w1) /\
    fs w1 !! (tmp ++ "/depth.png") = None /\ uploads w1 = uploads w.
Proof.
  intros Hav Hcv Hfree Hdepth Himw Htxt. destruct dims as [height width].
  unfold _generate_guidance_assets, cv2_imread, cv2_imwrite, open_write,
    np_random_randint. unfold_channels. simpl. rewrite Hav, Hcv. simpl.
  repeat (progress
            (try rewrite Hdepth;
             try match goal with
                 | |- context [imwrite env ?p ?a] =>
                     let r := fresh "r" in
                     let Hr := fresh "Hr" in
                     destruct (Himw p a) as [r Hr]; rewrite Hr; destruct r
                 end;
             try match goal with
                 | |- context [write_text env ?p ?t] =>
                     let file := fresh "file" in
                     let Hf := fresh "Hf" in
                     destruct (Htxt p t) as [file Hf]; rewrite Hf
                 end;
             unfold ret, modify, bind, raise; simpl)).
  all: eexists; split; [reflexivity|]; simpl; split; [|reflexivity].
  all: rewrite ?lookup_insert_ne
         by (intros Heq; apply string_app_inv_head in Heq; discriminate Heq).
  all: exact Hfree.
Qed.

(** [_generate_guidance_assets] never looks at what [cv2.imwrite] answers.
    When the depth map cannot be written, the stage still reports five
    assets, and the session fails one stage later:
    [_upload_guidance_assets] raises [FileNotFoundError] for [depth.png]
    before anything has been uploaded. *)
Theorem unwritten_depth_map_fails_at_upload
    env sid avatar garment pose mesh tmp w f dims :
  fs w !! avatar = Some (Reg f) -> file_cv2 f = Ok (Some dims) ->
  fs w !! (tmp ++ "/depth.png") = None ->
  (forall arr, imwrite env (tmp ++ "/depth.png") arr = Ok None) ->
  (forall path arr, exists r, imwrite env path arr = Ok r) ->
  (forall path text, exists file, write_text env path text = Ok file) ->
  let gen := _generate_guidance_assets env avatar garment pose mesh tmp w in
  let up := _upload_guidance_assets env sid (generated_assets tmp) tmp (snd gen) in
  fst gen = Ok (generated_assets tmp) /\
  fst up = Raise (FileNotFoundError (tmp ++ "/depth.png")) /\
  uploads (snd up) = uploads w.
Proof.
  intros Hav Hcv Hfree Hdepth Himw Htxt. cbv zeta.
  destruct (generate_guidance_assets_unwritten env avatar garment pose mesh tmp w f dims
              Hav Hcv Hfree Hdepth Himw Htxt) as (w1 & -> & Hgone & Hup).
  cbn [fst snd]. split; [reflexivity|].
  unfold _upload_guidance_assets, generated_assets. cbn [upload_assets].
  unfold s3_upload_file. unfold_channels.
  cbn [fs set_log set_clock_reads fst snd uploads]. rewrite Hgone.
  cbn [fst snd uploads set_log]. split; [reflexivity|exact Hup].
Qed.

Lemma unwritten_depth_map_fails_at_upload_witness :
  let gen := _generate_guidance_assets unwritable_depth
               (temp_dir_of "S1" ++ "/avatar.jpg") (temp_dir_of "S1" ++ "/garment.jpg")
               {| poses_3d := Arr []; poses_2d := Arr [];
                  confidence := PyFloat 850000; bbox := [];
                  person_detected := true |}
               PromptExample.tall_a (temp_dir_of "S1") (snd inputs_fetched) in
  let up := _upload_guidance_assets unwritable_depth "S1"
              (generated_assets (temp_dir_of "S1")) (temp_dir_of "S1") (snd gen) in
  fst gen = Ok (generated_assets (temp_dir_of "S1")) /\
  fst up = Raise (FileNotFoundError (temp_dir_of "S1" ++ "/depth.png")) /\
  uploads (snd up) = uploads (snd inputs_fetched).
Proof.
  apply (unwritten_depth_map_fails_at_upload unwritable_depth "S1" _ _ _ _ _ _
           Scenario.portrait (256%N, 256%N)).
  - vm_compute. reflexivity.
  - reflexivity.
  - vm_compute. reflexivity.
  - intros arr. reflexivity.
  - intros path arr. unfold unwritable_depth, imwrite.
    destruct (String.eqb path _); eexists; reflexivity.
  - intros path text. eexists. reflexivity.
Defined.

(** * Nobody in the picture: the session completes (C9) *)

Lemma bind_Ok_run {A B} (m : M A) (k : A -> M B) w a w1 :
  m w = (Ok a, w1) -> bind m k w = k a w1.
Proof. intros H. rewrite bind_run, H. reflexivity. Qed.

Lemma try_except_Ok_run {A} (m : M A) (h : Exn -> M A) w a w1 :
  m w = (Ok a, w1) -> try_except m h w = (Ok a, w1).
Proof. intros H. unfold try_except. rewrite H. reflexivity. Qed.

Lemma makedirs_returns env path w :
  makedirs env path = None ->
  exists w1,
    os_makedirs env path w = (Ok tt, w1) /\
    forall q node, fs w !! q = Some node -> fs w1 !! q = Some node.
Proof.
  intros Hmk. unfold os_makedirs, check, bind, modify, ret. rewrite Hmk.
  eexists. split; [reflexivity|]. intros q node Hq.
  destruct (fs w !! path) eqn:Hpath; [exact Hq|]. simpl.
  rewrite lookup_insert_ne; [exact Hq|]. intros ->. congruence.
Qed.

Lemma world_with_file path f w :
  fs w !! path = Some (Reg f) -> with_file path f w = w.
Proof.
  intros Hf. unfold with_file. rewrite insert_id by exact Hf.
  destruct w. reflexivity.
Qed.

(** A file that passes the checks is accepted. *)
Lemma validate_image_accepts path ty f w :
  fs w !! path = Some (Reg f) -> acceptable (cfg w) f ->
  exists w',
    _validate_image path ty w = (Ok tt, w') /\ fs w' = fs w /\ cfg w' = cfg w.
Proof.
  intros Hf (Hsize & img & Hpil & Hfmt & Hw & Hh).
  pose proof (validate_image_outcome path ty f w) as Hout.
  rewrite (world_with_file path f w Hf) in Hout.
  change (1024 * 1024) with one_mb in Hsize.
  destruct (Z.gtb_spec (Z.of_N (file_size f)) (max_image_size_mb (cfg w) * one_mb))
    as [Hbig|_]; [lia|].
  rewrite Hpil in Hout.
  apply existsb_allowed_formats in Hfmt. rewrite Hfmt in Hout. cbn [negb] in Hout.
  apply N.ltb_ge in Hw. apply N.ltb_ge in Hh. rewrite Hw, Hh in Hout.
  cbn [orb] in Hout.
  destruct (_validate_image path ty w) as [r w'] eqn:Hrun. simpl in Hout. subst r.
  exists w'. split; [reflexivity|].
  carried fs Hrun Hfs. carried cfg Hrun Hcfg. split; assumption.
Qed.

Lemma download_returns env bucket key path f w :
  download_file env bucket key path = Ok f ->
  exists w1,
    s3_download_file env bucket key path w = (Ok tt, w1) /\
    fs w1 = <[path := Reg f]> (fs w) /\ cfg w1 = cfg w /\
    smpl_models w1 = smpl_models w.
Proof.
  intros Hdl. unfold s3_download_file, bind, lift, modify, ret. rewrite Hdl.
  eexists. split; [reflexivity|]. destruct w. repeat split.
Qed.

Lemma download_input_images_succeeds env sid ak gk tmp w fa fg :
  download_file env (bucket_uploads (cfg w)) ak (tmp ++ "/avatar.jpg") = Ok fa ->
  download_file env (bucket_uploads (cfg w)) gk (tmp ++ "/garment.jpg") = Ok fg ->
  acceptable (cfg w) fa -> acceptable (cfg w) fg ->
  exists w',
    _download_input_images env sid ak gk tmp w =
      (Ok (tmp ++ "/avatar.jpg", tmp ++ "/garment.jpg"), w') /\
    fs w' !! (tmp ++ "/avatar.jpg") = Some (Reg fa).
Proof.
  intros Ha Hg Hoka Hokg.
  destruct (download_returns env _ _ _ fa w Ha) as (w1 & Hd1 & Hfs1 & Hcfg1 & _).
  destruct (download_returns env _ _ _ fg w1 Hg) as (w2 & Hd2 & Hfs2 & Hcfg2 & _).
  assert (Hfa : fs w2 !! (tmp ++ "/avatar.jpg") = Some (Reg fa)).
  { rewrite Hfs2, Hfs1. rewrite lookup_insert_ne.
    - apply lookup_insert_eq.
    - intros Heq. apply string_app_inv_head in Heq. discriminate Heq. }
  assert (Hfg : fs w2 !! (tmp ++ "/garment.jpg") = Some (Reg fg)).
  { rewrite Hfs2. apply lookup_insert_eq. }
  destruct (validate_image_accepts (tmp ++ "/avatar.jpg") "avatar" fa w2 Hfa)
    as (w3 & Hv1 & Hfs3 & Hcfg3); [rewrite Hcfg2, Hcfg1; exact Hoka|].
  destruct (validate_image_accepts (tmp ++ "/garment.jpg") "garment" fg w3)
    as (w4 & Hv2 & Hfs4 & Hcfg4).
  { rewrite Hfs3. exact Hfg. }
  { rewrite Hcfg3, Hcfg2, Hcfg1. exact Hokg. }
  eexists. split.
  - unfold _download_input_images. cbv zeta. apply try_except_Ok_run.
    unfold bind at 1, gets at 1. cbv beta iota.
    rewrite (bind_Ok_run _ _ _ _ _ Hd1), (bind_Ok_run _ _ _ _ _ Hd2),
      (bind_Ok_run _ _ _ _ _ Hv1), (bind_Ok_run _ _ _ _ _ Hv2).
    unfold bind, logger_info, modify, ret. reflexivity.
  - simpl. rewrite Hfs4, Hfs3. exact Hfa.
Qed.

Lemma last_ascii_app (s : string) (c : ascii) (t : string) :
  last_ascii (s ++ String c t) = last_ascii (String c t).
Proof.
  induction s as [|a s IH]; [reflexivity|].
  change (last_ascii (String a (s ++ String c t)) = last_ascii (String c t)).
  rewrite <- IH. simpl. destruct s; reflexivity.
Qed.

(** No model file is the avatar of a session. *)
Lemma model_file_not_avatar (dir tmp file : string) :
  In file model_files -> dir ++ "/" ++ file <> tmp ++ "/avatar.jpg".
Proof.
  intros Hin Heq. apply (f_equal last_ascii) in Heq.
  change (tmp ++ "/avatar.jpg") with (tmp ++ String "/" "avatar.jpg") in Heq.
  rewrite last_ascii_app in Heq.
  destruct Hin as [<-|[<-|[<-|[]]]];
    match type of Heq with
    | last_ascii (dir ++ "/" ++ ?file) = _ =>
        change (dir ++ "/" ++ file) with (dir ++ String "/" file) in Heq
    end;
    rewrite last_ascii_app in Heq; discriminate Heq.
Qed.

Lemma download_models_succeeds env files w a fa :
  (forall path, makedirs env path = None) ->
  (forall file, In file files ->
     exists f,
       download_file env (bucket_smpl_assets (cfg w)) ("models/" ++ file)
         (model_path_smpl (cfg w) ++ "/" ++ file) = Ok f) ->
  (forall file, In file files -> model_path_smpl (cfg w) ++ "/" ++ file <> a) ->
  fs w !! a = Some (Reg fa) ->
  exists w',
    download_models env files w = (Ok tt, w') /\
    fs w' !! a = Some (Reg fa) /\ cfg w' = cfg w.
Proof.
  intros Hmk. revert w. induction files as [|file files IH]; intros w Hdl Hne Ha.
  - exists w. repeat split. exact Ha.
  - cbn [download_models]. unfold bind at 1, gets at 1. cbv beta iota.
    unfold bind at 1, os_path_exists at 1, gets at 1. cbv beta iota.
    assert (Hstep : exists w1,
              (if match fs w !! (model_path_smpl (cfg w) ++ "/" ++ file) with
                  | Some _ => true
                  | None => false
                  end
               then ret tt
               else
                 os_makedirs env (dirname (model_path_smpl (cfg w) ++ "/" ++ file)) ;;
                 s3_download_file env (bucket_smpl_assets (cfg w)) ("models/" ++ file)
                   (model_path_smpl (cfg w) ++ "/" ++ file) ;;
                 logger_info ("Downloaded SMPL model: " ++ file)) w = (Ok tt, w1) /\
              fs w1 !! a = Some (Reg fa) /\ cfg w1 = cfg w).
    { destruct (fs w !! (model_path_smpl (cfg w) ++ "/" ++ file)).
      - exists w. repeat split. exact Ha.
      - destruct (makedirs_returns env
                    (dirname (model_path_smpl (cfg w) ++ "/" ++ file)) w (Hmk _))
          as (w1 & Hrun1 & Hfs1).
        carried cfg Hrun1 Hcfg1.
        destruct (Hdl file (or_introl eq_refl)) as [f Hf].
        destruct (download_returns env _ _ _ f w1 Hf) as (w2 & Hrun2 & Hfs2 & Hcfg2 & _).
        eexists. split.
        + rewrite (bind_Ok_run _ _ _ _ _ Hrun1), (bind_Ok_run _ _ _ _ _ Hrun2).
          unfold logger_info, modify. reflexivity.
        + simpl. split; [|congruence].
          rewrite Hfs2, lookup_insert_ne by (apply Hne; left; reflexivity).
          apply Hfs1. exact Ha. }
    destruct Hstep as (w1 & Hrun1 & Ha1 & Hcfg1).
    rewrite (bind_Ok_run _ _ _ _ _ Hrun1).
    destruct (IH w1) as (w' & Hrun & Ha' & Hcfg').
    + intros f Hin. rewrite Hcfg1. apply Hdl. right. exact Hin.
    + intros f Hin. rewrite Hcfg1. apply Hne. right. exact Hin.
    + exact Ha1.
    + exists w'. split; [exact Hrun|]. split; [exact Ha'|congruence].
Qed.

Lemma load_smpl_models_succeeds env w a fa :
  (forall path, makedirs env path = None) ->
  (forall file, In file model_files ->
     exists f,
       download_file env (bucket_smpl_assets (cfg w)) ("models/" ++ file)
         (model_path_smpl (cfg w) ++ "/" ++ file) = Ok f) ->
  (forall file, In file model_files -> model_path_smpl (cfg w) ++ "/" ++ file <> a) ->
  fs w !! a = Some (Reg fa) ->
  exists w',
    _load_smpl_models env w = (Ok tt, w') /\ fs w' !! a = Some (Reg fa).
Proof.
  intros Hmk Hdl Hne Ha.
  destruct (smpl_models w) as [|handle handles] eqn:Hcache.
  - destruct (download_models_succeeds env model_files
                (set_log (log w ++ [mkLogRecord INFO "Loading SMPL models from S3..."]) w)
                a fa Hmk) as (w1 & Hrun & Ha1 & Hcfg1).
    + destruct w; exact Hdl.
    + destruct w; exact Hne.
    + destruct w; exact Ha.
    + eexists. split.
      * unfold _load_smpl_models. unfold bind at 1, gets at 1. rewrite Hcache.
        apply try_except_Ok_run.
        unfold bind at 1, logger_info at 1, modify at 1. cbv beta iota.
        rewrite (bind_Ok_run _ _ _ _ _ Hrun).
        unfold bind, gets, modify, logger_info, ret. reflexivity.
      * destruct w1. exact Ha1.
  - exists w. split; [|exact Ha]. apply load_smpl_models_cached.
    rewrite Hcache. discriminate.
Qed.

Lemma fit_body_mesh_succeeds env path pose tmp w a fa :
  (forall path, makedirs env path = None) ->
  (forall file, In file model_files ->
     exists f,
       download_file env (bucket_smpl_assets (cfg w)) ("models/" ++ file)
         (model_path_smpl (cfg w) ++ "/" ++ file) = Ok f) ->
  (forall file, In file model_files -> model_path_smpl (cfg w) ++ "/" ++ file <> a) ->
  fs w !! a = Some (Reg fa) ->
  exists mesh w',
    _fit_body_mesh env path pose tmp w = (Ok mesh, w') /\
    fs w' !! a = Some (Reg fa) /\
    fit_confidence mesh = Some (PyFloat 780000).
Proof.
  intros Hmk Hdl Hne Ha.
  destruct (load_smpl_models_succeeds env
              (set_log (log w ++ [mkLogRecord INFO "Fitting SMPL body mesh..."]) w)
              a fa Hmk) as (w1 & Hrun & Ha1).
  - destruct w; exact Hdl.
  - destruct w; exact Hne.
  - destruct w; exact Ha.
  - do 2 eexists. split.
    + unfold _fit_body_mesh. unfold bind at 1, logger_info at 1, modify at 1.
      cbv beta iota. apply try_except_Ok_run.
      rewrite (bind_Ok_run _ _ _ _ _ Hrun).
      unfold bind, np_random_randn, getitem, logger_info, modify, ret. simpl.
      reflexivity.
    + split; [|reflexivity]. destruct w1. exact Ha1.
Qed.

Lemma generate_guidance_assets_succeeds env avatar garment pose mesh tmp w f dims :
  fs w !! avatar = Some (Reg f) -> file_cv2 f = Ok (Some dims) ->
  (forall path arr, exists file, imwrite env path arr = Ok (Some file)) ->
  (forall path text, exists file, write_text env path text = Ok file) ->
  exists w',
    _generate_guidance_assets env avatar garment pose mesh tmp w =
      (Ok (generated_assets tmp), w') /\
    forall kind path, In (kind, path) (generated_assets tmp) ->
      exists file, fs w' !! path = Some (Reg file).
Proof.
  intros Hav Hcv Himw Htxt. destruct dims as [height width].
  unfold _generate_guidance_assets, cv2_imread, cv2_imwrite, open_write,
    np_random_randint. unfold_channels. simpl. rewrite Hav, Hcv. simpl.
  repeat (progress
            (try match goal with
                 | |- context [imwrite env ?p ?a] =>
                     let r := fresh "r" in
                     let Hr := fresh "Hr" in
                     destruct (Himw p a) as [r Hr]; rewrite Hr
                 end;
             try match goal with
                 | |- context [write_text env ?p ?t] =>
                     let file := fresh "file" in
                     let Hf := fresh "Hf" in
                     destruct (Htxt p t) as [file Hf]; rewrite Hf
                 end;
             unfold ret, modify, bind, raise; simpl)).
  eexists. split; [reflexivity|]. simpl.
  intros kind path Hin. unfold generated_assets in Hin.
  repeat destruct Hin as [Hin|Hin]; try contradiction;
    injection Hin as _ <-;
    repeat (rewrite lookup_insert_ne
              by (intros Heq; apply string_app_inv_head in Heq; discriminate Heq));
    rewrite lookup_insert_eq; eexists; reflexivity.
Qed.

Lemma upload_assets_succeeds env sid items acc w :
  (forall kind path, In (kind, path) items ->
     exists file, fs w !! path = Some (Reg file)) ->
  (forall path bucket key ctype, upload_file env path bucket key ctype = None) ->
  exists keys w', upload_assets env sid items acc w = (Ok keys, w').
Proof.
  intros Hfiles Hup. revert acc w Hfiles.
  induction items as [|[kind path] items IH]; intros acc w Hfiles.
  - do 2 eexists. reflexivity.
  - destruct (Hfiles kind path (or_introl eq_refl)) as [file Hfile].
    cbn [upload_assets].
    unfold bind at 1, time_time at 1, bind at 1, read_clock at 1, ret at 1.
    cbv beta iota. unfold bind at 1, gets at 1. cbv beta iota.
    unfold bind at 1, s3_upload_file at 1, bind at 1, gets at 1. cbv beta iota.
    cbn [fs set_clock_reads]. rewrite Hfile. cbv beta iota.
    unfold bind at 1, check at 1. rewrite Hup. unfold ret at 1, modify at 1.
    cbv beta iota. unfold bind at 1, logger_info at 1, modify at 1. cbv beta iota.
    apply IH. intros kind' path' Hin. cbn [fs set_log set_uploads set_clock_reads].
    apply (Hfiles kind' path'). right. exact Hin.
Qed.

Lemma upload_guidance_assets_succeeds env sid assets tmp w :
  (forall kind path, In (kind, path) assets ->
     exists file, fs w !! path = Some (Reg file)) ->
  (forall path bucket key ctype, upload_file env path bucket key ctype = None) ->
  exists keys w', _upload_guidance_assets env sid assets tmp w = (Ok keys, w').
Proof.
  intros Hfiles Hup.
  destruct (upload_assets_succeeds env sid assets []
              (set_log (log w ++ [mkLogRecord INFO
                                    ("Uploading guidance assets for session " ++ sid)]) w))
    as (keys & w' & Hrun); [destruct w; exact Hfiles|exact Hup|].
  exists keys, w'. unfold _upload_guidance_assets.
  unfold bind at 1, logger_info at 1, modify at 1. cbv beta iota.
  apply try_except_Ok_run. exact Hrun.
Qed.

Lemma publish_completion_event_succeeds env sid uid keys mesh w :
  (forall ev, put_events env ev = Ok 0%N) ->
  exists w', _publish_completion_event env sid uid keys mesh w = (Ok tt, w').
Proof.
  intros Hbus. unfold _publish_completion_event. unfold_channels. simpl.
  rewrite Hbus. simpl. eexists. reflexivity.
Qed.

(** The stages of a session in which every collaborator answers and the
    pose stage finds nobody. *)
Lemma run_stages_completes est env sid uid ak gk w :
  reports_nobody est env -> cooperates env (cfg w) sid ak gk ->
  exists keys mesh w',
    run_stages est env sid uid ak gk (temp_dir_of sid) w = (Ok (keys, mesh), w') /\
    (exists t1 t2 t3 t4 t5,
       keys = session_keys sid t1 t2 t3 t4 t5 /\
       uploads w' =
         (uploads w ++
          session_uploads (bucket_guidance (cfg w)) sid (temp_dir_of sid)
            t1 t2 t3 t4 t5)%list) /\
    (exists wp,
       cfg wp = cfg w /\
       events w' = (events w ++ [completion_event env sid uid keys mesh wp])%list) /\
    fit_confidence mesh = Some (PyFloat 780000) /\
    smpl_models w' <> [] /\ stats w' = stats w.
Proof.
  intros Hest [Hmk (fa & dims & Hda & Hoka & Hcva) (fg & Hdg & Hokg) Hmodels
                 Himw Htxt Hup Hbus].
  destruct (makedirs_returns env (temp_dir_of sid) w (Hmk _)) as (w1 & H1 & _).
  carried cfg H1 Hc1. carried stats H1 Hs1. carried uploads H1 Hu1.
  carried events H1 He1.
  pose (msg := "Processing session " ++ sid ++ " for user " ++ uid).
  assert (H2 : logger_info msg w1 =
               (Ok tt, set_log (log w1 ++ [mkLogRecord INFO msg]) w1)) by reflexivity.
  set (w2 := set_log (log w1 ++ [mkLogRecord INFO msg]) w1) in H2.
  carried cfg H2 Hc2. carried stats H2 Hs2. carried uploads H2 Hu2.
  carried events H2 He2.
  destruct (download_input_images_succeeds env sid ak gk (temp_dir_of sid) w2 fa fg)
    as (w3 & H3 & Hfa3); try (rewrite Hc2, Hc1; assumption).
  carried cfg H3 Hc3. carried stats H3 Hs3. carried uploads H3 Hu3.
  carried events H3 He3.
  destruct (Hest (temp_dir_of sid ++ "/avatar.jpg") (temp_dir_of sid) w3 fa dims
              Hfa3 Hcva)
    as (p & w4 & H4 & _ & Hc4 & _ & Hs4 & Hfs4 & _ & Hu4 & He4 & _).
  destruct (fit_body_mesh_succeeds env (temp_dir_of sid ++ "/avatar.jpg") p
              (temp_dir_of sid) w4 (temp_dir_of sid ++ "/avatar.jpg") fa (Hmk))
    as (mesh & w5 & H5 & Hfa5 & Hfit).
  { rewrite Hc4, Hc3, Hc2, Hc1. exact Hmodels. }
  { intros file Hin. apply model_file_not_avatar. exact Hin. }
  { rewrite Hfs4. exact Hfa3. }
  carried cfg H5 Hc5. carried stats H5 Hs5. carried uploads H5 Hu5.
  carried events H5 He5.
  pose proof (fit_body_mesh_Ok _ _ _ _ _ _ _ H5) as Hm5.
  destruct (generate_guidance_assets_succeeds env (temp_dir_of sid ++ "/avatar.jpg")
              (temp_dir_of sid ++ "/garment.jpg") p mesh (temp_dir_of sid) w5 fa dims
              Hfa5 Hcva Himw Htxt) as (w6 & H6 & Hfiles).
  carried cfg H6 Hc6. carried stats H6 Hs6. carried uploads H6 Hu6.
  carried events H6 He6.
  pose proof (later_models _ _
                (evolves_run _ _ _ _ (later_generate_guidance_assets _ _ _ _ _ _) H6)
                Hm5) as Hm6.
  destruct (upload_guidance_assets_succeeds env sid (generated_assets (temp_dir_of sid))
              (temp_dir_of sid) w6 Hfiles Hup) as (keys & w7 & H7).
  carried stats H7 Hs7.
  pose proof (later_models _ _
                (evolves_run _ _ _ _ (later_upload_guidance_assets _ _ _ _) H7)
                Hm6) as Hm7.
  destruct (publish_completion_event_succeeds env sid uid keys mesh w7 Hbus)
    as (w8 & H8).
  carried stats H8 Hs8.
  pose proof (later_models _ _
                (evolves_run _ _ _ _ (later_publish_completion_event _ _ _ _ _) H8)
                Hm7) as Hm8.
  exists keys, mesh, w8. split.
  - unfold run_stages.
    rewrite (bind_Ok_run _ _ _ _ _ H1). fold msg.
    rewrite (bind_Ok_run _ _ _ _ _ H2), (bind_Ok_run _ _ _ _ _ H3).
    cbn [fst snd].
    rewrite (bind_Ok_run _ _ _ _ _ H4), (bind_Ok_run _ _ _ _ _ H5),
      (bind_Ok_run _ _ _ _ _ H6), (bind_Ok_run _ _ _ _ _ H7),
      (bind_Ok_run _ _ _ _ _ H8). reflexivity.
  - apply upload_generated_assets_run in H7
      as (t1 & t2 & t3 & t4 & t5 & Hkeys & Hu7 & Hc7 & He7).
    apply publish_completion_event_Ok in H8 as (He8 & Hu8).
    split; [|split; [|split; [|split]]].
    + exists t1, t2, t3, t4, t5. split; [exact Hkeys|].
      rewrite Hu8, Hu7. congruence.
    + exists w7. split; [congruence|]. rewrite He8, He7. congruence.
    + exact Hfit.
    + exact Hm8.
    + congruence.
Qed.

Lemma nobody_there_reports_nobody env : reports_nobody nobody_there env.
Proof.
  intros path tmp w f [height width] Hf Hcv.
  unfold nobody_there, no_person, _estimate_pose_romp, cv2_imread, try_except, bind,
    gets, lift, ret, raise, logger_info, logger_error, modify, np_random_randn.
  simpl. rewrite Hf, Hcv. simpl.
  do 2 eexists. split; [reflexivity|]. split; [reflexivity|].
  destruct w. repeat split.
Qed.

(** C9: no stage gates on what the pose stage found.  First, for every pose
    stage and every environment, replacing its estimate by one with
    [person_detected = false] and confidence 0 changes nothing: the result,
    the raised error and the final world of [process_image] are the same.
    Second, when the pose stage reports that it found nobody and every
    collaborator answers, the session runs to its end: the mesh is fitted
    (models loaded, fit confidence 0.78), the five assets are generated and
    uploaded, the completion event, and no other event, is emitted with the
    keys and the metadata of the result, the session is counted as
    processed and not as an error, and [process_image] returns with status
    [success]. *)
Theorem no_person_does_not_abort est env sid uid ak gk w :
  (forall est0,
     process_image_with (no_person est0) env sid uid ak gk w =
     process_image_with est0 env sid uid ak gk w) /\
  (reports_nobody est env -> cooperates env (cfg w) sid ak gk ->
   exists res w',
     process_image_with est env sid uid ak gk w = (Ok res, w') /\
     status res = "success" /\
     (exists t1 t2 t3 t4 t5,
        guidance_assets res = session_keys sid t1 t2 t3 t4 t5 /\
        uploads w' =
          (uploads w ++
           session_uploads (bucket_guidance (cfg w)) sid (temp_dir_of sid)
             t1 t2 t3 t4 t5)%list) /\
     (exists wp,
        cfg wp = cfg w /\
        events w' =
          (events w ++
           [completion_event env sid uid (guidance_assets res) (smpl_metadata res)
              wp])%list) /\
     fit_confidence (smpl_metadata res) = Some (PyFloat 780000) /\
     smpl_models w' <> [] /\
     processed_count (stats w') = processed_count (stats w) + 1 /\
     error_count (stats w') = error_count (stats w)).
Proof.
  split; [intros est0; apply process_image_with_no_person|].
  intros Hest Hcoop.
  destruct (run_stages_completes est env sid uid ak gk
              (set_clock_reads (S (clock_reads w)) w) Hest)
    as (keys & mesh & w2 & Hrun & Hup & Hev & Hfit & Hmodels & Hstats).
  { destruct w. exact Hcoop. }
  rewrite process_image_with_attempt. unfold attempt. rewrite Hrun. cbn [fst snd].
  rewrite report_success_outcome. do 2 eexists. split; [reflexivity|].
  cbn [status guidance_assets smpl_metadata success_result].
  split; [reflexivity|].
  split; [|split; [|split; [|split; [|split]]]].
  - destruct Hup as (t1 & t2 & t3 & t4 & t5 & Hkeys & Hup).
    exists t1, t2, t3, t4, t5. split; [exact Hkeys|].
    rewrite uploads_after_success, Hup. destruct w. reflexivity.
  - destruct Hev as (wp & Hcfg & Hev). exists wp. split.
    + rewrite Hcfg. destruct w. reflexivity.
    + rewrite (preserves_cleanup_temp_files events events_Local),
        report_success_events, Hev. destruct w. reflexivity.
  - exact Hfit.
  - apply (later_models _ _ (later_cleanup_temp_files env _ _)).
    apply (later_models _ _ (later_report_success env sid _ _ _ w2)).
    exact Hmodels.
  - rewrite (preserves_cleanup_temp_files stats stats_Local), report_success_stats,
      Hstats. destruct w. reflexivity.
  - rewrite (preserves_cleanup_temp_files stats stats_Local), report_success_stats,
      Hstats. destruct w. reflexivity.
Qed.

Lemma no_person_does_not_abort_witness :
  exists res w',
    process_image_with nobody_there Scenario.cooperative
      "S1" "U1" "avatars/a.jpg" "garments/g.jpg"
      (Scenario.started Scenario.cooperative) = (Ok res, w') /\
    status res = "success" /\
    smpl_models w' <> [] /\
    processed_count (stats w') =
      processed_count (stats (Scenario.started Scenario.cooperative)) + 1.
Proof.
  assert (Hok : acceptable (cfg (Scenario.started Scenario.cooperative))
                  Scenario.portrait).
  { split; [vm_compute; discriminate|].
    eexists. split; [reflexivity|]. split; [left; reflexivity|].
    split; vm_compute; discriminate. }
  assert (Hcoop : cooperates Scenario.cooperative
                    (cfg (Scenario.started Scenario.cooperative))
                    "S1" "avatars/a.jpg" "garments/g.jpg").
  { split.
    - reflexivity.
    - exists Scenario.portrait, (256%N, 256%N). split; [reflexivity|].
      split; [exact Hok|reflexivity].
    - exists Scenario.portrait. split; [reflexivity|exact Hok].
    - intros file _. eexists. reflexivity.
    - intros path arr. eexists. reflexivity.
    - intros path text. eexists. reflexivity.
    - reflexivity.
    - reflexivity. }
  destruct (proj2 (no_person_does_not_abort nobody_there Scenario.cooperative
                     "S1" "U1" "avatars/a.jpg" "garments/g.jpg"
                     (Scenario.started Scenario.cooperative))
              (nobody_there_reports_nobody Scenario.cooperative) Hcoop)
    as (res & w' & Hrun & Hstatus & _ & _ & _ & Hmodels & Hcount & _).
  exists res, w'. repeat split; assumption.
Defined.
